(** * reddit_scraper.py: an incremental Reddit harvester, embedded and verified

    The development follows [src/reddit_scraper.py].  The scraper is one
    class, [RedditScraper], whose methods thread three pieces of mutable
    state: the set [processed_post_ids], the local file system holding the
    two CSV outputs, and the stream of side effects (logging, the progress
    bar, [time.sleep]).  Methods are embedded in a small state-and-exception
    monad; what lies outside the repository is an explicit environment:

    - the remote source (PRAW): one lazily produced, possibly failing search
      listing per (subreddit, query), and for each submission a comment
      forest whose retrieval may fail;
    - the host: its local time zone (naive [datetime.timestamp()] reads it)
      and whether a write to a given path fails;
    - pandas reading a CSV file back: the type it infers for each column,
      on which it depends whether an identifier comes back as the [str]
      that was written ([Pandas.Reader]).

    Third-party library calls are modelled after their published sources:
    CPython's [datetime] and [calendar], [dateutil.relativedelta], PRAW's
    [CommentForest], and pandas' [to_csv] / [read_csv] at the level of rows
    and cells (quoting and encodings are not modelled).  Attribute reads on
    objects that were already fetched do not raise.

    The log file [scraper.log] is kept apart from the files of the state:
    [logging.basicConfig] opens it with [mode='w'] when the module is
    loaded, which empties it, and from then on every logging call adds a
    line to it; those calls are the [LogInfo], [LogWarning] and [LogError]
    events of the state, in order ([scraper_log]). *)

From Stdlib Require Import ZArith QArith Ascii Decimal DecimalString.
From stdpp Require Import base gmap strings list fin_maps.

Local Open Scope string_scope.
Local Open Scope list_scope.
Local Open Scope Z_scope.

(** ** Python values written to the CSV cells *)

Inductive value :=
| VStr (s : string)
| VInt (n : Z)
| VFloat (q : Q).

(** A Python dict with string keys, in insertion order. *)
Definition record := list (string * value).

(** The exceptions that reach the scraper; all derive from [Exception]. *)
Inductive exn :=
| EmptyDataError
| KeyError (key : string)
| AttributeError (msg : string)
| RemoteError (msg : string)
| OSError (msg : string).

(** The text that [f"{e}"] prints. *)
Definition exn_str (e : exn) : string :=
  match e with
  | EmptyDataError => "No columns to parse from file"
  | KeyError k => "'" +:+ k +:+ "'"
  | AttributeError m | RemoteError m | OSError m => m
  end.

(** ** CPython [datetime], [calendar] and [dateutil.relativedelta] *)

Module PyDatetime.

Record datetime := mk_datetime {
  year : Z; month : Z; day : Z;
  hour : Z; minute : Z; second : Z
}.

(** [datetime(y, m, d)]: a naive datetime at midnight. *)
Definition datetime_ymd (y m d : Z) : datetime := mk_datetime y m d 0 0 0.

Definition _is_leap (y : Z) : bool :=
  (y mod 4 =? 0) && (negb (y mod 100 =? 0) || (y mod 400 =? 0)).

(** [_DAYS_IN_MONTH[m]]. *)
Definition _DAYS_IN_MONTH (m : Z) : Z :=
  if m =? 2 then 28
  else if (m =? 4) || (m =? 6) || (m =? 9) || (m =? 11) then 30
  else 31.

(** [_DAYS_BEFORE_MONTH[m]]. *)
Definition _DAYS_BEFORE_MONTH (m : Z) : Z :=
  match m with
  | 1 => 0 | 2 => 31 | 3 => 59 | 4 => 90 | 5 => 120 | 6 => 151
  | 7 => 181 | 8 => 212 | 9 => 243 | 10 => 273 | 11 => 304 | 12 => 334
  | _ => 0
  end.

Definition _days_before_year (y : Z) : Z :=
  let y := y - 1 in y * 365 + y / 4 - y / 100 + y / 400.

Definition _days_before_month (y m : Z) : Z :=
  _DAYS_BEFORE_MONTH m + (if (2 <? m) && _is_leap y then 1 else 0).

Definition _ymd2ord (y m d : Z) : Z :=
  _days_before_year y + _days_before_month y m + d.

Definition _DI400Y : Z := 146097.
Definition _DI100Y : Z := 36524.
Definition _DI4Y : Z := 1461.

Definition _ord2ymd (n : Z) : Z * Z * Z :=
  let n := n - 1 in
  let n400 := n / _DI400Y in let n := n mod _DI400Y in
  let year := n400 * 400 + 1 in
  let n100 := n / _DI100Y in let n := n mod _DI100Y in
  let n4 := n / _DI4Y in let n := n mod _DI4Y in
  let n1 := n / 365 in let n := n mod 365 in
  let year := year + n100 * 100 + n4 * 4 + n1 in
  if (n1 =? 4) || (n100 =? 4) then (year - 1, 12, 31)
  else
    let leapyear := (n1 =? 3) && (negb (n4 =? 24) || (n100 =? 3)) in
    let month := Z.shiftr (n + 50) 5 in
    let preceding :=
      _DAYS_BEFORE_MONTH month + (if (2 <? month) && leapyear then 1 else 0) in
    if n <? preceding then
      let month := month - 1 in
      let preceding :=
        preceding - (_DAYS_IN_MONTH month
                     + (if (month =? 2) && leapyear then 1 else 0)) in
      (year, month, n - preceding + 1)
    else (year, month, n - preceding + 1).

(** Ordinal of 1970-01-01. *)
Definition _EPOCH_ORD : Z := 719163.

(** Seconds between the epoch and the wall-clock reading [dt] taken as
    UTC: [(dt - _EPOCH).total_seconds()] for an aware UTC datetime. *)
Definition utc_seconds (dt : datetime) : Z :=
  (_ymd2ord (year dt) (month dt) (day dt) - _EPOCH_ORD) * 86400
  + hour dt * 3600 + minute dt * 60 + second dt.

(** [dt.timestamp()] on a *naive* datetime: the reading is taken as local
    time of the host.  [utcoffset dt] is the host zone's offset from UTC,
    in seconds east, at that local reading. *)
Definition timestamp (utcoffset : datetime -> Z) (dt : datetime) : Z :=
  utc_seconds dt - utcoffset dt.

(** [datetime.fromtimestamp(t, timezone.utc)] for whole seconds. *)
Definition fromtimestamp_utc (t : Z) : datetime :=
  let days := t / 86400 in
  let rem := t mod 86400 in
  let '(y, m, d) := _ord2ymd (days + _EPOCH_ORD) in
  mk_datetime y m d (rem / 3600) ((rem mod 3600) / 60) (rem mod 60).

(** [calendar.monthrange(year, month)[1]]. *)
Definition monthrange_days (y m : Z) : Z :=
  _DAYS_IN_MONTH m + (if (m =? 2) && _is_leap y then 1 else 0).

(** [dt + relativedelta(months=k)] for [1 <= |k| <= 11], as
    [relativedelta.__radd__] computes it; [dt - relativedelta(months=k)]
    is [dt + relativedelta(months=-k)] ([__rsub__] negates). *)
Definition add_months (dt : datetime) (k : Z) : datetime :=
  let y := year dt in
  let m := month dt + k in
  let '(y, m) :=
    if 12 <? m then (y + 1, m - 12)
    else if m <? 1 then (y - 1, m + 12)
    else (y, m) in
  let d := Z.min (monthrange_days y m) (day dt) in
  mk_datetime y m d (hour dt) (minute dt) (second dt).

Definition sub_months (dt : datetime) (k : Z) : datetime := add_months dt (- k).

(** Decimal text of an integer, as [str(int)] prints it. *)
Definition str_of_Z (z : Z) : string := NilZero.string_of_int (Z.to_int z).

(** Zero padding to [width] characters. *)
Fixpoint zeros (n : nat) : string :=
  match n with O => "" | S n => "0" +:+ zeros n end.

Definition pad (width : nat) (z : Z) : string :=
  let s := str_of_Z z in
  zeros (width - String.length s) +:+ s.

(** [dt.strftime('%Y-%m-%d %H:%M:%S')]. *)
Definition strftime (dt : datetime) : string :=
  pad 4 (year dt) +:+ "-" +:+ pad 2 (month dt) +:+ "-" +:+ pad 2 (day dt)
  +:+ " " +:+ pad 2 (hour dt) +:+ ":" +:+ pad 2 (minute dt)
  +:+ ":" +:+ pad 2 (second dt).

(** [str(dt.date())]. *)
Definition date_iso (dt : datetime) : string :=
  pad 4 (year dt) +:+ "-" +:+ pad 2 (month dt) +:+ "-" +:+ pad 2 (day dt).

End PyDatetime.

(** ** PRAW: comments, the comment forest, submissions, listings *)

Module Comment.
Record t := mk {
  id : string;
  body : string;
  score : Z;
  author : option string;   (* [None]: deleted or removed author *)
  created_utc : Z
}.
End Comment.

Module Forest.

(** A node of a [CommentForest]: a loaded comment with its replies, or a
    [MoreComments] placeholder standing for replies not yet loaded
    ([hidden] is what the remote source would return for it). *)
#[warnings="-register-all"]
Inductive node :=
| CommentNode (c : Comment.t) (replies : list node)
| MoreComments (hidden : list node).

(** [replace_more(limit=0)]: with [limit=0] every [MoreComments] instance
    is skipped and removed from the forest; none is fetched. *)
Fixpoint remove_more (t : node) : list node :=
  match t with
  | CommentNode c replies => [CommentNode c (concat (map remove_more replies))]
  | MoreComments _ => []
  end.

Definition replace_more_0 (f : list node) : list node :=
  concat (map remove_more f).

Fixpoint node_size (t : node) : nat :=
  match t with
  | CommentNode _ replies => S (list_sum (map node_size replies))
  | MoreComments _ => 1
  end.

Definition size (f : list node) : nat := list_sum (map node_size f).

Definition replies_of (t : node) : list node :=
  match t with
  | CommentNode _ replies => replies
  | MoreComments _ => []
  end.

(** [CommentForest.list()]: the queue loop
    [while queue: c = queue.pop(0); out.append(c); queue.extend(c.replies)]
    (placeholders are listed but not descended into). *)
Fixpoint list_loop (fuel : nat) (queue : list node) : list node :=
  match fuel with
  | O => []
  | S fuel =>
      match queue with
      | [] => []
      | c :: queue => c :: list_loop fuel (queue ++ replies_of c)
      end
  end.

(** [list()]; named [flat_list] here, [list] being the type of lists. *)
Definition flat_list (f : list node) : list node := list_loop (size f) f.

End Forest.

Module Submission.
Record t := mk {
  id : string;
  title : string;
  selftext : string;
  score : Z;
  upvote_ratio : Q;
  num_comments : Z;
  url : string;
  author : option string;
  created_utc : Z;   (* whole seconds since the epoch *)
  (** [post.comments]: the first access fetches the submission with its
      comment forest and may raise. *)
  comments : exn + list Forest.node
}.
End Submission.

(** What iterating [subreddit.search(...)] produces: the submissions
    yielded, then either exhaustion or the exception that ends the
    iteration ([items = []] with a failure is a search that fails at
    once). *)
Record Listing := mk_listing {
  items : list Submission.t;
  failure : option exn
}.

(** ** The environment of a run *)

Record Env := mk_env {
  (** host time zone: offset from UTC, seconds east, at a local reading *)
  utcoffset : PyDatetime.datetime -> Z;
  (** [reddit.subreddit(name).search(query, limit=.., syntax='cloudsearch')] *)
  search : string -> string -> Z -> Listing;
  (** whether appending to a path raises *)
  write_error : string -> option exn
}.

(** ** CONFIG *)

Record Config := mk_config {
  subreddits : list string;
  search_keywords : list string;
  limit_posts_per_query : Z;
  comment_limit_per_post : Z;
  output_posts_file : string;
  output_comments_file : string
}.

Definition CONFIG : Config := {|
  subreddits :=
    ["IndiaSpeaks"; "India"; "IndiaNews"; "IndianLeft"; "DesiPolitics";
     "Bharat"; "PoliticalAnalysisIndia"; "ElectionFever"];
  search_keywords :=
    ["Lok Sabha election 2024"; "Lok Sabha 2024"; "general elections 2024";
     "voting 2024"; "exit polls 2024"; "election campaign"; "election results";
     "BJP"; "Congress"; "INDIA alliance"; "NDA"; "AAP"; "SP"; "DMK";
     "Narendra Modi"; "Rahul Gandhi"; "Arvind Kejriwal"; "Akhilesh Yadav";
     "MK Stalin"; "Sharad Pawar"; "Tejashwi Yadav"; "Mamata Banerjee";
     "Yogi Adityanath";
     "Shiv Sena"; "Shiv Sena split"; "AIADMK"; "BSP"; "INC"; "CPI";
     "farmers protest"; "CAA NRC"; "inflation India"; "corruption India";
     "unemployment India"; "MSP farmers";
     "Ram Mandir"; "Bharat Jodo Yatra";
     "election manifesto"; "development politics India"; "Kejriwal arrest";
     "booth capturing"; "roadshow election"; "EVM"; "VVPAT"];
  limit_posts_per_query := 1000;
  comment_limit_per_post := 10;
  output_posts_file := "reddit_posts.csv";
  output_comments_file := "reddit_comments.csv"
|}.

(** ** State and effects *)

Inductive event :=
| LogInfo (msg : string)
| LogWarning (msg : string)
| LogError (msg : string)
| Sleep (seconds : Z)
| PbarSetDescription (desc : string)
| PbarUpdate (n : Z)
| PbarClose.

(** A CSV file: its lines, each a list of cells.  A header is a line like
    any other; [read_csv] takes the first line for it. *)
Abbreviation csv := (list (list value)).

Record State := mk_state {
  processed_post_ids : gset string;       (* [self.processed_post_ids] *)
  fs : gmap string csv;                   (* the files, [scraper.log] apart *)
  effects : list event                    (* oldest first *)
}.

(** The lines the scraper's logging calls add to [scraper.log], as level
    and message (the time stamp in front of each line is not modelled). *)
Fixpoint scraper_log (evs : list event) : list (string * string) :=
  match evs with
  | [] => []
  | LogInfo m :: evs => ("INFO", m) :: scraper_log evs
  | LogWarning m :: evs => ("WARNING", m) :: scraper_log evs
  | LogError m :: evs => ("ERROR", m) :: scraper_log evs
  | _ :: evs => scraper_log evs
  end.

Inductive outcome (A : Type) :=
| Returned (a : A)
| Raised (e : exn).
Arguments Returned {A} a.
Arguments Raised {A} e.

(** Computations that read and change the state and may raise; what was
    changed before a raise stays changed. *)
Definition M (A : Type) : Type := State -> outcome A * State.

Definition ret {A} (a : A) : M A := fun st => (Returned a, st).

Definition bind {A B} (m : M A) (k : A -> M B) : M B :=
  fun st =>
    match m st with
    | (Returned a, st') => k a st'
    | (Raised e, st') => (Raised e, st')
    end.

Definition raise {A} (e : exn) : M A := fun st => (Raised e, st).

(** [try: body / except Exception as e: handler e]. *)
Definition try_except {A} (body : M A) (handler : exn -> M A) : M A :=
  fun st =>
    match body st with
    | (Returned a, st') => (Returned a, st')
    | (Raised e, st') => handler e st'
    end.

Declare Scope py_scope.
Delimit Scope py_scope with py.
Notation "x <- m ;; k" := (bind m (fun x => k))
  (at level 100, m at next level, right associativity) : py_scope.
Notation "m ;;; k" := (bind m (fun _ => k))
  (at level 100, right associativity) : py_scope.

Definition emit (ev : event) : M unit :=
  fun st => (Returned tt,
             mk_state (processed_post_ids st) (fs st) (effects st ++ [ev])).

Definition get_processed : M (gset string) :=
  fun st => (Returned (processed_post_ids st), st).

(** [self.processed_post_ids.add(i)]. *)
Definition add_processed (i : string) : M unit :=
  fun st => (Returned tt,
             mk_state ({[i]} ∪ processed_post_ids st) (fs st) (effects st)).

Definition get_fs : M (gmap string csv) :=
  fun st => (Returned (fs st), st).

Definition put_fs (f : gmap string csv) : M unit :=
  fun st => (Returned tt, mk_state (processed_post_ids st) f (effects st)).

(** ** pandas: [DataFrame(list of dicts)], [to_csv], [read_csv] *)

Module Pandas.

(** Column labels of [DataFrame(data)]: the keys of the dicts in order of
    first appearance. *)
Definition add_key (cols : list string) (kv : string * value) : list string :=
  if bool_decide (kv.1 ∈ cols) then cols else cols ++ [kv.1].

Definition columns (data : list record) : list string :=
  fold_left (fun cols r => fold_left add_key r cols) data [].

(** The cell of record [r] under column [k]; a missing key is NaN, which
    [to_csv] writes as the empty string. *)
Definition cell (r : record) (k : string) : value :=
  match List.find (fun kv => String.eqb kv.1 k) r with
  | Some kv => kv.2
  | None => VStr ""
  end.

Definition row (cols : list string) (r : record) : list value :=
  map (cell r) cols.

(** The lines [to_csv(header=h, index=False)] emits. *)
Definition to_csv_lines (data : list record) (h : bool) : csv :=
  let cols := columns data in
  (if h then [map VStr cols] else []) ++ map (row cols) data.

(** *** Reading back

    On disk every cell is text.  [read_csv] infers a type for each column
    from the texts it holds: a column may come back as integers, floats or
    booleans, single cells as NaN, and only what is left comes back as the
    [str] that was written.  The inference itself, and the text Python
    prints for a float, belong to pandas and CPython; they are taken as
    given. *)
Record Reader := mk_reader {
  (** the text [to_csv] writes for a float *)
  float_text : Q -> string;
  (** [as_str col t]: reading back a column whose cells hold the texts
      [col] ([None]: a row too short to have the cell), the cells that hold
      the text [t] come back as the [str] [t] *)
  as_str : list (option string) -> string -> bool
}.

(** The text of a cell as written. *)
Definition cell_text (reader : Reader) (v : value) : string :=
  match v with
  | VStr s => s
  | VInt n => PyDatetime.str_of_Z n
  | VFloat q => float_text reader q
  end.

(** The text in field [k] of a line, if the line is that long. *)
Definition field (reader : Reader) (k : nat) (line : list value) : option string :=
  cell_text reader <$> line !! k.

(** A value read back: a [str], or anything else (an integer, a float, a
    boolean, NaN), which no [str] is equal to. *)
Inductive pyobj :=
| Str (s : string)
| NotStr.

Definition parse_column (reader : Reader) (col : list (option string)) : list pyobj :=
  map (fun c => match c with
                | Some t => if as_str reader col t then Str t else NotStr
                | None => NotStr
                end) col.

Record DataFrame := mk_df {
  df_header : list value;
  df_data : list (list pyobj)   (* one parsed column per header cell *)
}.

(** [read_csv]: the first line is the header, the others are parsed column
    by column; no line at all is [EmptyDataError]. *)
Definition read_csv (reader : Reader) (f : csv) : outcome DataFrame :=
  match f with
  | [] => Raised EmptyDataError
  | h :: rows =>
      Returned (mk_df h (map (fun k => parse_column reader (map (field reader k) rows))
                             (seq 0 (length h))))
  end.

Definition is_label (k : string) (v : value) : bool :=
  match v with
  | VStr s => String.eqb s k
  | _ => false
  end.

Fixpoint label_index (k : string) (h : list value) : option nat :=
  match h with
  | [] => None
  | v :: h => if is_label k v then Some O else S <$> label_index k h
  end.

(** [df[k]]: the column under the first label [k], or [KeyError]. *)
Definition getitem (df : DataFrame) (k : string) : outcome (list pyobj) :=
  match label_index k (df_header df) with
  | None => Raised (KeyError k)
  | Some i => Returned (nth i (df_data df) [])
  end.

(** The strings among the values of a column: the only members of
    [set(col.unique())] that a [str] can be equal to. *)
Fixpoint strings_of (col : list pyobj) : list string :=
  match col with
  | [] => []
  | Str s :: col => s :: strings_of col
  | NotStr :: col => strings_of col
  end.

End Pandas.

(** ** class RedditScraper *)

Section RedditScraper.

Variable reader : Pandas.Reader.
Variable env : Env.
Variable cfg : Config.

Local Open Scope py_scope.

(** [str(x.author)]: the author's name, or ["None"] when there is none. *)
Definition str_author (a : option string) : string := default "None" a.

(** [datetime.fromtimestamp(t, timezone.utc).strftime('%Y-%m-%d %H:%M:%S')]. *)
Definition format_utc (t : Z) : string :=
  PyDatetime.strftime (PyDatetime.fromtimestamp_utc t).

(** *** _load_processed_ids *)

Definition _load_processed_ids : M (gset string) :=
  fs0 <- get_fs ;;
  match fs0 !! output_posts_file cfg with
  | None => ret ∅
  | Some f =>
      match Pandas.read_csv reader f with
      | Raised EmptyDataError => ret ∅
      | Raised e => raise e
      | Returned df =>
          match Pandas.getitem df "post_id" with
          | Raised EmptyDataError => ret ∅
          | Raised e => raise e
          | Returned col => ret (list_to_set (Pandas.strings_of col))
          end
      end
  end.

(** [__init__], once the credentials are read and the client is built:
    the registry is loaded from the posts file. *)
Definition init (files : gmap string csv) : outcome unit * State :=
  match _load_processed_ids (mk_state ∅ files []) with
  | (Returned ids, st) => (Returned tt, mk_state ids (fs st) (effects st))
  | (Raised e, st) => (Raised e, st)
  end.

(** *** _fetch_comments *)

Definition comment_record (post : Submission.t) (c : Comment.t) : record :=
  [ ("comment_id", VStr (Comment.id c));
    ("post_id", VStr (Submission.id post));
    ("body", VStr (Comment.body c));
    ("score", VInt (Comment.score c));
    ("author", VStr (str_author (Comment.author c)));
    ("created_utc", VStr (format_utc (Submission.created_utc post))) ].

(** The [for i, comment in enumerate(comment_iterator)] loop; [i] is the
    index of the head of [l].  A [MoreComments] object has no [body]. *)
Fixpoint comments_loop (post : Submission.t) (i : Z) (l : list Forest.node)
    (comments_data : list record) : list record * option exn :=
  match l with
  | [] => (comments_data, None)
  | n :: l =>
      if comment_limit_per_post cfg <=? i then (comments_data, None)
      else
        match n with
        | Forest.CommentNode c _ =>
            comments_loop post (i + 1) l (comments_data ++ [comment_record post c])
        | Forest.MoreComments _ =>
            (comments_data,
             Some (AttributeError "'MoreComments' object has no attribute 'body'"))
        end
  end.

Definition _fetch_comments (post : Submission.t) : M (list record) :=
  let warn e :=
    emit (LogWarning ("Could not fetch comments for post "
                      +:+ Submission.id post +:+ ": " +:+ exn_str e)) in
  match Submission.comments post with
  | inl e => warn e ;;; ret []
  | inr forest =>
      let comment_iterator := Forest.flat_list (Forest.replace_more_0 forest) in
      match comments_loop post 0 comment_iterator [] with
      | (comments_data, None) => ret comments_data
      | (comments_data, Some e) => warn e ;;; ret comments_data
      end
  end.

(** *** _save_data *)

Definition _save_data (data : list record) (filename : string) : M unit :=
  match data with
  | [] => ret tt
  | _ =>
      files <- get_fs ;;
      let is_new := bool_decide (files !! filename = None) in
      match write_error env filename with
      | Some e => raise e
      | None =>
          put_fs (<[filename :=
                     default [] (files !! filename)
                     ++ Pandas.to_csv_lines data is_new]> files) ;;;
          emit (LogInfo ("Saved " +:+ PyDatetime.str_of_Z (Z.of_nat (length data))
                         +:+ " rows to " +:+ filename))
      end
  end.

(** *** scrape_data *)

Definition election_date : PyDatetime.datetime := PyDatetime.datetime_ymd 2024 6 4.
Definition start_date : PyDatetime.datetime := PyDatetime.sub_months election_date 5.
Definition end_date : PyDatetime.datetime := PyDatetime.add_months election_date 2.

Definition start_timestamp : Z := PyDatetime.timestamp (utcoffset env) start_date.
Definition end_timestamp : Z := PyDatetime.timestamp (utcoffset env) end_date.

Definition post_record (subreddit_name query : string) (post : Submission.t) : record :=
  [ ("post_id", VStr (Submission.id post));
    ("subreddit", VStr subreddit_name);
    ("keyword", VStr query);
    ("title", VStr (Submission.title post));
    ("selftext", VStr (Submission.selftext post));
    ("score", VInt (Submission.score post));
    ("upvote_ratio", VFloat (Submission.upvote_ratio post));
    ("num_comments", VInt (Submission.num_comments post));
    ("url", VStr (Submission.url post));
    ("author", VStr (str_author (Submission.author post)));
    ("created_utc", VStr (format_utc (Submission.created_utc post))) ].

(** The manual timestamp filter: [True] when the post is skipped. *)
Definition outside_window (post_timestamp : Z) : bool :=
  (post_timestamp <? start_timestamp) || (end_timestamp <? post_timestamp).

(** The body of [for post in search_results], over the submissions the
    listing yields; the two batches are the loop's local variables. *)
Fixpoint posts_loop (subreddit_name query : string) (l : list Submission.t)
    (posts_batch comments_batch : list record) : M (list record * list record) :=
  match l with
  | [] => ret (posts_batch, comments_batch)
  | post :: l =>
      ids <- get_processed ;;
      if bool_decide (Submission.id post ∈ ids) then
        posts_loop subreddit_name query l posts_batch comments_batch
      else if outside_window (Submission.created_utc post) then
        posts_loop subreddit_name query l posts_batch comments_batch
      else
        let posts_batch := posts_batch ++ [post_record subreddit_name query post] in
        comments <- _fetch_comments post ;;
        let comments_batch := comments_batch ++ comments in
        add_processed (Submission.id post) ;;;
        posts_loop subreddit_name query l posts_batch comments_batch
  end.

Definition full_query (query : string) : string :=
  query +:+ " timestamp:" +:+ PyDatetime.str_of_Z start_timestamp
        +:+ ".." +:+ PyDatetime.str_of_Z end_timestamp.

(** The guarded block of one (subreddit, query) pair. *)
Definition pair_try (subreddit_name query : string) : M unit :=
  let search_results :=
    search env subreddit_name (full_query query) (limit_posts_per_query cfg) in
  b <- posts_loop subreddit_name query (items search_results) [] [] ;;
  match failure search_results with
  | Some e => raise e
  | None =>
      (match b.1 with
       | [] => ret tt
       | _ => _save_data b.1 (output_posts_file cfg)
       end) ;;;
      (match b.2 with
       | [] => ret tt
       | _ => _save_data b.2 (output_comments_file cfg)
       end) ;;;
      emit (Sleep 2)
  end.

(** One iteration of the inner [for query in ...] loop. *)
Definition scrape_pair (subreddit_name query : string) : M unit :=
  emit (PbarSetDescription ("r/" +:+ subreddit_name +:+ " - '" +:+ query +:+ "'")) ;;;
  try_except (pair_try subreddit_name query)
    (fun e => emit (LogError ("Error for '" +:+ query +:+ "' in r/"
                              +:+ subreddit_name +:+ ": " +:+ exn_str e))) ;;;
  emit (PbarUpdate 1).

Fixpoint for_each {A} (l : list A) (body : A -> M unit) : M unit :=
  match l with
  | [] => ret tt
  | x :: l => body x ;;; for_each l body
  end.

Definition scrape_data : M unit :=
  emit (LogInfo "Starting data collection...") ;;;
  emit (LogInfo ("Filtering posts from " +:+ PyDatetime.date_iso start_date
                 +:+ " to " +:+ PyDatetime.date_iso end_date)) ;;;
  for_each (subreddits cfg) (fun subreddit_name =>
    for_each (search_keywords cfg) (fun query =>
      scrape_pair subreddit_name query)) ;;;
  emit PbarClose ;;;
  emit (LogInfo "Data collection complete.").

(** The script: build the scraper, run it. *)
Definition main (files : gmap string csv) : outcome unit * State :=
  match init files with
  | (Returned _, st) =>
      (scrape_data ;;; emit (LogInfo "--- Scraping script finished ---")) st
  | (Raised e, st) => (Raised e, st)
  end.

End RedditScraper.


(** * Definitions used to state the properties *)

(** ** The comment forest *)

(** Induction over the nested forest. *)
Fixpoint node_rect_nested (P : Forest.node -> Prop)
    (HC : forall c replies, Forall P replies -> P (Forest.CommentNode c replies))
    (HM : forall hidden, Forall P hidden -> P (Forest.MoreComments hidden))
    (t : Forest.node) : P t :=
  match t with
  | Forest.CommentNode c replies =>
      HC c replies
        ((fix go (l : list Forest.node) : Forall P l :=
            match l with
            | [] => @List.Forall_nil _ P
            | x :: l => @List.Forall_cons _ P x l (node_rect_nested P HC HM x) (go l)
            end) replies)
  | Forest.MoreComments hidden =>
      HM hidden
        ((fix go (l : list Forest.node) : Forall P l :=
            match l with
            | [] => @List.Forall_nil _ P
            | x :: l => @List.Forall_cons _ P x l (node_rect_nested P HC HM x) (go l)
            end) hidden)
  end.

Definition is_comment (t : Forest.node) : bool :=
  match t with Forest.CommentNode _ _ => true | Forest.MoreComments _ => false end.

(** No placeholder anywhere below. *)
Fixpoint loaded (t : Forest.node) : bool :=
  match t with
  | Forest.CommentNode _ replies => forallb loaded replies
  | Forest.MoreComments _ => false
  end.

(** The comments among listed nodes. *)
Fixpoint comments_of (l : list Forest.node) : list Comment.t :=
  match l with
  | [] => []
  | Forest.CommentNode c _ :: l => c :: comments_of l
  | Forest.MoreComments _ :: l => comments_of l
  end.

(** The loaded comments of a forest, in the order [list()] gives them once
    the placeholders are removed. *)
Definition loaded_comments (forest : list Forest.node) : list Comment.t :=
  comments_of (Forest.flat_list (Forest.replace_more_0 forest)).

(** The reply ceiling as a number of items. *)
Definition ceiling (cfg : Config) : nat := Z.to_nat (comment_limit_per_post cfg).

(** What [_fetch_comments] returns and what it logs. *)
Definition harvest (cfg : Config) (post : Submission.t) : list record :=
  match Submission.comments post with
  | inl _ => []
  | inr forest =>
      map (comment_record post) (take (ceiling cfg) (loaded_comments forest))
  end.

Definition fetch_warning (post : Submission.t) (e : exn) : event :=
  LogWarning ("Could not fetch comments for post "
              +:+ Submission.id post +:+ ": " +:+ exn_str e).

Definition harvest_events (post : Submission.t) : list event :=
  match Submission.comments post with
  | inl e => [fetch_warning post e]
  | inr _ => []
  end.

(** *** The harvester as the specification words it

    "Expands any load-more-replies placeholders fully, then takes at most
    the first N items from the flattened reply list": every placeholder is
    replaced by the replies it stands for, all the way down. *)
Fixpoint expand (t : Forest.node) : list Forest.node :=
  match t with
  | Forest.CommentNode c replies =>
      [Forest.CommentNode c (concat (map expand replies))]
  | Forest.MoreComments hidden => concat (map expand hidden)
  end.

Definition replace_more_all (f : list Forest.node) : list Forest.node :=
  concat (map expand f).

Definition harvest_as_specified (cfg : Config) (post : Submission.t)
    (forest : list Forest.node) : list record :=
  map (comment_record post)
      (take (ceiling cfg) (comments_of (Forest.flat_list (replace_more_all forest)))).

(** A thread with fifty replies of which the first five are loaded and the
    other forty-five stand behind one placeholder. *)
Definition reply (k : nat) : Comment.t :=
  Comment.mk ("c" +:+ PyDatetime.str_of_Z (Z.of_nat k)) "reply" 1 None 1717000000.

Definition replies_from (k n : nat) : list Forest.node :=
  map (fun i => Forest.CommentNode (reply i) []) (seq k n).

Definition forest_5_of_50 : list Forest.node :=
  replies_from 0 5 ++ [Forest.MoreComments (replies_from 5 45)].

Definition thread_with (forest : exn + list Forest.node) : Submission.t :=
  Submission.mk "t50" "A thread" "" 12 (9 # 10) 50 "https://redd.it/t50"
                (Some "someone") 1716940800 forest.

Definition state0 : State := mk_state ∅ ∅ [].

(** ** The driver *)

(** The submissions of a listing that the loop accepts, starting from the
    registry [ids]: not yet registered (each acceptance registers at once)
    and inside the window. *)
Fixpoint accepted (env : Env) (ids : gset string) (l : list Submission.t)
    : list Submission.t :=
  match l with
  | [] => []
  | post :: l =>
      if bool_decide (Submission.id post ∈ ids) then accepted env ids l
      else if outside_window env (Submission.created_utc post) then accepted env ids l
      else post :: accepted env ({[Submission.id post]} ∪ ids) l
  end.

Definition listing_of (env : Env) (cfg : Config) (subreddit_name query : string)
    : Listing :=
  search env subreddit_name (full_query env query) (limit_posts_per_query cfg).

Definition add_effects (st : State) (evs : list event) : State :=
  mk_state (processed_post_ids st) (fs st) (effects st ++ evs).

Definition register (st : State) (l : list string) : State :=
  mk_state (list_to_set l ∪ processed_post_ids st) (fs st) (effects st).

Definition pair_error (subreddit_name query : string) (e : exn) : event :=
  LogError ("Error for '" +:+ query +:+ "' in r/" +:+ subreddit_name
            +:+ ": " +:+ exn_str e).

Definition pair_description (subreddit_name query : string) : event :=
  PbarSetDescription ("r/" +:+ subreddit_name +:+ " - '" +:+ query +:+ "'").

(** The state in which one pair leaves the scraper. *)
Definition pair_final (env : Env) (cfg : Config) (subreddit_name query : string)
    (st : State) : State :=
  let acc := accepted env (processed_post_ids st)
                      (items (listing_of env cfg subreddit_name query)) in
  let st1 :=
    add_effects (register (add_effects st [pair_description subreddit_name query])
                          (map Submission.id acc))
                (concat (map harvest_events acc)) in
  let st2 :=
    match failure (listing_of env cfg subreddit_name query) with
    | Some e => add_effects st1 [pair_error subreddit_name query e]
    | None =>
        match _save_data env (map (post_record subreddit_name query) acc)
                         (output_posts_file cfg) st1 with
        | (Raised e, st2) => add_effects st2 [pair_error subreddit_name query e]
        | (Returned _, st2) =>
            match _save_data env (concat (map (harvest cfg) acc))
                             (output_comments_file cfg) st2 with
            | (Raised e, st3) => add_effects st3 [pair_error subreddit_name query e]
            | (Returned _, st3) => add_effects st3 [Sleep 2]
            end
        end
    end in
  add_effects st2 [PbarUpdate 1].

(** The pairs in the order the nested loops visit them. *)
Definition pairs (cfg : Config) : list (string * string) :=
  s ← subreddits cfg; (fun q => (s, q)) <$> search_keywords cfg.

Definition scrape_pairs (env : Env) (cfg : Config) (l : list (string * string))
    : M unit :=
  for_each l (fun sq => scrape_pair env cfg sq.1 sq.2).

Fixpoint pairs_final (env : Env) (cfg : Config) (l : list (string * string))
    (st : State) : State :=
  match l with
  | [] => st
  | sq :: l => pairs_final env cfg l (pair_final env cfg sq.1 sq.2 st)
  end.

(** ** The posts file *)

Definition post_columns : list string :=
  ["post_id"; "subreddit"; "keyword"; "title"; "selftext"; "score";
   "upvote_ratio"; "num_comments"; "url"; "author"; "created_utc"].

Definition post_row (subreddit_name query : string) (post : Submission.t)
    : list value :=
  Pandas.row post_columns (post_record subreddit_name query post).

(** The file is absent, or it begins with the header the driver writes. *)
Definition posts_wf (f : option csv) : Prop :=
  match f with
  | None => True
  | Some lines => exists rows, lines = map VStr post_columns :: rows
  end.

(** The texts found in field [k] of the lines that are long enough. *)
Fixpoint column_texts (reader : Pandas.Reader) (k : nat) (rows : list (list value))
    : list string :=
  match rows with
  | [] => []
  | r :: rows =>
      match Pandas.field reader k r with
      | Some t => t :: column_texts reader k rows
      | None => column_texts reader k rows
      end
  end.

(** The identifiers the file holds: the texts in the [post_id] column of
    its data rows, one per row. *)
Definition file_ids (reader : Pandas.Reader) (f : option csv) : list string :=
  match f with
  | Some (h :: rows) =>
      match Pandas.label_index "post_id" h with
      | Some k => column_texts reader k rows
      | None => []
      end
  | _ => []
  end.

(** The identifiers a run that starts from the file finds in its registry:
    those of its [post_id] column that [read_csv] gives back as [str]. *)
Definition loaded_ids (reader : Pandas.Reader) (f : option csv) : list string :=
  match f with
  | None => []
  | Some lines =>
      match Pandas.read_csv reader lines with
      | Returned df =>
          match Pandas.getitem df "post_id" with
          | Returned col => Pandas.strings_of col
          | Raised _ => []
          end
      | Raised _ => []
      end
  end.

(** Every identifier of the file is read back as the string written. *)
Definition reads_back (reader : Pandas.Reader) (f : option csv) : Prop :=
  forall i, i ∈ file_ids reader f -> i ∈ loaded_ids reader f.

(** The identifiers of data rows whose first column is [post_id]. *)
Definition row_ids (reader : Pandas.Reader) (rows : list (list value)) : list string :=
  column_texts reader 0 rows.

(** The data rows that carry identifier [i], in a file that begins with
    the header the driver writes, where [post_id] is the first column. *)
Definition has_id (reader : Pandas.Reader) (i : string) (r : list value) : bool :=
  bool_decide (Pandas.field reader 0 r = Some i).

Definition rows_with_id (reader : Pandas.Reader) (i : string) (f : option csv)
    : list (list value) :=
  match f with
  | Some (_ :: rows) => filter (fun r => has_id reader i r = true) rows
  | _ => []
  end.

(** What the driver maintains between pairs when the identifiers of the
    file it started from were read back. *)
Record Inv (reader : Pandas.Reader) (cfg : Config) (st : State) : Prop := mk_inv {
  inv_wf : posts_wf (fs st !! output_posts_file cfg);
  inv_nodup : NoDup (file_ids reader (fs st !! output_posts_file cfg));
  inv_registered :
    forall i, i ∈ file_ids reader (fs st !! output_posts_file cfg) ->
              i ∈ processed_post_ids st
}.

(** The pair persists the post batch it accepts. *)
Definition flushes_posts (env : Env) (cfg : Config) (subreddit_name query : string)
    : bool :=
  match failure (listing_of env cfg subreddit_name query),
        write_error env (output_posts_file cfg) with
  | None, None => true
  | _, _ => false
  end.

(** The exception the guarded block of a pair raises, if it raises. *)
Definition pair_caught (env : Env) (cfg : Config) (subreddit_name query : string)
    (st : State) : option exn :=
  match (pair_try env cfg subreddit_name query
                  (add_effects st [pair_description subreddit_name query])).1 with
  | Raised e => Some e
  | Returned _ => None
  end.

Definition is_log (ev : event) : bool :=
  match ev with
  | LogInfo _ | LogWarning _ => true
  | _ => false
  end.

Definition is_sleep (ev : event) : bool :=
  match ev with Sleep _ => true | _ => false end.

Definition is_update (ev : event) : bool :=
  match ev with PbarUpdate _ => true | _ => false end.

(** ** Environments used in examples *)

(** An example reader: pandas' default NA markers and its integer
    inference.  A column whose cells are all integer literals or NA markers
    comes back as numbers, with no [str] in it; in any other column every
    cell comes back as the [str] written, NA markers apart.  It does not
    recognise floats or booleans, which no example below puts in an
    identifier column. *)
Definition is_digit (a : ascii) : bool :=
  (48 <=? nat_of_ascii a)%nat && (nat_of_ascii a <=? 57)%nat.

Fixpoint all_digits (s : string) : bool :=
  match s with
  | EmptyString => true
  | String a s => is_digit a && all_digits s
  end.

Definition integer_literal (s : string) : bool :=
  negb (String.eqb s "") && all_digits s.

Definition na_marker (s : string) : bool :=
  bool_decide (s ∈ [""; "#N/A"; "#N/A N/A"; "#NA"; "-1.#IND"; "-1.#QNAN"; "-NaN";
                    "-nan"; "1.#IND"; "1.#QNAN"; "<NA>"; "N/A"; "NA"; "NULL";
                    "NaN"; "None"; "n/a"; "nan"; "null"]).

Definition numeric_column (col : list (option string)) : bool :=
  forallb (fun c => match c with
                    | Some t => na_marker t || integer_literal t
                    | None => true
                    end) col.

(** Digits of the fractional part [r / d], at most [n] of them. *)
Fixpoint fraction_digits (n : nat) (r d : Z) : string :=
  match n with
  | O => ""
  | S n =>
      if r =? 0 then ""
      else PyDatetime.str_of_Z (r * 10 / d) +:+ fraction_digits n (r * 10 mod d) d
  end.

(** The decimal text of a fraction, as Python prints a float with a short
    decimal expansion. *)
Definition decimal_text (q : Q) : string :=
  let n := Qnum q in
  let d := Zpos (Qden q) in
  let frac := fraction_digits 17 (Z.abs n mod d) d in
  (if n <? 0 then "-" else "") +:+ PyDatetime.str_of_Z (Z.abs n / d) +:+ "."
  +:+ (if String.eqb frac "" then "0" else frac).

Definition int_or_text_reader : Pandas.Reader :=
  Pandas.mk_reader decimal_text
    (fun col t => negb (na_marker t) && negb (numeric_column col)).

(** A host five hours west of UTC all year. *)
Definition host_utc_minus_5 : Env :=
  mk_env (fun _ => -18000) (fun _ _ _ => mk_listing [] None) (fun _ => None).

(** A host in UTC with a silent remote source and writable files. *)
Definition reliable_host : Env :=
  mk_env (fun _ => 0) (fun _ _ _ => mk_listing [] None) (fun _ => None).

(** A remote source that answers every search with a rate-limit error. *)
Definition rate_limited : Env :=
  mk_env (fun _ => 0)
         (fun _ _ _ => mk_listing [] (Some (RemoteError "received 429 HTTP response")))
         (fun _ => None).

Definition comment_a : Comment.t :=
  Comment.mk "k1" "first" 3 (Some "bob") 1717000000.

(** A post inside the window on any host, with one loaded reply. *)
Definition post_a : Submission.t :=
  Submission.mk "t1" "Exit polls" "" 5 (9 # 10) 1 "https://redd.it/t1"
                (Some "alice") 1716940800
                (inr [Forest.CommentNode comment_a []]).

Definition post_b : Submission.t :=
  Submission.mk "t2" "Results day" "text" 7 (8 # 10) 0 "https://redd.it/t2"
                None 1717459200 (inr []).

(** A host on which the comments file cannot be appended to. *)
Definition comments_locked : Env :=
  mk_env (fun _ => 0)
         (fun _ _ _ => mk_listing [post_a] None)
         (fun f => if String.eqb f "reddit_comments.csv"
                   then Some (OSError "[Errno 13] Permission denied: 'reddit_comments.csv'")
                   else None).

(** Two communities, two queries. *)
Definition cfg_2x2 : Config :=
  mk_config ["A"; "B"] ["Q1"; "Q2"] 1000 10 "reddit_posts.csv" "reddit_comments.csv".

(** The search of (A, Q1) raises at once; (A, Q2) yields [post_a]; every
    search in B yields [post_b]. *)
Definition a_q1_breaks : Env :=
  mk_env (fun _ => 0)
         (fun s q _ =>
            if String.eqb s "A" then
              if String.prefix "Q1 " q
              then mk_listing [] (Some (RemoteError "received 503 HTTP response"))
              else mk_listing [post_a] None
            else mk_listing [post_b] None)
         (fun _ => None).

(** The search of (A, Q1) yields [post_a] and then raises; (A, Q2) yields
    [post_a] again; every search in B yields [post_b]. *)
Definition a_q1_breaks_midway : Env :=
  mk_env (fun _ => 0)
         (fun s q _ =>
            if String.eqb s "A" then
              if String.prefix "Q1 " q
              then mk_listing [post_a] (Some (RemoteError "received 503 HTTP response"))
              else mk_listing [post_a] None
            else mk_listing [post_b] None)
         (fun _ => None).

(** The state in which the pair loop starts: the registry read from the
    posts file, and the two opening log lines. *)
Definition loop_start (reader : Pandas.Reader) (cfg : Config)
    (files : gmap string csv) : State :=
  mk_state (list_to_set (loaded_ids reader (files !! output_posts_file cfg))) files
           [LogInfo "Starting data collection...";
            LogInfo ("Filtering posts from " +:+ PyDatetime.date_iso start_date
                     +:+ " to " +:+ PyDatetime.date_iso end_date)].

(** [p] is the first submission of the listing [l] that carries its
    identifier and lies inside the window. *)
Definition first_in_window (env : Env) (l : list Submission.t) (p : Submission.t)
    : Prop :=
  exists l1 l2,
    l = l1 ++ p :: l2
    /\ outside_window env (Submission.created_utc p) = false
    /\ forall p', p' ∈ l1 -> Submission.id p' = Submission.id p ->
                  outside_window env (Submission.created_utc p') = true.

(** No listing of the pairs [l] holds a submission with identifier [i]
    inside the window. *)
Definition unseen_in (env : Env) (cfg : Config) (l : list (string * string))
    (i : string) : Prop :=
  forall sq p, sq ∈ l -> p ∈ items (listing_of env cfg sq.1 sq.2) ->
               Submission.id p = i ->
               outside_window env (Submission.created_utc p) = true.

(** Every search yields [post_a]; nothing fails. *)
Definition post_a_everywhere : Env :=
  mk_env (fun _ => 0) (fun _ _ _ => mk_listing [post_a] None) (fun _ => None).

(** ** The start of the script: [RedditScraper.__init__] in full

    [init] above is [__init__] from the point where the client exists.
    Before that point the constructor reads three credentials from the
    process environment and builds the client. *)

Record Process := mk_process {
  (** [os.getenv] once [load_dotenv()] has run *)
  getenv : string -> option string;
  (** [praw.Reddit(...)] followed by the read of [reddit.read_only]: an
      exception, or the flag *)
  reddit_client : exn + bool
}.

(** What can end the script before the pair loop: the [ValueError] of the
    constructor, or an exception it lets through. *)
Inductive script_error :=
| ValueError (msg : string)
| Reraised (e : exn).

(** Truth value of a credential inside [all([...])]: [None] and the empty
    string are false. *)
Definition truthy (v : option string) : bool :=
  match v with
  | Some s => negb (String.eqb s "")
  | None => false
  end.

(** [str(b)] for a Python bool. *)
Definition str_bool (b : bool) : string := if b then "True" else "False".

Definition __init__ (reader : Pandas.Reader) (proc : Process) (cfg : Config)
    (files : gmap string csv) : (script_error + unit) * State :=
  let client_id := getenv proc "REDDIT_CLIENT_ID" in
  let client_secret := getenv proc "REDDIT_CLIENT_SECRET" in
  let user_agent := getenv proc "REDDIT_USER_AGENT" in
  if negb (truthy client_id && truthy client_secret && truthy user_agent) then
    (inl (ValueError "Reddit API credentials not found."),
     mk_state ∅ files [LogError "Missing Reddit API credentials in .env file."])
  else
    match reddit_client proc with
    | inl e =>
        (inl (Reraised e),
         mk_state ∅ files
           [LogError ("Failed to create Reddit instance: " +:+ exn_str e)])
    | inr read_only =>
        match _load_processed_ids reader cfg
                (mk_state ∅ files
                   [LogInfo ("Connected to Reddit API | Read-only: "
                             +:+ str_bool read_only)]) with
        | (Returned ids, st) => (inr tt, mk_state ids (fs st) (effects st))
        | (Raised e, st) => (inl (Reraised e), st)
        end
    end.

(** The [if __name__ == "__main__"] block.  The state starts without
    events: loading the module has just emptied [scraper.log], whose lines
    at the end are [scraper_log] of the events. *)
Definition script (reader : Pandas.Reader) (proc : Process) (env : Env)
    (cfg : Config) (files : gmap string csv) : (script_error + unit) * State :=
  match __init__ reader proc cfg files with
  | (inr _, st) =>
      match (scrape_data env cfg ;;;
             emit (LogInfo "--- Scraping script finished ---"))%py st with
      | (Returned _, st') => (inr tt, st')
      | (Raised e, st') => (inl (Reraised e), st')
      end
  | (inl err, st) => (inl err, st)
  end.

Definition with_prefix (pre : list event) (st : State) : State :=
  mk_state (processed_post_ids st) (fs st) (pre ++ effects st).


(** One map of files extends another along the paths [paths]: files at
    other paths are the same, and a file that existed keeps its lines as a
    prefix. *)
Definition extends (paths : list string) (old new : gmap string csv) : Prop :=
  (forall f, f ∉ paths -> new !! f = old !! f)
  /\ (forall f lines, old !! f = Some lines ->
        exists suffix, new !! f = Some (lines ++ suffix)).

(** A process with all three credentials and a working client. *)
Definition good_process : Process :=
  mk_process (fun _ => Some "x") (inr true).

(** A posts file without an identifier column. *)
Definition files_no_id : gmap string csv :=
  {["reddit_posts.csv" := [[VStr "id"; VStr "title"]]]}.

(** A posts file that exists and holds no line. *)
Definition files_empty_posts : gmap string csv :=
  {["reddit_posts.csv" := []]}.

(** The records [_fetch_comments] returns for a post (it reads nothing of
    the state). *)
Definition fetched (cfg : Config) (post : Submission.t) : list record :=
  match (_fetch_comments cfg post state0).1 with
  | Returned comments => comments
  | Raised _ => []
  end.


(** A configuration whose reply ceiling is zero. *)
Definition cfg_no_replies : Config :=
  mk_config ["A"] ["Q1"] 1000 0 "reddit_posts.csv" "reddit_comments.csv".

(** [a_q1_breaks_midway] once the remote source has recovered: the same
    listings, and no failure. *)
Definition a_q1_recovered : Env :=
  mk_env (fun _ => 0)
         (fun s q _ =>
            if String.eqb s "A" then mk_listing [post_a] None
            else mk_listing [post_b] None)
         (fun _ => None).

(** A thread created on 2024-05-29 at 00:00:00 UTC with two replies made
    later that day, the second a reply to the first. *)
Definition reply_late : Comment.t :=
  Comment.mk "k2" "second" 0 None 1717000600.

Definition thread_two_replies : Submission.t :=
  thread_with (inr [Forest.CommentNode comment_a [Forest.CommentNode reply_late []]]).

(** A post created before the window opens. *)
Definition post_old : Submission.t :=
  Submission.mk "t0" "Last year" "" 1 (1 # 2) 0 "https://redd.it/t0"
                (Some "carol") 1700000000 (inr []).

(** Every search yields a post from before the window and [post_a]. *)
Definition old_and_known : Env :=
  mk_env (fun _ => 0) (fun _ _ _ => mk_listing [post_old; post_a] None)
         (fun _ => None).

(** A posts file written by the driver that holds [post_a]. *)
Definition files_with_post_a : gmap string csv :=
  {["reddit_posts.csv" := [map VStr post_columns; post_row "A" "Q1" post_a]]}.

(** A thread whose identifier is made of digits alone. *)
Definition post_digits : Submission.t :=
  Submission.mk "1915273" "Counting day" "" 3 (7 # 10) 0 "https://redd.it/1915273"
                (Some "dave") 1716940800 (inr []).

(** Every search yields [post_digits]; nothing fails. *)
Definition post_digits_everywhere : Env :=
  mk_env (fun _ => 0) (fun _ _ _ => mk_listing [post_digits] None) (fun _ => None).

(** A posts file written by the driver that holds [post_digits]. *)
Definition files_with_post_digits : gmap string csv :=
  {["reddit_posts.csv" := [map VStr post_columns; post_row "A" "Q1" post_digits]]}.

(** * Properties *)

(** ** The comment forest *)

Lemma size_app (f g : list Forest.node) :
  Forest.size (f ++ g) = (Forest.size f + Forest.size g)%nat.
Proof.
  unfold Forest.size. induction f as [|x f IH]; simpl; [reflexivity|].
  rewrite IH. lia.
Qed.

Lemma size_cons (t : Forest.node) (f : list Forest.node) :
  Forest.size (t :: f) = (Forest.node_size t + Forest.size f)%nat.
Proof. reflexivity. Qed.

Lemma node_size_replies (t : Forest.node) :
  Forest.node_size t = S (Forest.size (Forest.replies_of t)).
Proof. destruct t; reflexivity. Qed.

Lemma remove_more_loaded (t : Forest.node) :
  forallb loaded (Forest.remove_more t) = true.
Proof.
  induction t as [c replies IH | hidden _] using node_rect_nested; simpl; [|reflexivity].
  rewrite andb_true_r.
  induction IH as [|x l Hx _ IHl]; simpl; [reflexivity|].
  rewrite forallb_app, Hx, IHl. reflexivity.
Qed.

Lemma replace_more_0_loaded (f : list Forest.node) :
  forallb loaded (Forest.replace_more_0 f) = true.
Proof.
  unfold Forest.replace_more_0. induction f as [|x f IH]; simpl; [reflexivity|].
  rewrite forallb_app, remove_more_loaded, IH. reflexivity.
Qed.

Lemma loaded_replies (t : Forest.node) :
  loaded t = true -> forallb loaded (Forest.replies_of t) = true.
Proof. destruct t; simpl; [tauto | discriminate]. Qed.

Lemma loaded_is_comment (t : Forest.node) : loaded t = true -> is_comment t = true.
Proof. destruct t; simpl; [reflexivity | discriminate]. Qed.

(** The queue loop lists every node once its fuel covers the queue, which
    [flat_list] guarantees: the listing never stops short. *)
Lemma list_loop_length (fuel : nat) :
  forall queue, (Forest.size queue <= fuel)%nat ->
    length (Forest.list_loop fuel queue) = Forest.size queue.
Proof.
  induction fuel as [|fuel IH]; intros queue Hq.
  - destruct queue as [|c queue]; [reflexivity|].
    rewrite size_cons, node_size_replies in Hq. lia.
  - destruct queue as [|c queue]; [reflexivity|].
    simpl Forest.list_loop. simpl length.
    rewrite size_cons, node_size_replies in *.
    rewrite IH; rewrite size_app; lia.
Qed.

Lemma flat_list_length (f : list Forest.node) :
  length (Forest.flat_list f) = Forest.size f.
Proof. apply list_loop_length. lia. Qed.

Lemma list_loop_loaded (fuel : nat) :
  forall queue, forallb loaded queue = true ->
    forallb is_comment (Forest.list_loop fuel queue) = true.
Proof.
  induction fuel as [|fuel IH]; intros queue Hq; [reflexivity|].
  destruct queue as [|c queue]; [reflexivity|].
  simpl in *. apply andb_true_iff in Hq as [Hc Hq].
  rewrite (loaded_is_comment c Hc). simpl. apply IH.
  rewrite forallb_app, Hq, (loaded_replies c Hc). reflexivity.
Qed.

Lemma flat_list_replace_more_0_comments (f : list Forest.node) :
  forallb is_comment (Forest.flat_list (Forest.replace_more_0 f)) = true.
Proof. apply list_loop_loaded, replace_more_0_loaded. Qed.

(** ** The Comment Harvester *)

Lemma comments_of_length (l : list Forest.node) :
  forallb is_comment l = true -> length (comments_of l) = length l.
Proof.
  induction l as [|n l IH]; simpl; [reflexivity|].
  intros H. apply andb_true_iff in H as [Hn Hl].
  destruct n; [|discriminate]. simpl. rewrite IH; auto.
Qed.

Lemma loaded_comments_length (forest : list Forest.node) :
  length (loaded_comments forest) = Forest.size (Forest.replace_more_0 forest).
Proof.
  unfold loaded_comments.
  rewrite comments_of_length by apply flat_list_replace_more_0_comments.
  apply flat_list_length.
Qed.

Lemma comments_loop_loaded (cfg : Config) (post : Submission.t) (l : list Forest.node) :
  forallb is_comment l = true ->
  forall i acc, 0 <= i ->
    comments_loop cfg post i l acc
    = (acc ++ map (comment_record post)
                  (take (Z.to_nat (comment_limit_per_post cfg - i)) (comments_of l)),
       None).
Proof.
  induction l as [|n l IH]; intros Hl i acc Hi; simpl.
  - rewrite take_nil. simpl. rewrite app_nil_r. reflexivity.
  - apply andb_true_iff in Hl as [Hn Hl].
    destruct n as [c replies|]; [|discriminate].
    destruct (Z.leb_spec (comment_limit_per_post cfg) i) as [Hle|Hlt].
    + replace (Z.to_nat (comment_limit_per_post cfg - i)) with O by lia.
      simpl. rewrite app_nil_r. reflexivity.
    + rewrite IH by (auto; lia).
      replace (Z.to_nat (comment_limit_per_post cfg - i))
        with (S (Z.to_nat (comment_limit_per_post cfg - (i + 1)))) by lia.
      simpl. rewrite <- app_assoc. reflexivity.
Qed.

Lemma fetch_comments_eq (cfg : Config) (post : Submission.t) (st : State) :
  _fetch_comments cfg post st
  = (Returned (harvest cfg post),
     mk_state (processed_post_ids st) (fs st) (effects st ++ harvest_events post)).
Proof.
  unfold _fetch_comments, harvest, harvest_events, fetch_warning.
  destruct (Submission.comments post) as [e|forest].
  - reflexivity.
  - rewrite comments_loop_loaded
      by (try apply flat_list_replace_more_0_comments; lia).
    rewrite Z.sub_0_r. unfold ret. simpl. rewrite app_nil_r.
    destruct st; reflexivity.
Qed.

(** ** The driver's loops *)

Lemma add_effects_nil (st : State) : add_effects st [] = st.
Proof. unfold add_effects. rewrite app_nil_r. destruct st; reflexivity. Qed.

Lemma add_effects_app (st : State) (a b : list event) :
  add_effects (add_effects st a) b = add_effects st (a ++ b).
Proof. unfold add_effects. simpl. rewrite app_assoc. reflexivity. Qed.

Lemma register_nil (st : State) : register st [] = st.
Proof.
  unfold register. simpl. rewrite union_empty_l_L. destruct st; reflexivity.
Qed.

Lemma posts_loop_eq (env : Env) (cfg : Config) (s q : string) (l : list Submission.t) :
  forall pb cb st,
    posts_loop env cfg s q l pb cb st
    = (Returned (pb ++ map (post_record s q) (accepted env (processed_post_ids st) l),
                 cb ++ concat (map (harvest cfg) (accepted env (processed_post_ids st) l))),
       add_effects
         (register st (map Submission.id (accepted env (processed_post_ids st) l)))
         (concat (map harvest_events (accepted env (processed_post_ids st) l)))).
Proof.
  induction l as [|post l IH]; intros pb cb st.
  - simpl. rewrite !app_nil_r, register_nil, add_effects_nil. reflexivity.
  - simpl. unfold bind at 1, get_processed.
    destruct (bool_decide (Submission.id post ∈ processed_post_ids st)); [apply IH|].
    destruct (outside_window env (Submission.created_utc post)); [apply IH|].
    unfold bind at 1. rewrite fetch_comments_eq.
    unfold bind at 1, add_processed. cbn [processed_post_ids fs effects].
    rewrite IH. cbn [processed_post_ids fs effects].
    simpl map. simpl concat. rewrite <- !app_assoc. simpl.
    unfold add_effects, register. cbn [processed_post_ids fs effects].
    rewrite <- !app_assoc. f_equal. f_equal.
    rewrite (union_assoc_L (list_to_set _)), (union_comm_L (list_to_set _)).
    reflexivity.
Qed.

Lemma save_data_eq (env : Env) (data : list record) (f : string) (st : State) :
  _save_data env data f st
  = match data with
    | [] => (Returned tt, st)
    | _ =>
        match write_error env f with
        | Some e => (Raised e, st)
        | None =>
            (Returned tt,
             mk_state (processed_post_ids st)
               (<[f := default [] (fs st !! f)
                       ++ Pandas.to_csv_lines data (bool_decide (fs st !! f = None))]>
                  (fs st))
               (effects st ++ [LogInfo ("Saved "
                    +:+ PyDatetime.str_of_Z (Z.of_nat (length data))
                    +:+ " rows to " +:+ f)]))
        end
    end.
Proof.
  destruct data as [|r data]; [reflexivity|].
  unfold _save_data, bind, get_fs, put_fs, emit. cbn beta iota.
  destruct (write_error env f); reflexivity.
Qed.

Lemma save_nonempty (env : Env) (data : list record) (f : string) :
  match data with [] => ret tt | _ => _save_data env data f end
  = _save_data env data f.
Proof. destruct data; reflexivity. Qed.

Lemma pair_try_eq (env : Env) (cfg : Config) (s q : string) (st : State) :
  pair_try env cfg s q st
  = let acc := accepted env (processed_post_ids st) (items (listing_of env cfg s q)) in
    let st1 := add_effects (register st (map Submission.id acc))
                           (concat (map harvest_events acc)) in
    match failure (listing_of env cfg s q) with
    | Some e => (Raised e, st1)
    | None =>
        match _save_data env (map (post_record s q) acc) (output_posts_file cfg) st1 with
        | (Raised e, st2) => (Raised e, st2)
        | (Returned _, st2) =>
            match _save_data env (concat (map (harvest cfg) acc))
                             (output_comments_file cfg) st2 with
            | (Raised e, st3) => (Raised e, st3)
            | (Returned _, st3) => (Returned tt, add_effects st3 [Sleep 2])
            end
        end
    end.
Proof.
  unfold pair_try. unfold bind at 1. rewrite posts_loop_eq. cbn [fst snd].
  fold (listing_of env cfg s q). cbv zeta.
  set (acc := accepted env (processed_post_ids st) (items (listing_of env cfg s q))).
  destruct (failure (listing_of env cfg s q)) as [e|]; [reflexivity|].
  rewrite !save_nonempty. unfold bind at 1. simpl app.
  destruct (_save_data env _ (output_posts_file cfg) _) as [[[]|e] st2];
    [|reflexivity].
  unfold bind at 1.
  destruct (_save_data env _ (output_comments_file cfg) _) as [[[]|e] st3];
    reflexivity.
Qed.

Lemma scrape_pair_eq (env : Env) (cfg : Config) (s q : string) (st : State) :
  scrape_pair env cfg s q st = (Returned tt, pair_final env cfg s q st).
Proof.
  unfold scrape_pair, pair_final.
  unfold bind at 1, emit at 1. fold (add_effects st [pair_description s q]).
  unfold bind at 1, try_except. rewrite pair_try_eq. cbv zeta.
  cbn [processed_post_ids add_effects].
  destruct (failure (listing_of env cfg s q)) as [e|]; [reflexivity|].
  destruct (_save_data env _ (output_posts_file cfg) _) as [[[]|e] st2];
    [|reflexivity].
  destruct (_save_data env _ (output_comments_file cfg) _) as [[[]|e] st3];
    reflexivity.
Qed.

Lemma scrape_pairs_eq (env : Env) (cfg : Config) (l : list (string * string)) :
  forall st, scrape_pairs env cfg l st = (Returned tt, pairs_final env cfg l st).
Proof.
  induction l as [|sq l IH]; intros st; [reflexivity|].
  unfold scrape_pairs. simpl. unfold bind. rewrite scrape_pair_eq.
  apply IH.
Qed.

Lemma for_each_nested (env : Env) (cfg : Config) (qs : list string) (ss : list string) :
  forall st,
    for_each ss (fun s => for_each qs (fun q => scrape_pair env cfg s q)) st
    = scrape_pairs env cfg (s ← ss; (fun q => (s, q)) <$> qs) st.
Proof.
  assert (Happ : forall l1 l2 st,
            scrape_pairs env cfg (l1 ++ l2) st
            = (scrape_pairs env cfg l1 ;;; scrape_pairs env cfg l2)%py st).
  { intros l1 l2 st. rewrite scrape_pairs_eq. unfold bind.
    rewrite scrape_pairs_eq, scrape_pairs_eq. f_equal.
    revert st. induction l1 as [|x l1 IH]; intros st; [reflexivity|]. apply IH. }
  assert (Hin : forall s st,
            for_each qs (fun q => scrape_pair env cfg s q) st
            = scrape_pairs env cfg ((fun q => (s, q)) <$> qs) st).
  { intros s. induction qs as [|q qs' IH]; intros st; [reflexivity|].
    unfold scrape_pairs in *. simpl. unfold bind.
    destruct (scrape_pair env cfg s q st) as [[[]|e] st']; [apply IH | reflexivity]. }
  induction ss as [|s ss IH]; intros st; [reflexivity|].
  simpl. rewrite Happ. unfold bind. rewrite Hin.
  destruct (scrape_pairs env cfg _ st) as [[[]|e] st']; [apply IH | reflexivity].
Qed.

(** ** One pair: what is logged and what is written *)

Lemma harvest_events_logs (l : list Submission.t) :
  Forall (fun ev => is_log ev = true) (concat (map harvest_events l)).
Proof.
  induction l as [|p l IH]; simpl; [constructor|].
  apply Forall_app. split; [|exact IH].
  unfold harvest_events. destruct (Submission.comments p); repeat constructor.
Qed.

Lemma harvest_nil_batch (cfg : Config) (l : list Submission.t) :
  l = [] -> concat (map (harvest cfg) l) = [].
Proof. intros ->. reflexivity. Qed.

(** The events of one pair: its description, then warnings and save
    notices, then either the delay or the error of the pair, then the
    progress update. *)
Lemma pair_final_effects (env : Env) (cfg : Config) (s q : string) (st : State) :
  exists logs,
    Forall (fun ev => is_log ev = true) logs
    /\ effects (pair_final env cfg s q st)
       = effects st
         ++ pair_description s q
            :: logs ++ [match pair_caught env cfg s q st with
                        | Some e => pair_error s q e
                        | None => Sleep 2
                        end; PbarUpdate 1].
Proof.
  unfold pair_final, pair_caught. rewrite pair_try_eq. cbv zeta.
  cbn [processed_post_ids add_effects].
  set (acc := accepted env (processed_post_ids st) (items (listing_of env cfg s q))).
  pose proof (harvest_events_logs acc) as Hlogs.
  set (warnings := concat (map harvest_events acc)) in *.
  destruct (failure (listing_of env cfg s q)) as [e|].
  { exists warnings. split; [exact Hlogs|]. cbn.
    rewrite <- ?app_assoc. reflexivity. }
  destruct (write_error env (output_posts_file cfg)) as [ep|] eqn:Hwp;
    destruct (write_error env (output_comments_file cfg)) as [ec|] eqn:Hwc;
    destruct (map (post_record s q) acc) as [|r1 batch1];
    destruct (concat (map (harvest cfg) acc)) as [|r2 batch2];
    repeat (rewrite save_data_eq; cbv beta iota; rewrite ?Hwp, ?Hwc);
    cbn [fst snd effects fs processed_post_ids add_effects register];
    first
      [ exists warnings; split; [exact Hlogs|];
        rewrite <- ?app_assoc; reflexivity
      | eexists (warnings ++ [LogInfo _]); split;
        [ apply Forall_app; split; [exact Hlogs | repeat constructor]
        | rewrite <- ?app_assoc; reflexivity ]
      | eexists (warnings ++ [LogInfo _; LogInfo _]); split;
        [ apply Forall_app; split; [exact Hlogs | repeat constructor]
        | rewrite <- ?app_assoc; reflexivity ] ].
Qed.

(** An exception raised by the listing leaves the files as they were. *)
Lemma pair_final_listing_fails (env : Env) (cfg : Config) (s q : string)
    (st : State) (e : exn) :
  failure (listing_of env cfg s q) = Some e ->
  fs (pair_final env cfg s q st) = fs st /\ pair_caught env cfg s q st = Some e.
Proof.
  intros Hf. unfold pair_final, pair_caught. rewrite pair_try_eq. cbv zeta.
  rewrite Hf. split; reflexivity.
Qed.

(** So does a pair whose post batch cannot be written. *)
Lemma pair_final_posts_unwritable (env : Env) (cfg : Config) (s q : string)
    (st : State) (e : exn) :
  write_error env (output_posts_file cfg) = Some e ->
  fs (pair_final env cfg s q st) = fs st.
Proof.
  intros Hw. unfold pair_final.
  destruct (failure (listing_of env cfg s q)); [reflexivity|].
  rewrite save_data_eq.
  destruct (accepted env _ _) as [|p acc]; [reflexivity|].
  simpl map. cbv iota. rewrite Hw. reflexivity.
Qed.

(** Nothing accepted, nothing written. *)
Lemma pair_final_nothing_accepted (env : Env) (cfg : Config) (s q : string)
    (st : State) :
  accepted env (processed_post_ids st) (items (listing_of env cfg s q)) = [] ->
  fs (pair_final env cfg s q st) = fs st.
Proof.
  intros Hacc. unfold pair_final. rewrite Hacc.
  destruct (failure (listing_of env cfg s q)); reflexivity.
Qed.

(** A pair whose listing ends normally and whose files can be written
    persists both batches, posts first. *)
Lemma pair_final_completes (env : Env) (cfg : Config) (s q : string) (st : State) :
  failure (listing_of env cfg s q) = None ->
  write_error env (output_posts_file cfg) = None ->
  write_error env (output_comments_file cfg) = None ->
  pair_caught env cfg s q st = None
  /\ exists st1 st2 st3,
      posts_loop env cfg s q (items (listing_of env cfg s q)) [] []
                 (add_effects st [pair_description s q])
      = (Returned (map (post_record s q)
                       (accepted env (processed_post_ids st)
                                 (items (listing_of env cfg s q))),
                   concat (map (harvest cfg)
                               (accepted env (processed_post_ids st)
                                         (items (listing_of env cfg s q))))), st1)
      /\ _save_data env
           (map (post_record s q)
                (accepted env (processed_post_ids st) (items (listing_of env cfg s q))))
           (output_posts_file cfg) st1 = (Returned tt, st2)
      /\ _save_data env
           (concat (map (harvest cfg)
                        (accepted env (processed_post_ids st)
                                  (items (listing_of env cfg s q)))))
           (output_comments_file cfg) st2 = (Returned tt, st3)
      /\ fs (pair_final env cfg s q st) = fs st3.
Proof.
  intros Hf Hwp Hwc. unfold pair_final, pair_caught.
  rewrite pair_try_eq, posts_loop_eq. cbv zeta. rewrite Hf.
  cbn [processed_post_ids add_effects].
  set (acc := accepted env (processed_post_ids st) (items (listing_of env cfg s q))).
  destruct (map (post_record s q) acc) as [|r1 batch1];
    destruct (concat (map (harvest cfg) acc)) as [|r2 batch2];
    repeat (rewrite save_data_eq; cbv beta iota; rewrite ?Hwp, ?Hwc);
    cbn [fst]; (split; [reflexivity|]);
    eexists _, _, _;
    (split; [reflexivity|]);
    (split; [rewrite save_data_eq; cbv beta iota; rewrite ?Hwp; reflexivity|]);
    (split; [rewrite save_data_eq; cbv beta iota; rewrite ?Hwc; reflexivity|]);
    reflexivity.
Qed.

(** ** The whole run *)

Lemma scrape_data_eq (env : Env) (cfg : Config) (st : State) :
  scrape_data env cfg st
  = (Returned tt,
     add_effects
       (pairs_final env cfg (pairs cfg)
          (add_effects st
             [LogInfo "Starting data collection...";
              LogInfo ("Filtering posts from " +:+ PyDatetime.date_iso start_date
                       +:+ " to " +:+ PyDatetime.date_iso end_date)]))
       [PbarClose; LogInfo "Data collection complete."]).
Proof.
  unfold scrape_data. unfold bind at 1, emit at 1.
  unfold bind at 1, emit at 1. cbn [processed_post_ids fs effects].
  unfold bind at 1. rewrite for_each_nested. fold (pairs cfg).
  rewrite scrape_pairs_eq. unfold bind, emit, add_effects.
  cbn [processed_post_ids fs effects]. rewrite <- !app_assoc. reflexivity.
Qed.

Lemma pairs_final_app (env : Env) (cfg : Config) (l1 l2 : list (string * string)) :
  forall st,
    pairs_final env cfg (l1 ++ l2) st
    = pairs_final env cfg l2 (pairs_final env cfg l1 st).
Proof. induction l1 as [|x l1 IH]; intros st; [reflexivity | apply IH]. Qed.


(** ** What the loop accepts *)

Lemma accepted_fresh (env : Env) (l : list Submission.t) :
  forall ids p, p ∈ accepted env ids l -> Submission.id p ∉ ids.
Proof.
  induction l as [|x l IH]; intros ids p Hp; simpl in Hp.
  - apply elem_of_nil in Hp. contradiction.
  - destruct (bool_decide (Submission.id x ∈ ids)) eqn:Hx; [eauto|].
    destruct (outside_window env (Submission.created_utc x)); [eauto|].
    apply bool_decide_eq_false_1 in Hx.
    apply elem_of_cons in Hp as [->|Hp]; [exact Hx|].
    apply IH in Hp. set_solver.
Qed.

Lemma accepted_elem (env : Env) (l : list Submission.t) :
  forall ids p, p ∈ accepted env ids l ->
    p ∈ l /\ outside_window env (Submission.created_utc p) = false.
Proof.
  induction l as [|x l IH]; intros ids p Hp; simpl in Hp.
  - apply elem_of_nil in Hp. contradiction.
  - destruct (bool_decide (Submission.id x ∈ ids)).
    { apply IH in Hp as [? ?]. split; [by right | done]. }
    destruct (outside_window env (Submission.created_utc x)) eqn:Hw.
    { apply IH in Hp as [? ?]. split; [by right | done]. }
    apply elem_of_cons in Hp as [->|Hp].
    + split; [by left | done].
    + apply IH in Hp as [? ?]. split; [by right | done].
Qed.

Lemma accepted_nodup (env : Env) (l : list Submission.t) :
  forall ids, NoDup (map Submission.id (accepted env ids l)).
Proof.
  induction l as [|x l IH]; intros ids; simpl; [constructor|].
  destruct (bool_decide (Submission.id x ∈ ids)); [apply IH|].
  destruct (outside_window env (Submission.created_utc x)); [apply IH|].
  simpl. constructor; [|apply IH].
  intros Hin. apply list_elem_of_fmap in Hin as (p & Hid & Hp).
  apply accepted_fresh in Hp. rewrite <- Hid in Hp. set_solver.
Qed.

(** Every submission of the listing that lies inside the window is
    registered once the loop is over. *)
Lemma accepted_covers (env : Env) (l : list Submission.t) :
  forall ids p, p ∈ l ->
    outside_window env (Submission.created_utc p) = false ->
    Submission.id p ∈ ids \/ Submission.id p ∈ map Submission.id (accepted env ids l).
Proof.
  induction l as [|x l IH]; intros ids p Hp Hw.
  - apply elem_of_nil in Hp. contradiction.
  - simpl. apply elem_of_cons in Hp as [->|Hp].
    + destruct (bool_decide (Submission.id x ∈ ids)) eqn:Hx.
      { left. by apply bool_decide_eq_true_1 in Hx. }
      rewrite Hw. right. simpl. by left.
    + destruct (bool_decide (Submission.id x ∈ ids)); [by apply IH|].
      destruct (outside_window env (Submission.created_utc x)); [by apply IH|].
      destruct (IH ({[Submission.id x]} ∪ ids) p Hp Hw) as [Hin|Hin].
      * apply elem_of_union in Hin as [Hin|Hin].
        -- apply elem_of_singleton in Hin. right. simpl. rewrite Hin. by left.
        -- by left.
      * right. simpl. by right.
Qed.

Lemma accepted_nil (env : Env) (l : list Submission.t) (ids : gset string) :
  (forall p, p ∈ l -> outside_window env (Submission.created_utc p) = false ->
             Submission.id p ∈ ids) ->
  accepted env ids l = [].
Proof.
  induction l as [|x l IH]; intros H; simpl; [reflexivity|].
  destruct (bool_decide (Submission.id x ∈ ids)) eqn:Hx.
  { apply IH. intros p Hp. apply H. by right. }
  destruct (outside_window env (Submission.created_utc x)) eqn:Hw.
  { apply IH. intros p Hp. apply H. by right. }
  apply bool_decide_eq_false_1 in Hx. exfalso. apply Hx, H; [by left | done].
Qed.

(** ** One pair: the registry and the posts file *)

Lemma pair_final_ids (env : Env) (cfg : Config) (s q : string) (st : State) :
  processed_post_ids (pair_final env cfg s q st)
  = list_to_set (map Submission.id
                     (accepted env (processed_post_ids st)
                               (items (listing_of env cfg s q))))
    ∪ processed_post_ids st.
Proof.
  unfold pair_final. cbn [processed_post_ids add_effects register].
  destruct (failure (listing_of env cfg s q)) as [e|]; [reflexivity|].
  destruct (write_error env (output_posts_file cfg)) as [ep|] eqn:Hwp;
    destruct (write_error env (output_comments_file cfg)) as [ec|] eqn:Hwc;
    destruct (map (post_record s q) _) as [|r1 batch1];
    destruct (concat (map (harvest cfg) _)) as [|r2 batch2];
    repeat (rewrite save_data_eq; cbv beta iota; rewrite ?Hwp, ?Hwc);
    reflexivity.
Qed.

Lemma pair_final_posts_file (env : Env) (cfg : Config) (s q : string) (st : State) :
  output_posts_file cfg <> output_comments_file cfg ->
  fs (pair_final env cfg s q st) !! output_posts_file cfg
  = if flushes_posts env cfg s q then
      match accepted env (processed_post_ids st) (items (listing_of env cfg s q)) with
      | [] => fs st !! output_posts_file cfg
      | acc =>
          Some (default [] (fs st !! output_posts_file cfg)
                ++ Pandas.to_csv_lines (map (post_record s q) acc)
                     (bool_decide (fs st !! output_posts_file cfg = None)))
      end
    else fs st !! output_posts_file cfg.
Proof.
  intros Hne. unfold pair_final, flushes_posts.
  cbn [processed_post_ids add_effects register].
  destruct (failure (listing_of env cfg s q)) as [e|]; [reflexivity|].
  destruct (accepted env (processed_post_ids st) (items (listing_of env cfg s q)))
    as [|p acc].
  { simpl. destruct (write_error env (output_posts_file cfg)); reflexivity. }
  set (posts := map (post_record s q) (p :: acc)).
  assert (Hposts : exists r b, posts = r :: b) by (eexists _, _; reflexivity).
  destruct Hposts as (r1 & b1 & Hposts). rewrite Hposts.
  destruct (write_error env (output_posts_file cfg)) as [ep|] eqn:Hwp;
    destruct (write_error env (output_comments_file cfg)) as [ec|] eqn:Hwc;
    destruct (concat (map (harvest cfg) _)) as [|r2 batch2];
    repeat (rewrite save_data_eq; cbv beta iota; rewrite ?Hwp, ?Hwc);
    cbn [fs add_effects];
    rewrite ?lookup_insert_eq; try reflexivity.
  rewrite lookup_insert_ne by congruence. rewrite lookup_insert_eq. reflexivity.
Qed.

(** ** The posts file as the next run reads it *)

Lemma columns_post_records (s q : string) (p : Submission.t) (acc : list Submission.t) :
  Pandas.columns (map (post_record s q) (p :: acc)) = post_columns.
Proof.
  unfold Pandas.columns. simpl map. simpl fold_left at 1.
  change (fold_left Pandas.add_key (post_record s q p) []) with post_columns.
  induction acc as [|x acc IH]; [reflexivity|].
  simpl. exact IH.
Qed.

Lemma to_csv_lines_posts (s q : string) (p : Submission.t) (acc : list Submission.t)
    (h : bool) :
  Pandas.to_csv_lines (map (post_record s q) (p :: acc)) h
  = (if h then [map VStr post_columns] else []) ++ map (post_row s q) (p :: acc).
Proof.
  unfold Pandas.to_csv_lines. rewrite columns_post_records.
  rewrite map_map. reflexivity.
Qed.

Lemma column_texts_app (reader : Pandas.Reader) (k : nat) (a b : list (list value)) :
  column_texts reader k (a ++ b) = column_texts reader k a ++ column_texts reader k b.
Proof.
  induction a as [|r a IH]; [reflexivity|].
  simpl. destruct (Pandas.field reader k r); rewrite IH; reflexivity.
Qed.

Lemma row_ids_app (reader : Pandas.Reader) (a b : list (list value)) :
  row_ids reader (a ++ b) = row_ids reader a ++ row_ids reader b.
Proof. apply column_texts_app. Qed.

Lemma row_ids_posts (reader : Pandas.Reader) (s q : string) (acc : list Submission.t) :
  row_ids reader (map (post_row s q) acc) = map Submission.id acc.
Proof.
  unfold row_ids. induction acc as [|p acc IH]; [reflexivity|].
  simpl. f_equal. exact IH.
Qed.

Lemma file_ids_wf (reader : Pandas.Reader) (rows : list (list value)) :
  file_ids reader (Some (map VStr post_columns :: rows)) = row_ids reader rows.
Proof. reflexivity. Qed.

(** The posts file after a pair that persists the non-empty batch [acc]. *)
Lemma pair_final_posts_wf (reader : Pandas.Reader) (env : Env) (cfg : Config)
    (s q : string) (st : State) :
  output_posts_file cfg <> output_comments_file cfg ->
  posts_wf (fs st !! output_posts_file cfg) ->
  posts_wf (fs (pair_final env cfg s q st) !! output_posts_file cfg)
  /\ file_ids reader (fs (pair_final env cfg s q st) !! output_posts_file cfg)
     = file_ids reader (fs st !! output_posts_file cfg)
       ++ (if flushes_posts env cfg s q
           then map Submission.id
                    (accepted env (processed_post_ids st)
                              (items (listing_of env cfg s q)))
           else [])
  /\ (forall i,
         rows_with_id reader i (fs (pair_final env cfg s q st) !! output_posts_file cfg)
         = rows_with_id reader i (fs st !! output_posts_file cfg)
           ++ (if flushes_posts env cfg s q
               then filter (fun r => has_id reader i r = true)
                      (map (post_row s q)
                           (accepted env (processed_post_ids st)
                                     (items (listing_of env cfg s q))))
               else [])).
Proof.
  intros Hne Hwf. rewrite pair_final_posts_file by exact Hne.
  destruct (flushes_posts env cfg s q).
  2:{ split; [exact Hwf|]. split; [|intros i]; rewrite app_nil_r; reflexivity. }
  destruct (accepted env (processed_post_ids st) (items (listing_of env cfg s q)))
    as [|p acc].
  { split; [exact Hwf|]. split; [|intros i]; rewrite app_nil_r; reflexivity. }
  rewrite to_csv_lines_posts.
  destruct (fs st !! output_posts_file cfg) as [lines|] eqn:Hold.
  - destruct Hwf as [rows ->].
    rewrite bool_decide_eq_false_2 by discriminate. cbn [default from_option id app].
    split; [eexists; reflexivity|]. split.
    + rewrite !file_ids_wf, row_ids_app, row_ids_posts. reflexivity.
    + intros i. unfold rows_with_id. rewrite filter_app. reflexivity.
  - rewrite bool_decide_eq_true_2 by reflexivity. cbn [default from_option id app].
    split; [eexists; reflexivity|]. split.
    + rewrite file_ids_wf, row_ids_posts. reflexivity.
    + intros i. reflexivity.
Qed.

(** ** The invariant between pairs *)

Lemma pair_final_inv (reader : Pandas.Reader) (env : Env) (cfg : Config)
    (s q : string) (st : State) :
  output_posts_file cfg <> output_comments_file cfg ->
  Inv reader cfg st -> Inv reader cfg (pair_final env cfg s q st).
Proof.
  intros Hne [Hwf Hnd Hreg].
  destruct (pair_final_posts_wf reader env cfg s q st Hne Hwf) as (Hwf' & Hids & _).
  constructor.
  - exact Hwf'.
  - rewrite Hids. apply NoDup_app. split; [exact Hnd|]. split.
    + intros i Hi Hi'. destruct (flushes_posts env cfg s q).
      * apply list_elem_of_fmap in Hi' as (p & -> & Hp).
        apply accepted_fresh in Hp. apply Hp, Hreg, Hi.
      * apply elem_of_nil in Hi'. contradiction.
    + destruct (flushes_posts env cfg s q); [apply accepted_nodup | constructor].
  - intros i Hi. rewrite Hids in Hi. rewrite pair_final_ids.
    apply elem_of_app in Hi as [Hi|Hi].
    + apply elem_of_union_r, Hreg, Hi.
    + destruct (flushes_posts env cfg s q).
      * apply elem_of_union_l, elem_of_list_to_set, Hi.
      * apply elem_of_nil in Hi. contradiction.
Qed.

Lemma pairs_final_inv (reader : Pandas.Reader) (env : Env) (cfg : Config)
    (l : list (string * string)) :
  output_posts_file cfg <> output_comments_file cfg ->
  forall st, Inv reader cfg st -> Inv reader cfg (pairs_final env cfg l st).
Proof.
  intros Hne. induction l as [|sq l IH]; intros st Hinv; [exact Hinv|].
  simpl. apply IH, pair_final_inv; assumption.
Qed.

(** The registry only grows, and so does the posts file. *)
Lemma pairs_final_ids_mono (env : Env) (cfg : Config) (l : list (string * string)) :
  forall st i, i ∈ processed_post_ids st ->
               i ∈ processed_post_ids (pairs_final env cfg l st).
Proof.
  induction l as [|sq l IH]; intros st i Hi; [exact Hi|].
  simpl. apply IH. rewrite pair_final_ids. apply elem_of_union_r, Hi.
Qed.

Lemma pairs_final_file_ids_mono (reader : Pandas.Reader) (env : Env) (cfg : Config)
    (l : list (string * string)) :
  output_posts_file cfg <> output_comments_file cfg ->
  forall st i, posts_wf (fs st !! output_posts_file cfg) ->
    i ∈ file_ids reader (fs st !! output_posts_file cfg) ->
    i ∈ file_ids reader (fs (pairs_final env cfg l st) !! output_posts_file cfg).
Proof.
  intros Hne. induction l as [|sq l IH]; intros st i Hwf Hi; [exact Hi|].
  simpl.
  destruct (pair_final_posts_wf reader env cfg sq.1 sq.2 st Hne Hwf) as (Hwf' & Hids & _).
  apply IH; [exact Hwf'|]. rewrite Hids. apply elem_of_app. by left.
Qed.

(** ** The start of a run *)

Lemma load_processed_ids_eq (reader : Pandas.Reader) (cfg : Config) (st : State) :
  (exists e, _load_processed_ids reader cfg st = (Raised e, st))
  \/ _load_processed_ids reader cfg st
     = (Returned (list_to_set (loaded_ids reader (fs st !! output_posts_file cfg))), st).
Proof.
  unfold _load_processed_ids, bind, get_fs, loaded_ids.
  destruct (fs st !! output_posts_file cfg) as [lines|]; [|by right].
  destruct (Pandas.read_csv reader lines) as [df|[]]; eauto.
  destruct (Pandas.getitem df "post_id") as [col|[]]; eauto.
Qed.

Lemma load_processed_ids_wf (reader : Pandas.Reader) (cfg : Config) (st : State) :
  posts_wf (fs st !! output_posts_file cfg) ->
  _load_processed_ids reader cfg st
  = (Returned (list_to_set (loaded_ids reader (fs st !! output_posts_file cfg))), st).
Proof.
  intros Hwf. unfold _load_processed_ids, bind, get_fs, loaded_ids.
  destruct (fs st !! output_posts_file cfg) as [lines|]; [|reflexivity].
  destruct Hwf as [rows ->]. reflexivity.
Qed.

Lemma load_processed_ids_labelled (reader : Pandas.Reader) (cfg : Config) (st : State)
    (h : list value) (rows : list (list value)) (k : nat) :
  fs st !! output_posts_file cfg = Some (h :: rows) ->
  Pandas.label_index "post_id" h = Some k ->
  _load_processed_ids reader cfg st
  = (Returned (list_to_set (loaded_ids reader (Some (h :: rows)))), st).
Proof.
  intros Hf Hk. unfold _load_processed_ids, bind, get_fs, loaded_ids. rewrite Hf.
  unfold Pandas.read_csv, Pandas.getitem. cbn [Pandas.df_header Pandas.df_data].
  rewrite Hk. reflexivity.
Qed.

Lemma main_eq (reader : Pandas.Reader) (env : Env) (cfg : Config)
    (files : gmap string csv) :
  posts_wf (files !! output_posts_file cfg) ->
  main reader env cfg files
  = (Returned tt,
     add_effects (pairs_final env cfg (pairs cfg) (loop_start reader cfg files))
                 [PbarClose; LogInfo "Data collection complete.";
                  LogInfo "--- Scraping script finished ---"]).
Proof.
  intros Hwf. unfold main, init.
  rewrite load_processed_ids_wf by exact Hwf. cbn [fs effects].
  unfold bind at 1. rewrite scrape_data_eq. unfold emit, loop_start.
  unfold add_effects at 2. cbn [processed_post_ids fs effects app].
  unfold add_effects. cbn [processed_post_ids fs effects].
  rewrite <- app_assoc. reflexivity.
Qed.

(** ** What is read back is in the file *)

Lemma strings_of_parse (reader : Pandas.Reader) (col0 col : list (option string))
    (i : string) :
  i ∈ Pandas.strings_of
        (map (fun c => match c with
                       | Some t => if Pandas.as_str reader col0 t
                                   then Pandas.Str t else Pandas.NotStr
                       | None => Pandas.NotStr
                       end) col)
  <-> Some i ∈ col /\ Pandas.as_str reader col0 i = true.
Proof.
  induction col as [|c col IH].
  - simpl. split; [intros H | intros [H _]]; apply elem_of_nil in H; contradiction.
  - simpl. destruct c as [t|].
    + destruct (Pandas.as_str reader col0 t) eqn:Ht; simpl.
      * rewrite !elem_of_cons, IH. split.
        -- intros [->|[H1 H2]]; [split; [by left | exact Ht] | split; [by right | exact H2]].
        -- intros [[H|H] H2]; [left; congruence | right; by split].
      * rewrite elem_of_cons, IH. split.
        -- intros [H1 H2]. split; [by right | exact H2].
        -- intros [[H|H] H2]; [|by split]. injection H as ->. congruence.
    + rewrite elem_of_cons, IH. split.
      * intros [H1 H2]. split; [by right | exact H2].
      * intros [[H|H] H2]; [discriminate | by split].
Qed.

Lemma column_texts_elem (reader : Pandas.Reader) (k : nat) (rows : list (list value))
    (i : string) :
  i ∈ column_texts reader k rows <-> Some i ∈ map (Pandas.field reader k) rows.
Proof.
  induction rows as [|r rows IH].
  - simpl. split; intros H; apply elem_of_nil in H; contradiction.
  - simpl. destruct (Pandas.field reader k r) as [t|].
    + rewrite !elem_of_cons, IH.
      split; [intros [->|H]; auto | intros [H|H]; [left; congruence | auto]].
    + rewrite elem_of_cons, IH.
      split; [auto | intros [H|H]; [discriminate | exact H]].
Qed.

Lemma label_index_lt (k : string) (h : list value) (n : nat) :
  Pandas.label_index k h = Some n -> (n < length h)%nat.
Proof.
  revert n. induction h as [|v h IH]; intros n; simpl; [discriminate|].
  destruct (Pandas.is_label k v).
  - intros H. injection H as <-. lia.
  - destruct (Pandas.label_index k h) as [m|]; simpl; [|discriminate].
    intros H. injection H as <-. specialize (IH m eq_refl). lia.
Qed.

Lemma nth_map_seq {A : Type} (g : nat -> A) (d : A) (n k start : nat) :
  (k < n)%nat -> nth k (map g (seq start n)) d = g (start + k)%nat.
Proof.
  revert k start. induction n as [|n IH]; intros k start Hk; [lia|].
  destruct k as [|k]; simpl.
  - f_equal. lia.
  - rewrite IH by lia. f_equal. lia.
Qed.

(** What a run finds in its registry when the first line of the file
    holds the label [post_id] in place [k]. *)
Lemma loaded_ids_labelled (reader : Pandas.Reader) (h : list value)
    (rows : list (list value)) (k : nat) :
  Pandas.label_index "post_id" h = Some k ->
  loaded_ids reader (Some (h :: rows))
  = Pandas.strings_of (Pandas.parse_column reader (map (Pandas.field reader k) rows)).
Proof.
  intros Hk. unfold loaded_ids, Pandas.read_csv, Pandas.getitem.
  cbn [Pandas.df_header Pandas.df_data]. rewrite Hk.
  rewrite (nth_map_seq _ _ _ _ 0) by (eapply label_index_lt, Hk). reflexivity.
Qed.

(** The registry loaded from a file holds only identifiers of the file:
    those whose text is read back as a [str]. *)
Lemma loaded_ids_elem (reader : Pandas.Reader) (h : list value)
    (rows : list (list value)) (k : nat) (i : string) :
  Pandas.label_index "post_id" h = Some k ->
  i ∈ loaded_ids reader (Some (h :: rows))
  <-> i ∈ column_texts reader k rows
      /\ Pandas.as_str reader (map (Pandas.field reader k) rows) i = true.
Proof.
  intros Hk. rewrite (loaded_ids_labelled reader h rows k Hk).
  unfold Pandas.parse_column. rewrite strings_of_parse, column_texts_elem.
  reflexivity.
Qed.

Lemma loaded_in_file (reader : Pandas.Reader) (f : option csv) (i : string) :
  i ∈ loaded_ids reader f -> i ∈ file_ids reader f.
Proof.
  destruct f as [[|h rows]|]; simpl; auto.
  unfold loaded_ids, Pandas.read_csv, Pandas.getitem.
  cbn [Pandas.df_header Pandas.df_data].
  destruct (Pandas.label_index "post_id" h) as [k|] eqn:Hk.
  - intros H.
    assert (H' : i ∈ loaded_ids reader (Some (h :: rows))).
    { unfold loaded_ids, Pandas.read_csv, Pandas.getitem.
      cbn [Pandas.df_header Pandas.df_data]. rewrite Hk. exact H. }
    apply (loaded_ids_elem reader h rows k i Hk) in H' as [H' _]. exact H'.
  - auto.
Qed.

(** When the file is read back, the registry is the set of its
    identifiers. *)
Lemma loaded_set (reader : Pandas.Reader) (f : option csv) :
  reads_back reader f ->
  (list_to_set (loaded_ids reader f) : gset string) = list_to_set (file_ids reader f).
Proof.
  intros Hread. apply set_eq. intros i. rewrite !elem_of_list_to_set.
  split; [apply loaded_in_file | apply Hread].
Qed.

Lemma reads_back_eq (reader : Pandas.Reader) (f : option csv) :
  loaded_ids reader f = file_ids reader f -> reads_back reader f.
Proof. intros H i Hi. rewrite H. exact Hi. Qed.

Lemma loop_start_inv (reader : Pandas.Reader) (cfg : Config)
    (files : gmap string csv) :
  posts_wf (files !! output_posts_file cfg) ->
  NoDup (file_ids reader (files !! output_posts_file cfg)) ->
  reads_back reader (files !! output_posts_file cfg) ->
  Inv reader cfg (loop_start reader cfg files).
Proof.
  intros Hwf Hnd Hread. constructor; cbn [loop_start fs processed_post_ids]; auto.
  intros i Hi. apply elem_of_list_to_set, Hread, Hi.
Qed.

(** ** Rows that carry a given identifier *)

Lemma has_id_post_row (reader : Pandas.Reader) (i s q : string) (p : Submission.t) :
  has_id reader i (post_row s q p) = bool_decide (Submission.id p = i).
Proof.
  unfold has_id.
  change (Pandas.field reader 0 (post_row s q p)) with (Some (Submission.id p)).
  apply bool_decide_ext. split; [intros H; by injection H | intros ->; reflexivity].
Qed.

Lemma post_rows_without (reader : Pandas.Reader) (i s q : string)
    (acc : list Submission.t) :
  (forall p, p ∈ acc -> Submission.id p <> i) ->
  filter (fun r => has_id reader i r = true) (map (post_row s q) acc) = [].
Proof.
  induction acc as [|x acc IH]; intros H; [reflexivity|].
  simpl map. rewrite filter_cons_False.
  - apply IH. intros p Hp. apply H. by right.
  - rewrite has_id_post_row. intros Heq. apply bool_decide_eq_true_1 in Heq.
    apply (H x); [by left | exact Heq].
Qed.

Lemma post_rows_with (reader : Pandas.Reader) (s q : string) (p : Submission.t)
    (acc : list Submission.t) :
  NoDup (map Submission.id acc) -> p ∈ acc ->
  filter (fun r => has_id reader (Submission.id p) r = true) (map (post_row s q) acc)
  = [post_row s q p].
Proof.
  induction acc as [|x acc IH]; intros Hnd Hp.
  - apply elem_of_nil in Hp. contradiction.
  - simpl in Hnd. apply NoDup_cons in Hnd as [Hx Hnd]. simpl map.
    apply elem_of_cons in Hp as [->|Hp].
    + rewrite filter_cons_True
        by (rewrite has_id_post_row; by apply bool_decide_eq_true_2).
      f_equal. apply post_rows_without. intros p' Hp' Heq.
      apply Hx. rewrite <- Heq. apply list_elem_of_fmap. eauto.
    + rewrite filter_cons_False; [by apply IH|].
      rewrite has_id_post_row. intros Heq. apply bool_decide_eq_true_1 in Heq.
      apply Hx. rewrite Heq. apply list_elem_of_fmap. eauto.
Qed.

Lemma row_ids_filter (reader : Pandas.Reader) (i : string) (rows : list (list value)) :
  i ∈ row_ids reader rows <-> filter (fun r => has_id reader i r = true) rows <> [].
Proof.
  unfold row_ids. induction rows as [|r rows IH].
  - rewrite filter_nil. simpl. split; [|congruence].
    intros H. apply elem_of_nil in H. contradiction.
  - simpl column_texts. destruct (Pandas.field reader 0 r) as [t|] eqn:Hcell.
    + destruct (decide (t = i)) as [->|Hne].
      * rewrite filter_cons_True
          by (unfold has_id; rewrite Hcell; by apply bool_decide_eq_true_2).
        split; [discriminate | intros _; by left].
      * rewrite filter_cons_False.
        2:{ unfold has_id. rewrite Hcell. intros H.
            apply bool_decide_eq_true_1 in H. congruence. }
        rewrite <- IH, elem_of_cons.
        split; [intros [->|H]; [contradiction | exact H] | by right].
    + rewrite filter_cons_False.
      2:{ unfold has_id. rewrite Hcell. intros H.
          apply bool_decide_eq_true_1 in H. discriminate. }
      exact IH.
Qed.

Lemma rows_with_id_file_ids (reader : Pandas.Reader) (i : string) (f : option csv) :
  posts_wf f -> (i ∈ file_ids reader f <-> rows_with_id reader i f <> []).
Proof.
  destruct f as [lines|]; simpl posts_wf.
  - intros [rows ->]. rewrite file_ids_wf. apply row_ids_filter.
  - intros _. simpl. split; [|congruence].
    intros H. apply elem_of_nil in H. contradiction.
Qed.

(** ** The first acceptance of an identifier *)

Lemma accepted_first (env : Env) (p : Submission.t) (l2 : list Submission.t)
    (l1 : list Submission.t) :
  forall ids,
    Submission.id p ∉ ids ->
    outside_window env (Submission.created_utc p) = false ->
    (forall p', p' ∈ l1 -> Submission.id p' = Submission.id p ->
                outside_window env (Submission.created_utc p') = true) ->
    p ∈ accepted env ids (l1 ++ p :: l2).
Proof.
  induction l1 as [|x l1 IH]; intros ids Hnew Hin Hfirst; simpl.
  - rewrite bool_decide_eq_false_2 by exact Hnew. rewrite Hin. by left.
  - assert (Hrest : forall p', p' ∈ l1 -> Submission.id p' = Submission.id p ->
                      outside_window env (Submission.created_utc p') = true).
    { intros p' Hp'. apply Hfirst. by right. }
    destruct (bool_decide (Submission.id x ∈ ids)); [by apply IH|].
    destruct (outside_window env (Submission.created_utc x)) eqn:Hx; [by apply IH|].
    right. apply IH; [|exact Hin|exact Hrest].
    intros Hmem. apply elem_of_union in Hmem as [Hmem|Hmem]; [|contradiction].
    apply elem_of_singleton in Hmem.
    pose proof (Hfirst x (list_elem_of_here _ _) (eq_sym Hmem)) as Hout. congruence.
Qed.

(** Once an identifier is registered, no later pair writes a row for it. *)
Lemma registered_rows_stable (reader : Pandas.Reader) (env : Env) (cfg : Config)
    (i : string)
    (l : list (string * string)) :
  output_posts_file cfg <> output_comments_file cfg ->
  forall st, posts_wf (fs st !! output_posts_file cfg) ->
    i ∈ processed_post_ids st ->
    rows_with_id reader i (fs (pairs_final env cfg l st) !! output_posts_file cfg)
    = rows_with_id reader i (fs st !! output_posts_file cfg).
Proof.
  intros Hne. induction l as [|sq l IH]; intros st Hwf Hi; [reflexivity|].
  simpl.
  destruct (pair_final_posts_wf reader env cfg sq.1 sq.2 st Hne Hwf)
    as (Hwf' & _ & Hrows).
  rewrite IH; [|exact Hwf'|rewrite pair_final_ids; apply elem_of_union_r, Hi].
  rewrite Hrows. destruct (flushes_posts env cfg sq.1 sq.2); [|apply app_nil_r].
  rewrite post_rows_without; [apply app_nil_r|].
  intros p Hp Heq. apply accepted_fresh in Hp. rewrite Heq in Hp. contradiction.
Qed.

(** Pairs whose listings do not show the identifier inside the window
    neither register it nor write a row for it. *)
Lemma unseen_pairs_skip (reader : Pandas.Reader) (env : Env) (cfg : Config)
    (i : string)
    (l : list (string * string)) :
  output_posts_file cfg <> output_comments_file cfg ->
  unseen_in env cfg l i ->
  forall st, posts_wf (fs st !! output_posts_file cfg) ->
    i ∉ processed_post_ids st ->
    (i ∉ processed_post_ids (pairs_final env cfg l st))
    /\ rows_with_id reader i (fs (pairs_final env cfg l st) !! output_posts_file cfg)
       = rows_with_id reader i (fs st !! output_posts_file cfg).
Proof.
  intros Hne. induction l as [|sq l IH]; intros Hun st Hwf Hi; [by split|].
  simpl.
  assert (Hacc : forall p,
            p ∈ accepted env (processed_post_ids st)
                         (items (listing_of env cfg sq.1 sq.2)) ->
            Submission.id p <> i).
  { intros p Hp Heq. apply accepted_elem in Hp as [Hp Hw].
    rewrite (Hun sq p) in Hw; [discriminate|by left|exact Hp|exact Heq]. }
  destruct (pair_final_posts_wf reader env cfg sq.1 sq.2 st Hne Hwf)
    as (Hwf' & _ & Hrows).
  destruct (IH (fun sq' p Hsq => Hun sq' p (list_elem_of_further _ _ _ Hsq))
               (pair_final env cfg sq.1 sq.2 st) Hwf') as [Hi' Hrows'].
  { rewrite pair_final_ids. intros Hmem.
    apply elem_of_union in Hmem as [Hmem|Hmem]; [|contradiction].
    apply elem_of_list_to_set, list_elem_of_fmap in Hmem as (p & Hid & Hp).
    apply (Hacc p Hp). by symmetry. }
  split; [exact Hi'|]. rewrite Hrows', Hrows.
  destruct (flushes_posts env cfg sq.1 sq.2); [|apply app_nil_r].
  rewrite post_rows_without by exact Hacc. apply app_nil_r.
Qed.

(** A pair leaves the header of the posts file in place. *)
Lemma pair_final_wf (env : Env) (cfg : Config) (s q : string) (st : State) :
  output_posts_file cfg <> output_comments_file cfg ->
  posts_wf (fs st !! output_posts_file cfg) ->
  posts_wf (fs (pair_final env cfg s q st) !! output_posts_file cfg).
Proof.
  intros Hne Hwf. rewrite pair_final_posts_file by exact Hne.
  destruct (flushes_posts env cfg s q); [|exact Hwf].
  destruct (accepted env (processed_post_ids st) (items (listing_of env cfg s q)))
    as [|p acc]; [exact Hwf|].
  rewrite to_csv_lines_posts.
  destruct (fs st !! output_posts_file cfg) as [lines|] eqn:Hold.
  - destruct Hwf as [rows ->].
    rewrite bool_decide_eq_false_2 by discriminate. cbn [default from_option id app].
    eexists. reflexivity.
  - rewrite bool_decide_eq_true_2 by reflexivity. cbn [default from_option id app].
    eexists. reflexivity.
Qed.

Lemma pairs_final_wf (env : Env) (cfg : Config) (l : list (string * string)) :
  output_posts_file cfg <> output_comments_file cfg ->
  forall st, posts_wf (fs st !! output_posts_file cfg) ->
             posts_wf (fs (pairs_final env cfg l st) !! output_posts_file cfg).
Proof.
  intros Hne. induction l as [|sq l IH]; intros st Hwf; [exact Hwf|].
  simpl. apply IH, pair_final_wf; assumption.
Qed.

(** The rows a run leaves for a new identifier are decided by the first
    pair, in the order of the loops, whose listing shows it inside the
    window: one row, tagged with that pair, when the pair persists its post
    batch; none otherwise.  Either way the identifier is registered from
    that pair on. *)
Lemma first_acceptance_decides (reader : Pandas.Reader) (env : Env) (cfg : Config)
    (before after : list (string * string)) (s q : string) (p : Submission.t)
    (st : State) :
  output_posts_file cfg <> output_comments_file cfg ->
  posts_wf (fs st !! output_posts_file cfg) ->
  Submission.id p ∉ processed_post_ids st ->
  unseen_in env cfg before (Submission.id p) ->
  first_in_window env (items (listing_of env cfg s q)) p ->
  rows_with_id reader (Submission.id p)
    (fs (pairs_final env cfg (before ++ (s, q) :: after) st) !! output_posts_file cfg)
  = rows_with_id reader (Submission.id p) (fs st !! output_posts_file cfg)
    ++ (if flushes_posts env cfg s q then [post_row s q p] else [])
  /\ forall after1 after2, after = after1 ++ after2 ->
       Submission.id p
       ∈ processed_post_ids (pairs_final env cfg (before ++ (s, q) :: after1) st).
Proof.
  intros Hne Hwf Hnew Hun (l1 & l2 & Hl & Hin & Hfirst).
  destruct (unseen_pairs_skip reader env cfg _ before Hne Hun st Hwf Hnew)
    as [Hnew' Hrows].
  pose proof (pairs_final_wf env cfg before Hne st Hwf) as Hwf1.
  set (st1 := pairs_final env cfg before st) in *.
  assert (Hp : p ∈ accepted env (processed_post_ids st1)
                            (items (listing_of env cfg s q))).
  { rewrite Hl. by apply accepted_first. }
  assert (Hreg : Submission.id p ∈ processed_post_ids (pair_final env cfg s q st1)).
  { rewrite pair_final_ids. apply elem_of_union_l, elem_of_list_to_set.
    apply list_elem_of_fmap. eauto. }
  destruct (pair_final_posts_wf reader env cfg s q st1 Hne Hwf1)
    as (Hwf2 & _ & Hrows2).
  split.
  - rewrite pairs_final_app. fold st1. simpl.
    rewrite (registered_rows_stable reader) by assumption.
    rewrite Hrows2, Hrows. f_equal.
    destruct (flushes_posts env cfg s q); [|reflexivity].
    apply post_rows_with; [apply accepted_nodup | exact Hp].
  - intros after1 after2 _. rewrite pairs_final_app. fold st1. simpl.
    apply pairs_final_ids_mono, Hreg.
Qed.

(** An identifier the registry lacks although the file was read back has
    no row in the file. *)
Lemma unregistered_has_no_row (reader : Pandas.Reader) (cfg : Config) (st : State)
    (i : string) :
  Inv reader cfg st -> i ∉ processed_post_ids st ->
  rows_with_id reader i (fs st !! output_posts_file cfg) = [].
Proof.
  intros Hinv Hnew.
  destruct (rows_with_id reader i (fs st !! output_posts_file cfg))
    as [|r rs] eqn:Hr; [reflexivity|]. exfalso. apply Hnew.
  apply (inv_registered _ _ _ Hinv).
  apply rows_with_id_file_ids; [apply (inv_wf _ _ _ Hinv)|]. rewrite Hr. discriminate.
Qed.

(** ** A second run over the same environment *)

Lemma second_run_stable (reader : Pandas.Reader) (env : Env) (cfg : Config)
    (l : list (string * string)) :
  output_posts_file cfg <> output_comments_file cfg ->
  forall st st',
    posts_wf (fs st !! output_posts_file cfg) ->
    (forall i, i ∈ processed_post_ids st -> i ∈ processed_post_ids st') ->
    (forall i, i ∈ file_ids reader (fs (pairs_final env cfg l st) !! output_posts_file cfg) ->
               i ∈ processed_post_ids st') ->
    fs (pairs_final env cfg l st') = fs st'.
Proof.
  intros Hne. induction l as [|[s q] l IH]; intros st st' Hwf Hsub Hfile; [reflexivity|].
  simpl in *.
  destruct (pair_final_posts_wf reader env cfg s q st Hne Hwf) as (Hwf1 & Hids1 & _).
  assert (Hstep : fs (pair_final env cfg s q st') = fs st').
  { unfold flushes_posts in Hids1.
    destruct (failure (listing_of env cfg s q)) as [e|] eqn:Hf.
    { apply (pair_final_listing_fails env cfg s q st' e Hf). }
    destruct (write_error env (output_posts_file cfg)) as [e|] eqn:Hw.
    { apply (pair_final_posts_unwritable env cfg s q st' e Hw). }
    apply pair_final_nothing_accepted, accepted_nil. intros p Hp Hin.
    destruct (accepted_covers env _ (processed_post_ids st) p Hp Hin) as [Hreg|Hacc].
    - apply Hsub, Hreg.
    - apply Hfile, pairs_final_file_ids_mono; [exact Hne|exact Hwf1|].
      rewrite Hids1. apply elem_of_app. by right. }
  rewrite <- Hstep.
  apply (IH (pair_final env cfg s q st)); [exact Hwf1| |].
  - intros i. rewrite !pair_final_ids. intros Hi.
    apply elem_of_union in Hi as [Hi|Hi]; [|apply elem_of_union_r, Hsub, Hi].
    apply elem_of_list_to_set, list_elem_of_fmap in Hi as (p & -> & Hp).
    apply accepted_elem in Hp as [Hp Hin].
    destruct (accepted_covers env _ (processed_post_ids st') p Hp Hin) as [Hreg|Hacc].
    + apply elem_of_union_r, Hreg.
    + apply elem_of_union_l, elem_of_list_to_set, Hacc.
  - intros i Hi. rewrite pair_final_ids. apply elem_of_union_r, Hfile, Hi.
Qed.


(** C8: when the replies of a thread can be retrieved, the harvester
    returns one record for each reply it takes (the first
    [comment_limit_per_post] loaded replies, in order), and leaves the state
    as it was.  The record of a reply carries the reply's identifier, and
    under [post_id] the identifier of the thread; under [created_utc] it
    carries the creation instant of the thread, printed as
    [YYYY-MM-DD HH:MM:SS] in UTC, and so not the creation time of the reply
    whenever the two print differently. *)
Theorem comment_records_inherit_post_time (cfg : Config) (post : Submission.t)
    (forest : list Forest.node) (st : State) :
  Submission.comments post = inr forest ->
  exists records,
    _fetch_comments cfg post st = (Returned records, st)
    /\ Forall2
         (fun c r =>
            r = comment_record post c
            /\ Pandas.cell r "comment_id" = VStr (Comment.id c)
            /\ Pandas.cell r "post_id" = VStr (Submission.id post)
            /\ Pandas.cell r "created_utc"
               = VStr (PyDatetime.strftime
                         (PyDatetime.fromtimestamp_utc (Submission.created_utc post)))
            /\ (format_utc (Comment.created_utc c)
                <> format_utc (Submission.created_utc post) ->
                Pandas.cell r "created_utc"
                <> VStr (format_utc (Comment.created_utc c))))
         (take (Z.to_nat (comment_limit_per_post cfg)) (loaded_comments forest))
         records.
Proof.
  intros Hc. eexists. split.
  - rewrite fetch_comments_eq. unfold harvest, harvest_events. rewrite Hc.
    rewrite app_nil_r. destruct st; reflexivity.
  - unfold ceiling.
    induction (take (Z.to_nat (comment_limit_per_post cfg)) (loaded_comments forest))
      as [|c l IH]; [constructor|].
    simpl map. constructor; [|exact IH].
    repeat split. intros Hne Heq. apply Hne.
    change (Pandas.cell (comment_record post c) "created_utc")
      with (VStr (format_utc (Submission.created_utc post))) in Heq.
    injection Heq as Heq. symmetry. exact Heq.
Qed.

(** On a thread created on 2024-05-29 at 00:00:00 UTC with two replies
    made at 16:26:40 and 16:36:40 that day, both records carry
    "2024-05-29 00:00:00". *)
Lemma comment_records_inherit_post_time_witness :
  exists r1 r2,
    _fetch_comments CONFIG thread_two_replies state0 = (Returned [r1; r2], state0)
    /\ (Pandas.cell r1 "comment_id" = VStr "k1"
        /\ Pandas.cell r1 "post_id" = VStr "t50"
        /\ Pandas.cell r1 "created_utc" = VStr "2024-05-29 00:00:00"
        /\ format_utc (Comment.created_utc comment_a) = "2024-05-29 16:26:40")
    /\ (Pandas.cell r2 "comment_id" = VStr "k2"
        /\ Pandas.cell r2 "post_id" = VStr "t50"
        /\ Pandas.cell r2 "created_utc" = VStr "2024-05-29 00:00:00"
        /\ format_utc (Comment.created_utc reply_late) = "2024-05-29 16:36:40").
Proof.
  destruct (comment_records_inherit_post_time CONFIG thread_two_replies
              [Forest.CommentNode comment_a [Forest.CommentNode reply_late []]]
              state0 eq_refl) as (records & Hret & Hall).
  change (take (Z.to_nat (comment_limit_per_post CONFIG))
               (loaded_comments
                  [Forest.CommentNode comment_a [Forest.CommentNode reply_late []]]))
    with [comment_a; reply_late] in Hall.
  destruct records as [|r1 [|r2 [|r3 records]]];
    try (exfalso; inversion Hall as [|? ? ? ? ? Hall']; inversion Hall' as [|? ? ? ? ? Hall''];
         inversion Hall''; fail).
  exists r1, r2. split; [exact Hret|].
  inversion Hall as [|? ? ? ? (_ & Hid1 & Hp1 & Ht1 & _) Hall']; subst.
  inversion Hall' as [|? ? ? ? (_ & Hid2 & Hp2 & Ht2 & _) _]; subst.
  split.
  - split; [exact Hid1|]. split; [exact Hp1|].
    split; [etransitivity; [exact Ht1|]; vm_compute; reflexivity | vm_compute; reflexivity].
  - split; [exact Hid2|]. split; [exact Hp2|].
    split; [etransitivity; [exact Ht2|]; vm_compute; reflexivity | vm_compute; reflexivity].
Defined.



(** C6 fails as stated: of a thread with fifty replies, five loaded and
    forty-five behind a placeholder, the harvester returns the five loaded
    ones, where expanding first and truncating to the ceiling of ten would
    return ten. *)
Lemma fetch_comments_does_not_expand :
  let out := (_fetch_comments CONFIG (thread_with (inr forest_5_of_50)) state0).1 in
  length (comments_of (Forest.flat_list (replace_more_all forest_5_of_50))) = 50%nat
  /\ out = Returned (map (comment_record (thread_with (inr forest_5_of_50)))
                         (map reply (seq 0 5)))
  /\ length (harvest_as_specified CONFIG (thread_with (inr forest_5_of_50))
                                  forest_5_of_50) = 10%nat
  /\ out <> Returned (harvest_as_specified CONFIG (thread_with (inr forest_5_of_50))
                                           forest_5_of_50).
Proof.
  cbv zeta. split; [vm_compute; reflexivity|].
  split; [vm_compute; reflexivity|].
  split; [vm_compute; reflexivity|].
  vm_compute. discriminate.
Qed.

(** C6, amended: [replace_more(limit=0)] drops every placeholder without
    fetching it; the harvester then lists the loaded replies breadth first
    and turns the first [comment_limit_per_post] of them into records, in
    that order.  So it returns min(ceiling, loaded replies) records, and
    what a placeholder hides never shows. *)
Theorem fetch_comments_truncates_loaded (cfg : Config) (post : Submission.t)
    (forest : list Forest.node) (st : State) :
  Submission.comments post = inr forest ->
  _fetch_comments cfg post st
  = (Returned (map (comment_record post)
                   (take (Z.to_nat (comment_limit_per_post cfg))
                         (comments_of (Forest.flat_list (Forest.replace_more_0 forest))))),
     st)
  /\ length (harvest cfg post)
     = Nat.min (Z.to_nat (comment_limit_per_post cfg))
               (Forest.size (Forest.replace_more_0 forest))
  /\ (forall hidden, Forest.remove_more (Forest.MoreComments hidden) = [])
  /\ (forall f, loaded_comments f
                = comments_of (Forest.flat_list (Forest.replace_more_0 f))
                /\ length (Forest.flat_list (Forest.replace_more_0 f))
                   = Forest.size (Forest.replace_more_0 f)).
Proof.
  intros Hc. split; [|split; [|split]].
  - rewrite fetch_comments_eq. unfold harvest, harvest_events. rewrite Hc.
    rewrite app_nil_r. destruct st; reflexivity.
  - unfold harvest. rewrite Hc, length_map, length_take, loaded_comments_length.
    reflexivity.
  - reflexivity.
  - intros f. split; [reflexivity | apply flat_list_length].
Qed.

Lemma fetch_comments_truncates_loaded_witness :
  let post := thread_with (inr (replies_from 0 50)) in
  Forest.size (Forest.replace_more_0 (replies_from 0 50)) = 50%nat
  /\ _fetch_comments CONFIG post state0
     = (Returned (map (comment_record post) (map reply (seq 0 10))), state0)
  /\ length (harvest CONFIG post) = 10%nat.
Proof.
  split; [vm_compute; reflexivity|].
  pose proof (fetch_comments_truncates_loaded CONFIG
                (thread_with (inr (replies_from 0 50))) (replies_from 0 50)
                state0 eq_refl) as [H1 [H2 _]].
  split.
  - etransitivity; [exact H1|]. vm_compute. reflexivity.
  - etransitivity; [exact H2|]. vm_compute. reflexivity.
Defined.

(** ** The time window *)

(** C2 fails as stated: [datetime(2024, 6, 4)] is naive, so [timestamp()]
    reads it in the host's zone.  On a host at UTC-5 the window starts at
    2024-01-04T05:00:00Z: a post created at 2024-01-04T00:00:00Z is
    skipped, and one created at 2024-08-04T00:00:01Z is kept. *)
Lemma window_follows_host_zone :
  format_utc 1704326400 = "2024-01-04 00:00:00"
  /\ format_utc 1722729601 = "2024-08-04 00:00:01"
  /\ start_timestamp host_utc_minus_5 = 1704344400
  /\ format_utc (start_timestamp host_utc_minus_5) = "2024-01-04 05:00:00"
  /\ outside_window host_utc_minus_5 1704326400 = true
  /\ outside_window host_utc_minus_5 1722729601 = false.
Proof. repeat split; vm_compute; reflexivity. Qed.

(** C2, amended: the window is the closed interval from the anchor shifted
    back five months to the anchor shifted forward two months, both at
    midnight in the host's local zone: 2024-01-04 00:00 and 2024-08-04 00:00
    local, that is the UTC midnights 1704326400 and 1722729600 less the
    host's offset.  A post is kept exactly when its creation instant lies in
    that interval.  On a host whose zone is UTC the window is
    [2024-01-04T00:00:00Z, 2024-08-04T00:00:00Z]: 2023-12-31 is skipped,
    2024-01-04T00:00:00Z is kept, 2024-08-04T00:00:01Z is skipped. *)
Theorem window_is_local_midnights (env : Env) :
  start_date = PyDatetime.mk_datetime 2024 1 4 0 0 0
  /\ end_date = PyDatetime.mk_datetime 2024 8 4 0 0 0
  /\ start_timestamp env = 1704326400 - utcoffset env start_date
  /\ end_timestamp env = 1722729600 - utcoffset env end_date
  /\ (forall t, outside_window env t = false
               <-> start_timestamp env <= t <= end_timestamp env)
  /\ (forall srch werr,
         let utc_host := mk_env (fun _ => 0) srch werr in
         start_timestamp utc_host = 1704326400
         /\ end_timestamp utc_host = 1722729600
         /\ format_utc 1703980800 = "2023-12-31 00:00:00"
         /\ outside_window utc_host 1703980800 = true
         /\ outside_window utc_host 1704326400 = false
         /\ outside_window utc_host 1722729601 = true).
Proof.
  split; [reflexivity|]. split; [reflexivity|].
  split; [reflexivity|]. split; [reflexivity|]. split.
  - intros t. unfold outside_window. rewrite orb_false_iff, !Z.ltb_ge. tauto.
  - intros srch werr. repeat split; vm_compute; reflexivity.
Qed.

(** ** The persistence operation *)

(** C7: [_save_data] with an empty batch changes nothing; with a non-empty
    batch and a path that can be written it appends the batch's rows,
    preceded by a header line exactly when the path did not exist.  Two
    successive non-empty batches saved to a fresh path therefore leave one
    header line followed by the rows of the first batch, then those of the
    second. *)
Theorem save_data_header_once (env : Env) (filename : string)
    (r1 r2 : record) (batch1 batch2 : list record) (st : State) :
  write_error env filename = None ->
  _save_data env [] filename st = (Returned tt, st)
  /\ (fs st !! filename = None ->
      exists st1,
        _save_data env (r1 :: batch1) filename st = (Returned tt, st1)
        /\ fs st1 = <[filename :=
                       map VStr (Pandas.columns (r1 :: batch1))
                       :: map (Pandas.row (Pandas.columns (r1 :: batch1))) (r1 :: batch1)]>
                    (fs st))
  /\ (forall old, fs st !! filename = Some old ->
      exists st1,
        _save_data env (r1 :: batch1) filename st = (Returned tt, st1)
        /\ fs st1 = <[filename :=
                       old ++ map (Pandas.row (Pandas.columns (r1 :: batch1)))
                                  (r1 :: batch1)]> (fs st))
  /\ (fs st !! filename = None ->
      exists st2,
        (_save_data env (r1 :: batch1) filename ;;;
         _save_data env (r2 :: batch2) filename)%py st = (Returned tt, st2)
        /\ fs st2 !! filename
           = Some (map VStr (Pandas.columns (r1 :: batch1))
                   :: map (Pandas.row (Pandas.columns (r1 :: batch1))) (r1 :: batch1)
                   ++ map (Pandas.row (Pandas.columns (r2 :: batch2))) (r2 :: batch2))).
Proof.
  intros Hw. split; [reflexivity|].
  assert (Hnew : forall r b s, fs s !! filename = None ->
            _save_data env (r :: b) filename s
            = (Returned tt,
               mk_state (processed_post_ids s)
                 (<[filename := map VStr (Pandas.columns (r :: b))
                      :: map (Pandas.row (Pandas.columns (r :: b))) (r :: b)]> (fs s))
                 (effects s ++ [LogInfo ("Saved "
                      +:+ PyDatetime.str_of_Z (Z.of_nat (length (r :: b)))
                      +:+ " rows to " +:+ filename)]))).
  { intros r b s Hs. unfold _save_data, bind, get_fs, put_fs, emit.
    cbn beta iota. rewrite Hw. cbn [fs processed_post_ids effects].
    rewrite !Hs. rewrite bool_decide_eq_true_2 by reflexivity. reflexivity. }
  assert (Hold : forall r b s old, fs s !! filename = Some old ->
            _save_data env (r :: b) filename s
            = (Returned tt,
               mk_state (processed_post_ids s)
                 (<[filename := old ++ map (Pandas.row (Pandas.columns (r :: b))) (r :: b)]>
                    (fs s))
                 (effects s ++ [LogInfo ("Saved "
                      +:+ PyDatetime.str_of_Z (Z.of_nat (length (r :: b)))
                      +:+ " rows to " +:+ filename)]))).
  { intros r b s old Hs. unfold _save_data, bind, get_fs, put_fs, emit.
    cbn beta iota. rewrite Hw. cbn [fs processed_post_ids effects].
    rewrite !Hs. rewrite bool_decide_eq_false_2 by discriminate. reflexivity. }
  split; [|split].
  - intros Hf. eexists. split; [apply Hnew, Hf | reflexivity].
  - intros old Hf. eexists. split; [apply (Hold _ _ _ _ Hf) | reflexivity].
  - intros Hf. unfold bind at 1. rewrite (Hnew _ _ _ Hf).
    erewrite Hold by (simpl; apply lookup_insert_eq).
    eexists. split; [reflexivity|]. simpl. rewrite lookup_insert_eq.
    reflexivity.
Qed.

Lemma save_data_header_once_witness :
  exists st2,
    (_save_data reliable_host [[("post_id", VStr "a")]] "out.csv" ;;;
     _save_data reliable_host [[("post_id", VStr "b")]] "out.csv")%py state0
    = (Returned tt, st2)
    /\ fs st2 !! "out.csv" = Some [[VStr "post_id"]; [VStr "a"]; [VStr "b"]].
Proof.
  destruct (save_data_header_once reliable_host "out.csv"
              [("post_id", VStr "a")] [("post_id", VStr "b")] [] [] state0 eq_refl)
    as (_ & _ & _ & H).
  destruct (H eq_refl) as (st2 & H1 & H2).
  exists st2. split; [exact H1|]. rewrite H2. vm_compute. reflexivity.
Defined.

(** ** The pair boundary *)

(** C4 fails as stated: with the comments file locked, the pair raises on
    its second write, after the post batch was written.  The pair is logged
    as failed, its post is in the posts file, its comment is lost: the
    batch is neither flushed whole nor discarded whole. *)
Lemma failing_pair_keeps_posts :
  let st := pair_final comments_locked CONFIG "India" "BJP" state0 in
  scrape_pair comments_locked CONFIG "India" "BJP" state0 = (Returned tt, st)
  /\ pair_caught comments_locked CONFIG "India" "BJP" state0
     = Some (OSError "[Errno 13] Permission denied: 'reddit_comments.csv'")
  /\ effects st
     = [PbarSetDescription "r/India - 'BJP'";
        LogInfo "Saved 1 rows to reddit_posts.csv";
        LogError "Error for 'BJP' in r/India: [Errno 13] Permission denied: 'reddit_comments.csv'";
        PbarUpdate 1]
  /\ fs st !! "reddit_posts.csv"
     = Some [map VStr post_columns; post_row "India" "BJP" post_a]
  /\ fs st !! "reddit_comments.csv" = None
  /\ fs st <> fs state0.
Proof.
  cbv zeta. split; [apply scrape_pair_eq|].
  split; [vm_compute; reflexivity|].
  split; [vm_compute; reflexivity|].
  split; [vm_compute; reflexivity|].
  split; [vm_compute; reflexivity|].
  intros H. apply (f_equal (fun m => m !! "reddit_posts.csv")) in H.
  vm_compute in H. discriminate.
Qed.

(** C4, amended: an exception raised in the guarded block of a pair is
    caught at the pair boundary and logged with the community and the
    query; the pair and the run return normally and every pair of the
    list is processed in turn.  When the listing raises (while searching,
    filtering or harvesting), or when the post batch cannot be written,
    nothing of the pair reaches the files.  The two batches are written by
    two separate calls: when the write of the comment batch raises, the post
    batch stays written.  A pair whose listing ends normally and whose files
    can be written persists both its batches, whatever happened to the
    pairs before it. *)
Theorem pair_failure_is_contained (env : Env) (cfg : Config)
    (subreddit_name query : string) (st : State) :
  scrape_pair env cfg subreddit_name query st
  = (Returned tt, pair_final env cfg subreddit_name query st)
  /\ (forall l st', scrape_pairs env cfg l st'
                    = (Returned tt, pairs_final env cfg l st'))
  /\ (forall l1 l2 st',
         pairs_final env cfg (l1 ++ l2) st'
         = pairs_final env cfg l2 (pairs_final env cfg l1 st'))
  /\ (exists st', scrape_data env cfg st = (Returned tt, st'))
  /\ (forall e,
         pair_caught env cfg subreddit_name query st = Some e ->
         exists evs,
           effects (pair_final env cfg subreddit_name query st)
           = effects st ++ evs
             ++ [LogError ("Error for '" +:+ query +:+ "' in r/" +:+ subreddit_name
                           +:+ ": " +:+ exn_str e);
                 PbarUpdate 1])
  /\ (forall e,
         failure (listing_of env cfg subreddit_name query) = Some e ->
         pair_caught env cfg subreddit_name query st = Some e
         /\ fs (pair_final env cfg subreddit_name query st) = fs st)
  /\ (forall e,
         write_error env (output_posts_file cfg) = Some e ->
         fs (pair_final env cfg subreddit_name query st) = fs st)
  /\ (forall e r batch,
         failure (listing_of env cfg subreddit_name query) = None ->
         write_error env (output_posts_file cfg) = None ->
         write_error env (output_comments_file cfg) = Some e ->
         concat (map (harvest cfg)
                     (accepted env (processed_post_ids st)
                               (items (listing_of env cfg subreddit_name query))))
         = r :: batch ->
         pair_caught env cfg subreddit_name query st = Some e
         /\ fs (pair_final env cfg subreddit_name query st)
            = <[output_posts_file cfg :=
                  default [] (fs st !! output_posts_file cfg)
                  ++ Pandas.to_csv_lines
                       (map (post_record subreddit_name query)
                            (accepted env (processed_post_ids st)
                                      (items (listing_of env cfg subreddit_name query))))
                       (bool_decide (fs st !! output_posts_file cfg = None))]> (fs st))
  /\ (failure (listing_of env cfg subreddit_name query) = None ->
      write_error env (output_posts_file cfg) = None ->
      write_error env (output_comments_file cfg) = None ->
      pair_caught env cfg subreddit_name query st = None
      /\ exists st1 st2 st3,
          posts_loop env cfg subreddit_name query
                     (items (listing_of env cfg subreddit_name query)) [] []
                     (add_effects st [pair_description subreddit_name query])
          = (Returned (map (post_record subreddit_name query)
                           (accepted env (processed_post_ids st)
                                     (items (listing_of env cfg subreddit_name query))),
                       concat (map (harvest cfg)
                                   (accepted env (processed_post_ids st)
                                             (items (listing_of env cfg subreddit_name query))))),
             st1)
          /\ _save_data env
               (map (post_record subreddit_name query)
                    (accepted env (processed_post_ids st)
                              (items (listing_of env cfg subreddit_name query))))
               (output_posts_file cfg) st1 = (Returned tt, st2)
          /\ _save_data env
               (concat (map (harvest cfg)
                            (accepted env (processed_post_ids st)
                                      (items (listing_of env cfg subreddit_name query)))))
               (output_comments_file cfg) st2 = (Returned tt, st3)
          /\ fs (pair_final env cfg subreddit_name query st) = fs st3).
Proof.
  split; [apply scrape_pair_eq|].
  split; [intros; apply scrape_pairs_eq|].
  split; [intros; apply pairs_final_app|].
  split; [rewrite scrape_data_eq; eauto|].
  split.
  { intros e He.
    destruct (pair_final_effects env cfg subreddit_name query st) as (logs & _ & Hev).
    rewrite He in Hev. exists (pair_description subreddit_name query :: logs).
    rewrite Hev. simpl. reflexivity. }
  split.
  { intros e He.
    destruct (pair_final_listing_fails env cfg subreddit_name query st e He); auto. }
  split; [intros e; apply pair_final_posts_unwritable|].
  split; [|apply pair_final_completes].
  intros e r batch Hf Hwp Hwc Hbatch.
  unfold pair_final, pair_caught. rewrite pair_try_eq. cbv zeta. rewrite Hf.
  cbn [processed_post_ids add_effects].
  destruct (accepted env (processed_post_ids st)
                     (items (listing_of env cfg subreddit_name query)))
    as [|p acc]; [discriminate|].
  rewrite Hbatch.
  repeat (rewrite save_data_eq; cbv beta iota; rewrite ?Hwp, ?Hwc).
  simpl map. cbv beta iota. rewrite ?Hwp.
  repeat (rewrite save_data_eq; cbv beta iota; rewrite ?Hwp, ?Hwc).
  split; reflexivity.
Qed.

(** Partial-failure isolation on a run: the search of (A, Q1) raises;
    (A, Q2), (B, Q1) and (B, Q2) are still processed and what they accept
    is in the posts file. *)
Lemma pair_failure_is_contained_witness :
  (pair_caught a_q1_breaks cfg_2x2 "A" "Q1" state0
   = Some (RemoteError "received 503 HTTP response")
   /\ fs (pair_final a_q1_breaks cfg_2x2 "A" "Q1" state0) = fs state0)
  /\ fs (main int_or_text_reader a_q1_breaks cfg_2x2 ∅).2 !! "reddit_posts.csv"
     = Some [map VStr post_columns; post_row "A" "Q2" post_a;
             post_row "B" "Q1" post_b]
  /\ length (filter (fun ev => is_update ev = true)
                    (effects (main int_or_text_reader a_q1_breaks cfg_2x2 ∅).2)) = 4%nat.
Proof.
  split.
  - exact (proj1 (proj2 (proj2 (proj2 (proj2 (proj2
             (pair_failure_is_contained a_q1_breaks cfg_2x2 "A" "Q1" state0))))))
             (RemoteError "received 503 HTTP response") eq_refl).
  - split; vm_compute; reflexivity.
Defined.

(** ** The courtesy delay *)

(** C9 fails as stated: [time.sleep(2)] is the last statement of the
    guarded block, so a pair that raises is followed by no delay.  Against
    a remote source that answers every search with a rate-limit error, the
    driver goes through all 352 pairs of CONFIG without sleeping once. *)
Lemma failing_pair_skips_delay :
  scrape_pair rate_limited CONFIG "India" "BJP" state0
  = (Returned tt,
     mk_state ∅ ∅
       [PbarSetDescription "r/India - 'BJP'";
        LogError "Error for 'BJP' in r/India: received 429 HTTP response";
        PbarUpdate 1])
  /\ length (filter (fun ev => is_update ev = true)
                    (effects (main int_or_text_reader rate_limited CONFIG ∅).2)) = 352%nat
  /\ filter (fun ev => is_sleep ev = true)
            (effects (main int_or_text_reader rate_limited CONFIG ∅).2) = [].
Proof. repeat split; vm_compute; reflexivity. Qed.

(** C9, amended: a pair whose guarded block completes without raising is
    followed by the two-second delay, applied once, after the pair's
    batches are saved and just before the progress update; a pair that
    raises logs its error in that place and is followed by no delay.  The
    events of a pair are its description, warnings and save notices, then
    the delay or the error, then the progress update. *)
Theorem delay_follows_completed_pair (env : Env) (cfg : Config)
    (subreddit_name query : string) (st : State) :
  scrape_pair env cfg subreddit_name query st
  = (Returned tt, pair_final env cfg subreddit_name query st)
  /\ exists logs,
      Forall (fun ev => is_log ev = true) logs
      /\ filter (fun ev => is_sleep ev = true) logs = []
      /\ effects (pair_final env cfg subreddit_name query st)
         = effects st
           ++ PbarSetDescription ("r/" +:+ subreddit_name +:+ " - '" +:+ query +:+ "'")
              :: logs
              ++ [match pair_caught env cfg subreddit_name query st with
                  | None => Sleep 2
                  | Some e =>
                      LogError ("Error for '" +:+ query +:+ "' in r/"
                                +:+ subreddit_name +:+ ": " +:+ exn_str e)
                  end;
                  PbarUpdate 1].
Proof.
  split; [apply scrape_pair_eq|].
  destruct (pair_final_effects env cfg subreddit_name query st) as (logs & Hlogs & Hev).
  exists logs. split; [exact Hlogs|]. split.
  - clear Hev. induction Hlogs as [|ev l Hev _ IH]; [reflexivity|].
    rewrite filter_cons. destruct ev; try discriminate; simpl; exact IH.
  - rewrite Hev. unfold pair_description, pair_error.
    destruct (pair_caught env cfg subreddit_name query st); reflexivity.
Qed.

(** ** The Duplicate Registry over a run *)

(** A pair that does not persist its post batch although it accepted
    something has raised. *)
Lemma unflushed_pair_raised (env : Env) (cfg : Config) (s q : string)
    (st : State) (p : Submission.t) :
  flushes_posts env cfg s q = false ->
  p ∈ accepted env (processed_post_ids st) (items (listing_of env cfg s q)) ->
  exists e, pair_caught env cfg s q st = Some e.
Proof.
  intros Hfl Hp. unfold pair_caught. rewrite pair_try_eq. cbv zeta.
  cbn [processed_post_ids add_effects]. unfold flushes_posts in Hfl.
  destruct (failure (listing_of env cfg s q)) as [e|]; [by exists e|].
  destruct (write_error env (output_posts_file cfg)) as [e|] eqn:Hw; [|discriminate].
  destruct (accepted env (processed_post_ids st) (items (listing_of env cfg s q)))
    as [|x acc]; [apply elem_of_nil in Hp; contradiction|].
  rewrite save_data_eq. simpl map. cbv beta iota. rewrite Hw. by exists e.
Qed.

(** An identifier the file lacks is not in the registry the run starts
    with, and no row of the file carries it. *)
Lemma new_id_at_start (reader : Pandas.Reader) (cfg : Config)
    (files : gmap string csv) (i : string) :
  posts_wf (files !! output_posts_file cfg) ->
  i ∉ file_ids reader (files !! output_posts_file cfg) ->
  (i ∉ processed_post_ids (loop_start reader cfg files))
  /\ rows_with_id reader i (fs (loop_start reader cfg files) !! output_posts_file cfg)
     = [].
Proof.
  intros Hwf Hnew. cbn [loop_start processed_post_ids fs]. split.
  - rewrite elem_of_list_to_set. intros H. apply Hnew, loaded_in_file, H.
  - destruct (rows_with_id reader i (files !! output_posts_file cfg))
      as [|r rs] eqn:Hr; [reflexivity|]. exfalso. apply Hnew.
    apply rows_with_id_file_ids; [exact Hwf|]. rewrite Hr. discriminate.
Qed.

(** C1 fails as stated: [post_a] is matched by (A, Q1) and by (A, Q2); the
    listing of (A, Q1) raises after yielding it, so its batch is dropped
    while its identifier stays registered, and (A, Q2) skips it.  The
    thread is persisted not once but never. *)
Lemma matched_twice_persisted_never :
  items (listing_of a_q1_breaks_midway cfg_2x2 "A" "Q1") = [post_a]
  /\ items (listing_of a_q1_breaks_midway cfg_2x2 "A" "Q2") = [post_a]
  /\ outside_window a_q1_breaks_midway (Submission.created_utc post_a) = false
  /\ file_ids int_or_text_reader ((∅ : gmap string csv) !! "reddit_posts.csv") = []
  /\ (main int_or_text_reader a_q1_breaks_midway cfg_2x2 ∅).1 = Returned tt
  /\ rows_with_id int_or_text_reader "t1"
       (fs (main int_or_text_reader a_q1_breaks_midway cfg_2x2 ∅).2
        !! "reddit_posts.csv")
     = []
  /\ fs (main int_or_text_reader a_q1_breaks_midway cfg_2x2 ∅).2 !! "reddit_posts.csv"
     = Some [map VStr post_columns; post_row "B" "Q1" post_b].
Proof. repeat split; vm_compute; reflexivity. Qed.

(** C1, amended: take a run whose posts and comments paths differ and
    whose posts file is absent or begins with the header the driver writes,
    holds no identifier twice, and has every identifier read back by
    [read_csv] as the string that was written.  Over such a run the file
    never comes to hold an identifier twice: identifiers already in the
    file get no new row, and a new identifier gets at most one.  A thread
    matched by several pairs is persisted exactly once when the pair that
    first accepts it (the first pair, in loop order, whose listing shows it
    inside the window) goes on to persist its post batch; its row then
    carries that pair's community and query. *)
Theorem thread_written_at_most_once (reader : Pandas.Reader) (env : Env)
    (cfg : Config) (files : gmap string csv) :
  output_posts_file cfg <> output_comments_file cfg ->
  posts_wf (files !! output_posts_file cfg) ->
  NoDup (file_ids reader (files !! output_posts_file cfg)) ->
  reads_back reader (files !! output_posts_file cfg) ->
  (main reader env cfg files).1 = Returned tt
  /\ NoDup (file_ids reader (fs (main reader env cfg files).2 !! output_posts_file cfg))
  /\ (forall i, i ∈ file_ids reader (files !! output_posts_file cfg) ->
        rows_with_id reader i (fs (main reader env cfg files).2 !! output_posts_file cfg)
        = rows_with_id reader i (files !! output_posts_file cfg))
  /\ (forall before s q after p,
        pairs cfg = before ++ (s, q) :: after ->
        Submission.id p ∉ file_ids reader (files !! output_posts_file cfg) ->
        unseen_in env cfg before (Submission.id p) ->
        first_in_window env (items (listing_of env cfg s q)) p ->
        (exists rows,
            rows_with_id reader (Submission.id p)
              (fs (main reader env cfg files).2 !! output_posts_file cfg) = rows
            /\ (length rows <= 1)%nat)
        /\ (flushes_posts env cfg s q = true ->
            rows_with_id reader (Submission.id p)
              (fs (main reader env cfg files).2 !! output_posts_file cfg)
            = [Pandas.row post_columns (post_record s q p)]
            /\ Pandas.cell (post_record s q p) "keyword" = VStr q
            /\ Pandas.cell (post_record s q p) "subreddit" = VStr s)).
Proof.
  intros Hne Hwf Hnd Hread. rewrite main_eq by exact Hwf. cbn [fst snd add_effects fs].
  pose proof (loop_start_inv reader cfg files Hwf Hnd Hread) as Hinv.
  split; [reflexivity|]. split.
  { apply (inv_nodup _ _ _ (pairs_final_inv reader env cfg (pairs cfg) Hne _ Hinv)). }
  split.
  { intros i Hi.
    rewrite (registered_rows_stable reader); [reflexivity|exact Hne|exact Hwf|].
    apply elem_of_list_to_set, Hread, Hi. }
  intros before s q after p Hpairs Hnew Hun Hfirst. rewrite Hpairs.
  destruct (new_id_at_start reader cfg files _ Hwf Hnew) as [Hnew0 Hnone].
  destruct (first_acceptance_decides reader env cfg before after s q p
              (loop_start reader cfg files) Hne Hwf Hnew0 Hun Hfirst) as [Hrows _].
  rewrite Hrows, Hnone. cbn [app]. split.
  - eexists. split; [reflexivity|].
    destruct (flushes_posts env cfg s q); simpl; lia.
  - intros ->. repeat split.
Qed.

(** A run that starts from a file holding [post_a]: its row stays the only
    one with "t1", and [post_b], new and matched by (B, Q1) and (B, Q2),
    gets one row, tagged (B, Q1). *)
Lemma thread_written_at_most_once_witness :
  rows_with_id int_or_text_reader "t1"
    (fs (main int_or_text_reader a_q1_recovered cfg_2x2 files_with_post_a).2
     !! "reddit_posts.csv")
  = [post_row "A" "Q1" post_a]
  /\ rows_with_id int_or_text_reader "t2"
       (fs (main int_or_text_reader a_q1_recovered cfg_2x2 files_with_post_a).2
        !! "reddit_posts.csv")
     = [Pandas.row post_columns (post_record "B" "Q1" post_b)]
  /\ NoDup (file_ids int_or_text_reader
              (fs (main int_or_text_reader a_q1_recovered cfg_2x2 files_with_post_a).2
               !! "reddit_posts.csv")).
Proof.
  destruct (thread_written_at_most_once int_or_text_reader a_q1_recovered cfg_2x2
              files_with_post_a)
    as (_ & Hnd & Hold & Hfirst).
  - vm_compute. discriminate.
  - exists [post_row "A" "Q1" post_a]. vm_compute. reflexivity.
  - change (NoDup ["t1"]). apply NoDup_singleton.
  - apply reads_back_eq. vm_compute. reflexivity.
  - split; [|split; [|exact Hnd]].
    + etransitivity; [apply (Hold "t1")|vm_compute; reflexivity].
      change ("t1" ∈ ["t1"]). apply list_elem_of_here.
    + destruct (Hfirst [("A", "Q1"); ("A", "Q2")] "B" "Q1" [("B", "Q2")] post_b)
        as [_ Hrow].
      * vm_compute. reflexivity.
      * change ("t2" ∉ ["t1"]). intros H. apply list_elem_of_singleton in H.
        discriminate.
      * intros sq p Hsq Hp Hid.
        assert (Hitems : items (listing_of a_q1_recovered cfg_2x2 sq.1 sq.2) = [post_a]).
        { apply elem_of_cons in Hsq as [->|Hsq]; [vm_compute; reflexivity|].
          apply list_elem_of_singleton in Hsq as ->. vm_compute. reflexivity. }
        rewrite Hitems in Hp. apply list_elem_of_singleton in Hp as ->.
        vm_compute in Hid. discriminate.
      * exists [], []. split; [vm_compute; reflexivity|].
        split; [vm_compute; reflexivity|].
        intros p' H. apply elem_of_nil in H. contradiction.
      * apply Hrow. vm_compute. reflexivity.
Defined.

(** C10: when the pair that first accepts a thread raises without
    persisting its post batch (its listing raises after yielding the
    thread, or the post batch cannot be written), the thread's identifier
    stays in the registry to the end of the run: every later pair skips
    the thread, the posts file ends the run without a row for it, and the
    registry the next run loads from that file does not hold it. *)
Theorem unpersisted_ids_stay_registered (reader : Pandas.Reader) (env : Env)
    (cfg : Config) (files : gmap string csv) (before after : list (string * string))
    (s q : string) (p : Submission.t) :
  output_posts_file cfg <> output_comments_file cfg ->
  posts_wf (files !! output_posts_file cfg) ->
  NoDup (file_ids reader (files !! output_posts_file cfg)) ->
  pairs cfg = before ++ (s, q) :: after ->
  Submission.id p ∉ file_ids reader (files !! output_posts_file cfg) ->
  unseen_in env cfg before (Submission.id p) ->
  first_in_window env (items (listing_of env cfg s q)) p ->
  flushes_posts env cfg s q = false ->
  (p ∈ accepted env
         (processed_post_ids (pairs_final env cfg before (loop_start reader cfg files)))
         (items (listing_of env cfg s q))
   /\ exists e,
       pair_caught env cfg s q (pairs_final env cfg before (loop_start reader cfg files))
       = Some e)
  /\ (forall after1 after2, after = after1 ++ after2 ->
        Submission.id p
        ∈ processed_post_ids
            (pairs_final env cfg (before ++ (s, q) :: after1)
                         (loop_start reader cfg files)))
  /\ (forall after1 s' q' after2 p',
        after = after1 ++ (s', q') :: after2 ->
        p' ∈ accepted env
               (processed_post_ids
                  (pairs_final env cfg (before ++ (s, q) :: after1)
                               (loop_start reader cfg files)))
               (items (listing_of env cfg s' q')) ->
        Submission.id p' <> Submission.id p)
  /\ main reader env cfg files
     = (Returned tt,
        add_effects (pairs_final env cfg (before ++ (s, q) :: after)
                                 (loop_start reader cfg files))
                    [PbarClose; LogInfo "Data collection complete.";
                     LogInfo "--- Scraping script finished ---"])
  /\ (Submission.id p ∈ processed_post_ids (main reader env cfg files).2)
  /\ rows_with_id reader (Submission.id p)
       (fs (main reader env cfg files).2 !! output_posts_file cfg) = []
  /\ (Submission.id p
      ∉ file_ids reader (fs (main reader env cfg files).2 !! output_posts_file cfg))
  /\ exists ids,
      _load_processed_ids reader cfg (mk_state ∅ (fs (main reader env cfg files).2) [])
      = (Returned ids, mk_state ∅ (fs (main reader env cfg files).2) [])
      /\ Submission.id p ∉ ids.
Proof.
  intros Hne Hwf Hnd Hpairs Hnew Hun Hfirst Hfl.
  destruct (new_id_at_start reader cfg files _ Hwf Hnew) as [Hnew0 Hnone].
  destruct (first_acceptance_decides reader env cfg before after s q p
              (loop_start reader cfg files) Hne Hwf Hnew0 Hun Hfirst) as [Hrows Hreg].
  rewrite Hfl, Hnone in Hrows. cbn [app] in Hrows.
  destruct (unseen_pairs_skip reader env cfg _ before Hne Hun
              (loop_start reader cfg files) Hwf Hnew0) as [Hnew1 _].
  assert (Hacc : p ∈ accepted env
                   (processed_post_ids
                      (pairs_final env cfg before (loop_start reader cfg files)))
                   (items (listing_of env cfg s q))).
  { destruct Hfirst as (l1 & l2 & -> & Hin & Hf1). by apply accepted_first. }
  pose proof (pairs_final_wf env cfg (pairs cfg) Hne (loop_start reader cfg files) Hwf)
    as Hwf_end.
  rewrite main_eq by exact Hwf. rewrite Hpairs in *.
  cbn [fst snd add_effects fs processed_post_ids].
  split; [split; [exact Hacc | by eapply unflushed_pair_raised]|].
  split; [exact Hreg|].
  split.
  { intros after1 s' q' after2 p' Hafter Hp' Heq. apply accepted_fresh in Hp'.
    apply Hp'. rewrite Heq. by eapply Hreg. }
  split; [reflexivity|].
  split; [apply (Hreg after []); by rewrite app_nil_r|].
  split; [exact Hrows|].
  assert (Hnotin : Submission.id p
                   ∉ file_ids reader
                       (fs (pairs_final env cfg (before ++ (s, q) :: after)
                                        (loop_start reader cfg files))
                        !! output_posts_file cfg)).
  { intros Hin. apply (rows_with_id_file_ids reader _ _ Hwf_end) in Hin.
    apply Hin, Hrows. }
  split; [exact Hnotin|].
  eexists. split.
  - apply (load_processed_ids_wf reader cfg (mk_state ∅ _ [])). exact Hwf_end.
  - cbn [fs]. rewrite elem_of_list_to_set. intros H. apply Hnotin, loaded_in_file, H.
Qed.

Lemma unpersisted_ids_stay_registered_witness :
  ("t1" ∈ processed_post_ids (main int_or_text_reader a_q1_breaks_midway cfg_2x2 ∅).2)
  /\ rows_with_id int_or_text_reader "t1"
       (fs (main int_or_text_reader a_q1_breaks_midway cfg_2x2 ∅).2
        !! "reddit_posts.csv") = [].
Proof.
  destruct (unpersisted_ids_stay_registered int_or_text_reader a_q1_breaks_midway
              cfg_2x2 ∅ [] [("A", "Q2"); ("B", "Q1"); ("B", "Q2")] "A" "Q1" post_a)
    as (_ & _ & _ & _ & Hreg & Hrows & _).
  - vm_compute. discriminate.
  - vm_compute. exact I.
  - vm_compute. constructor.
  - vm_compute. reflexivity.
  - vm_compute. intros H. apply elem_of_nil in H. exact H.
  - intros sq p H. apply elem_of_nil in H. contradiction.
  - exists [], []. split; [vm_compute; reflexivity|]. split; [vm_compute; reflexivity|].
    intros p' H. apply elem_of_nil in H. contradiction.
  - vm_compute. reflexivity.
  - split; [exact Hreg | exact Hrows].
Defined.

(** ** Running the driver again *)

(** C3 fails as stated: the data of the remote source is the same in both
    runs ([post_a] under every search in A, [post_b] under every search in
    B), but in the first run the listing of (A, Q1) raises after yielding
    [post_a], which is then registered and never written.  The second run,
    with the same configuration, meets no failure, finds "t2" alone in the
    file and appends [post_a]: the identifiers of the posts file go from
    "t2" to "t2", "t1". *)
Lemma second_run_after_recovery :
  let run1 := main int_or_text_reader a_q1_breaks_midway cfg_2x2 ∅ in
  let run2 := main int_or_text_reader a_q1_recovered cfg_2x2 (fs run1.2) in
  (forall s q,
      items (listing_of a_q1_recovered cfg_2x2 s q)
      = items (listing_of a_q1_breaks_midway cfg_2x2 s q))
  /\ run1.1 = Returned tt
  /\ file_ids int_or_text_reader (fs run1.2 !! "reddit_posts.csv") = ["t2"]
  /\ run2.1 = Returned tt
  /\ file_ids int_or_text_reader (fs run2.2 !! "reddit_posts.csv") = ["t2"; "t1"]
  /\ fs run2.2 !! "reddit_posts.csv"
     = Some [map VStr post_columns; post_row "B" "Q1" post_b; post_row "A" "Q1" post_a].
Proof.
  cbv zeta. split.
  - intros s q. unfold listing_of, a_q1_recovered, a_q1_breaks_midway. cbn [search].
    destruct (String.eqb s "A"); [|reflexivity].
    destruct (String.prefix "Q1 " _); reflexivity.
  - repeat split; vm_compute; reflexivity.
Qed.

(** C3, amended: the registry is loaded from the column labelled
    [post_id] of the posts file: it is empty when the file is absent, holds
    no line at all, or holds a header alone, and otherwise, when the
    identifiers of the file are read back as the strings written, it is the
    set of the identifiers of all data rows.  Take posts and comments paths
    that differ and a posts file that is absent or begins with the header
    the driver writes.  When the identifiers of the file the first run
    leaves are read back as the strings written, a second run with the same
    configuration against a remote source and a host that behave as in the
    first run (the same listings, raising where they raised, the same
    writes refused) accepts nothing and writes nothing: the files, and with
    them the identifiers of the posts file, are as the first run left
    them. *)
Theorem second_run_appends_nothing (reader : Pandas.Reader) (env : Env)
    (cfg : Config) (files : gmap string csv) :
  output_posts_file cfg <> output_comments_file cfg ->
  posts_wf (files !! output_posts_file cfg) ->
  reads_back reader (fs (main reader env cfg files).2 !! output_posts_file cfg) ->
  (forall st, fs st !! output_posts_file cfg = None ->
              _load_processed_ids reader cfg st = (Returned ∅, st))
  /\ (forall st, fs st !! output_posts_file cfg = Some [] ->
                 _load_processed_ids reader cfg st = (Returned ∅, st))
  /\ (forall st h k,
         fs st !! output_posts_file cfg = Some [h] ->
         Pandas.label_index "post_id" h = Some k ->
         _load_processed_ids reader cfg st = (Returned ∅, st))
  /\ (forall st h rows k,
         fs st !! output_posts_file cfg = Some (h :: rows) ->
         Pandas.label_index "post_id" h = Some k ->
         reads_back reader (Some (h :: rows)) ->
         _load_processed_ids reader cfg st
         = (Returned (list_to_set (column_texts reader k rows)), st))
  /\ (main reader env cfg files).1 = Returned tt
  /\ (main reader env cfg (fs (main reader env cfg files).2)).1 = Returned tt
  /\ fs (main reader env cfg (fs (main reader env cfg files).2)).2
     = fs (main reader env cfg files).2
  /\ file_ids reader
       (fs (main reader env cfg (fs (main reader env cfg files).2)).2
        !! output_posts_file cfg)
     = file_ids reader (fs (main reader env cfg files).2 !! output_posts_file cfg).
Proof.
  intros Hne Hwf.
  rewrite (main_eq reader env cfg files Hwf). cbn [fst snd add_effects fs].
  intros Hread.
  split. { intros st H. unfold _load_processed_ids, bind, get_fs. rewrite H. reflexivity. }
  split. { intros st H. unfold _load_processed_ids, bind, get_fs. rewrite H. reflexivity. }
  split.
  { intros st h k H Hk. rewrite (load_processed_ids_labelled reader cfg st h [] k H Hk).
    rewrite (loaded_ids_labelled reader h [] k Hk). reflexivity. }
  split.
  { intros st h rows k H Hk Hrb.
    rewrite (load_processed_ids_labelled reader cfg st h rows k H Hk).
    rewrite (loaded_set reader _ Hrb). cbn [file_ids]. rewrite Hk. reflexivity. }
  set (st1 := loop_start reader cfg files) in *.
  set (end1 := pairs_final env cfg (pairs cfg) st1) in *.
  assert (Hwf1 : posts_wf (fs end1 !! output_posts_file cfg)).
  { apply pairs_final_wf; [exact Hne | exact Hwf]. }
  rewrite (main_eq reader env cfg (fs end1) Hwf1). cbn [fst snd add_effects fs].
  assert (Hfs : fs (pairs_final env cfg (pairs cfg) (loop_start reader cfg (fs end1)))
                = fs end1).
  { apply (second_run_stable reader env cfg (pairs cfg) Hne st1
             (loop_start reader cfg (fs end1)) Hwf).
    - intros i Hi. cbn [st1 loop_start processed_post_ids] in *.
      apply elem_of_list_to_set in Hi. apply elem_of_list_to_set.
      apply Hread. apply pairs_final_file_ids_mono; [exact Hne|exact Hwf|].
      apply loaded_in_file, Hi.
    - intros i Hi. cbn [loop_start processed_post_ids].
      apply elem_of_list_to_set, Hread, Hi. }
  split; [reflexivity|]. split; [reflexivity|].
  split; [exact Hfs|]. rewrite Hfs. reflexivity.
Qed.

(** Both runs meet the failure of (A, Q1): the first leaves [post_b] in the
    file, and the second leaves the files as they are. *)
Lemma second_run_appends_nothing_witness :
  fs (main int_or_text_reader a_q1_breaks_midway cfg_2x2
           (fs (main int_or_text_reader a_q1_breaks_midway cfg_2x2 ∅).2)).2
  = fs (main int_or_text_reader a_q1_breaks_midway cfg_2x2 ∅).2
  /\ fs (main int_or_text_reader a_q1_breaks_midway cfg_2x2 ∅).2 !! "reddit_posts.csv"
     = Some [map VStr post_columns; post_row "B" "Q1" post_b].
Proof.
  destruct (second_run_appends_nothing int_or_text_reader a_q1_breaks_midway cfg_2x2 ∅)
    as (_ & _ & _ & _ & _ & _ & Hfs & _).
  - vm_compute. discriminate.
  - vm_compute. exact I.
  - apply reads_back_eq. vm_compute. reflexivity.
  - split; [exact Hfs | vm_compute; reflexivity].
Defined.

(** * Further properties of the code *)

(** ** The constructor and the script *)

(** What was logged before a pair has no influence on what the pair does. *)
Lemma pair_final_prefix (env : Env) (cfg : Config) (s q : string)
    (pre : list event) (st : State) :
  pair_final env cfg s q (with_prefix pre st)
  = with_prefix pre (pair_final env cfg s q st).
Proof.
  unfold pair_final, with_prefix.
  destruct (failure (listing_of env cfg s q)) as [e|].
  { unfold add_effects, register. cbn [processed_post_ids fs effects].
    rewrite <- ?app_assoc. reflexivity. }
  cbn [processed_post_ids].
  destruct (write_error env (output_posts_file cfg)) as [ep|] eqn:Hwp;
    destruct (write_error env (output_comments_file cfg)) as [ec|] eqn:Hwc;
    destruct (map (post_record s q) _) as [|r1 batch1];
    destruct (concat (map (harvest cfg) _)) as [|r2 batch2];
    repeat (rewrite save_data_eq; cbv beta iota; rewrite ?Hwp, ?Hwc);
    unfold add_effects, register; cbn [processed_post_ids fs effects];
    rewrite <- ?app_assoc; reflexivity.
Qed.

Lemma pairs_final_prefix (env : Env) (cfg : Config) (pre : list event)
    (l : list (string * string)) :
  forall st, pairs_final env cfg l (with_prefix pre st)
             = with_prefix pre (pairs_final env cfg l st).
Proof.
  induction l as [|sq l IH]; intros st; [reflexivity|].
  simpl. rewrite pair_final_prefix. apply IH.
Qed.

Lemma add_effects_with_prefix (pre evs : list event) (st : State) :
  add_effects (with_prefix pre st) evs = with_prefix pre (add_effects st evs).
Proof.
  unfold add_effects, with_prefix. cbn [processed_post_ids fs effects].
  rewrite app_assoc. reflexivity.
Qed.

Lemma run_prefix (env : Env) (cfg : Config) (pre : list event) (st : State) :
  (scrape_data env cfg ;;; emit (LogInfo "--- Scraping script finished ---"))%py
    (with_prefix pre st)
  = (Returned tt,
     with_prefix pre
       ((scrape_data env cfg ;;;
         emit (LogInfo "--- Scraping script finished ---"))%py st).2)
  /\ ((scrape_data env cfg ;;;
       emit (LogInfo "--- Scraping script finished ---"))%py st).1 = Returned tt.
Proof.
  unfold bind. rewrite !scrape_data_eq. unfold emit.
  split; [|reflexivity]. cbn [snd]. f_equal.
  rewrite add_effects_with_prefix, pairs_final_prefix.
  unfold with_prefix, add_effects.
  cbn [processed_post_ids fs effects]. rewrite <- !app_assoc. reflexivity.
Qed.

(** The registry read from the files does not depend on the rest of the
    state, and reading it changes nothing. *)
Lemma load_indep (reader : Pandas.Reader) (cfg : Config) (st : State) :
  _load_processed_ids reader cfg st
  = ((_load_processed_ids reader cfg (mk_state ∅ (fs st) [])).1, st).
Proof.
  unfold _load_processed_ids, bind, get_fs. cbn [fs].
  destruct (fs st !! output_posts_file cfg) as [lines|]; [|reflexivity].
  destruct (Pandas.read_csv reader lines) as [df|[]]; try reflexivity.
  destruct (Pandas.getitem df "post_id") as [col|[]]; reflexivity.
Qed.

(** X2: with the three credentials present, a client that cannot be built
    ends the script with the exception re-raised after one error line; a
    client that is built makes the script the run [main] preceded by the
    connection line: same outcome, same registry, same files. *)
Theorem script_is_main_after_connecting (reader : Pandas.Reader) (proc : Process)
    (env : Env) (cfg : Config) (files : gmap string csv) :
  truthy (getenv proc "REDDIT_CLIENT_ID") = true ->
  truthy (getenv proc "REDDIT_CLIENT_SECRET") = true ->
  truthy (getenv proc "REDDIT_USER_AGENT") = true ->
  (forall e, reddit_client proc = inl e ->
     script reader proc env cfg files
     = (inl (Reraised e),
        mk_state ∅ files
          [LogError ("Failed to create Reddit instance: " +:+ exn_str e)]))
  /\ (forall read_only, reddit_client proc = inr read_only ->
        script reader proc env cfg files
        = (match (main reader env cfg files).1 with
           | Returned _ => inr tt
           | Raised e => inl (Reraised e)
           end,
           with_prefix [LogInfo ("Connected to Reddit API | Read-only: "
                                 +:+ str_bool read_only)]
                       (main reader env cfg files).2)).
Proof.
  intros H1 H2 H3. unfold script, __init__. rewrite H1, H2, H3. cbn [andb negb].
  split; [intros e ->; reflexivity|].
  intros ro ->. unfold main, init.
  rewrite load_indep. cbn [fs effects].
  pose proof (load_indep reader cfg (mk_state ∅ files [])) as Hload. cbn [fs] in Hload.
  destruct (_load_processed_ids reader cfg (mk_state ∅ files [])) as [r st0].
  cbn [fst] in *. injection Hload as ->. cbn [fs effects].
  destruct r as [ids|e]; [|reflexivity].
  change (mk_state ids files
            [LogInfo ("Connected to Reddit API | Read-only: " +:+ str_bool ro)])
    with (with_prefix [LogInfo ("Connected to Reddit API | Read-only: "
                                +:+ str_bool ro)] (mk_state ids files [])).
  destruct (run_prefix env cfg
              [LogInfo ("Connected to Reddit API | Read-only: " +:+ str_bool ro)]
              (mk_state ids files [])) as [Hrun Hret].
  rewrite Hrun.
  destruct ((scrape_data env cfg ;;;
             emit (LogInfo "--- Scraping script finished ---"))%py
              (mk_state ids files [])) as [[[]|e] st'];
    [reflexivity | discriminate].
Qed.

Lemma script_is_main_after_connecting_witness :
  script int_or_text_reader good_process a_q1_breaks cfg_2x2 ∅
  = (inr tt,
     with_prefix [LogInfo "Connected to Reddit API | Read-only: True"]
                 (main int_or_text_reader a_q1_breaks cfg_2x2 ∅).2).
Proof.
  exact (proj2 (script_is_main_after_connecting int_or_text_reader good_process a_q1_breaks cfg_2x2 ∅
                  eq_refl eq_refl eq_refl) true eq_refl).
Defined.
(** ** Loading the registry, saving a batch *)

(** X4: a posts file whose first line has no [post_id] label makes
    [_load_processed_ids] raise [KeyError] (only [EmptyDataError] is
    caught).  The script, once it has its credentials and its client, ends
    there with that exception: the connection line is the one line it has
    logged, no pair is processed, and the output files are as they were. *)
Theorem missing_id_column_aborts (reader : Pandas.Reader) (proc : Process)
    (env : Env) (cfg : Config) (files : gmap string csv) (header : list value)
    (rows : list (list value)) (read_only : bool) :
  truthy (getenv proc "REDDIT_CLIENT_ID") = true ->
  truthy (getenv proc "REDDIT_CLIENT_SECRET") = true ->
  truthy (getenv proc "REDDIT_USER_AGENT") = true ->
  reddit_client proc = inr read_only ->
  files !! output_posts_file cfg = Some (header :: rows) ->
  Pandas.label_index "post_id" header = None ->
  (forall ids evs,
      _load_processed_ids reader cfg (mk_state ids files evs)
      = (Raised (KeyError "post_id"), mk_state ids files evs))
  /\ script reader proc env cfg files
     = (inl (Reraised (KeyError "post_id")),
        mk_state ∅ files
          [LogInfo ("Connected to Reddit API | Read-only: " +:+ str_bool read_only)])
  /\ scraper_log (effects (script reader proc env cfg files).2)
     = [("INFO", "Connected to Reddit API | Read-only: " +:+ str_bool read_only)].
Proof.
  intros H1 H2 H3 Hclient Hf Hk.
  assert (Hload : forall ids evs,
            _load_processed_ids reader cfg (mk_state ids files evs)
            = (Raised (KeyError "post_id"), mk_state ids files evs)).
  { intros ids evs. unfold _load_processed_ids, bind, get_fs. cbn [fs]. rewrite Hf.
    unfold Pandas.read_csv, Pandas.getitem. cbn [Pandas.df_header]. rewrite Hk.
    reflexivity. }
  split; [exact Hload|].
  assert (Hscript : script reader proc env cfg files
                    = (inl (Reraised (KeyError "post_id")),
                       mk_state ∅ files
                         [LogInfo ("Connected to Reddit API | Read-only: "
                                   +:+ str_bool read_only)])).
  { unfold script, __init__. rewrite H1, H2, H3, Hclient. cbn [andb negb].
    rewrite Hload. reflexivity. }
  split; [exact Hscript|]. rewrite Hscript. reflexivity.
Qed.

Lemma missing_id_column_aborts_witness :
  script int_or_text_reader good_process post_a_everywhere CONFIG files_no_id
  = (inl (Reraised (KeyError "post_id")),
     mk_state ∅ files_no_id [LogInfo "Connected to Reddit API | Read-only: True"]).
Proof.
  apply (missing_id_column_aborts int_or_text_reader good_process post_a_everywhere
           CONFIG files_no_id [VStr "id"; VStr "title"] [] true).
  - reflexivity.
  - reflexivity.
  - reflexivity.
  - reflexivity.
  - vm_compute. reflexivity.
  - vm_compute. reflexivity.
Defined.

(** X5: saving and loading round-trip.  After a non-empty batch of post
    records is saved to a posts file that was absent or began with the
    driver's header, the file holds the identifiers it held before followed
    by those of the batch.  The registry loaded from it holds only such
    identifiers; it holds all of them when they are read back as the
    strings written. *)
Theorem save_then_load (reader : Pandas.Reader) (env : Env) (cfg : Config)
    (s q : string) (p : Submission.t) (acc : list Submission.t) (st : State) :
  posts_wf (fs st !! output_posts_file cfg) ->
  write_error env (output_posts_file cfg) = None ->
  let saved :=
    _save_data env (map (post_record s q) (p :: acc)) (output_posts_file cfg) st in
  saved.1 = Returned tt
  /\ file_ids reader (fs saved.2 !! output_posts_file cfg)
     = file_ids reader (fs st !! output_posts_file cfg) ++ map Submission.id (p :: acc)
  /\ (exists ids,
        _load_processed_ids reader cfg saved.2 = (Returned ids, saved.2)
        /\ (forall i, i ∈ ids ->
              i ∈ file_ids reader (fs st !! output_posts_file cfg)
              \/ exists x, x ∈ p :: acc /\ Submission.id x = i)
        /\ (reads_back reader (fs saved.2 !! output_posts_file cfg) ->
            forall i, i ∈ file_ids reader (fs st !! output_posts_file cfg)
                      \/ (exists x, x ∈ p :: acc /\ Submission.id x = i) ->
                      i ∈ ids)).
Proof.
  intros Hwf Hw. cbv zeta.
  destruct (_save_data env (map (post_record s q) (p :: acc)) (output_posts_file cfg) st)
    as [r st1] eqn:Hs.
  rewrite save_data_eq in Hs. simpl map at 1 in Hs. cbv beta iota in Hs.
  rewrite Hw in Hs.
  change (post_record s q p :: map (post_record s q) acc)
    with (map (post_record s q) (p :: acc)) in Hs.
  rewrite to_csv_lines_posts in Hs.
  assert (Hwf1 : exists rows,
            default [] (fs st !! output_posts_file cfg)
            ++ (if bool_decide (fs st !! output_posts_file cfg = None)
                then [map VStr post_columns] else [])
            ++ map (post_row s q) (p :: acc)
            = map VStr post_columns :: rows
            /\ row_ids reader rows
               = file_ids reader (fs st !! output_posts_file cfg)
                 ++ map Submission.id (p :: acc)).
  { destruct (fs st !! output_posts_file cfg) as [lines|].
    - destruct Hwf as [rows ->]. rewrite bool_decide_eq_false_2 by discriminate.
      cbn [default from_option id app]. eexists. split; [reflexivity|].
      rewrite file_ids_wf, row_ids_app, row_ids_posts. reflexivity.
    - rewrite bool_decide_eq_true_2 by reflexivity.
      cbn [default from_option id app]. eexists. split; [reflexivity|].
      rewrite row_ids_posts. reflexivity. }
  destruct Hwf1 as (rows & Hlines & Hids).
  rewrite Hlines in Hs. injection Hs as <- <-. cbn [fst snd].
  split; [reflexivity|]. cbn [fs]. rewrite lookup_insert_eq, file_ids_wf, Hids.
  split; [reflexivity|].
  eexists. split.
  - rewrite load_processed_ids_wf.
    + reflexivity.
    + cbn [fs]. rewrite lookup_insert_eq. eexists. reflexivity.
  - cbn [fs]. rewrite lookup_insert_eq.
    assert (Hmem : forall i,
              i ∈ file_ids reader (fs st !! output_posts_file cfg)
                  ++ map Submission.id (p :: acc)
              <-> i ∈ file_ids reader (fs st !! output_posts_file cfg)
                  \/ exists x, x ∈ p :: acc /\ Submission.id x = i).
    { intros i. rewrite elem_of_app, list_elem_of_fmap.
      split; (intros [H|(x & H1 & H2)]; [by left | right; exists x; auto]). }
    split.
    + intros i Hi. apply elem_of_list_to_set, loaded_in_file in Hi.
      rewrite file_ids_wf, Hids in Hi. apply Hmem, Hi.
    + intros Hread i Hi. apply elem_of_list_to_set, Hread.
      rewrite file_ids_wf, Hids. apply Hmem, Hi.
Qed.

Lemma save_then_load_witness :
  let saved :=
    _save_data reliable_host (map (post_record "A" "Q1") [post_a; post_b])
               "reddit_posts.csv" state0 in
  saved.1 = Returned tt
  /\ file_ids int_or_text_reader (fs saved.2 !! "reddit_posts.csv") = ["t1"; "t2"]
  /\ exists ids,
      _load_processed_ids int_or_text_reader CONFIG saved.2 = (Returned ids, saved.2)
      /\ "t1" ∈ ids /\ "t2" ∈ ids.
Proof.
  destruct (save_then_load int_or_text_reader reliable_host CONFIG "A" "Q1" post_a
              [post_b] state0)
    as (Hsave & Hfile & ids & Hload & _ & Hids).
  - vm_compute. exact I.
  - reflexivity.
  - cbv zeta. split; [exact Hsave|]. split; [exact Hfile|].
    exists ids. split; [exact Hload|].
    assert (Hread : reads_back int_or_text_reader
                      (fs (_save_data reliable_host
                             (map (post_record "A" "Q1") [post_a; post_b])
                             (output_posts_file CONFIG) state0).2
                       !! output_posts_file CONFIG)).
    { apply reads_back_eq. vm_compute. reflexivity. }
    split; apply (Hids Hread); right.
    + exists post_a. split; [by left | reflexivity].
    + exists post_b. split; [right; by left | reflexivity].
Defined.

(** X7: a posts file that exists but holds no line gets no header:
    [_load_processed_ids] swallows [EmptyDataError] and returns the empty
    registry, [_save_data] sees the path exist and appends bare rows, and
    the next [_load_processed_ids] takes the first post row for the header
    and raises [KeyError] (unless one of that row's cells is the text
    [post_id]). *)
Theorem empty_file_never_gets_header (reader : Pandas.Reader) (env : Env)
    (cfg : Config) (s q : string) (p : Submission.t) (acc : list Submission.t)
    (st : State) :
  fs st !! output_posts_file cfg = Some [] ->
  write_error env (output_posts_file cfg) = None ->
  Pandas.label_index "post_id" (Pandas.row post_columns (post_record s q p)) = None ->
  _load_processed_ids reader cfg st = (Returned ∅, st)
  /\ exists st1,
      _save_data env (map (post_record s q) (p :: acc)) (output_posts_file cfg) st
      = (Returned tt, st1)
      /\ fs st1 !! output_posts_file cfg
         = Some (map (Pandas.row post_columns) (map (post_record s q) (p :: acc)))
      /\ _load_processed_ids reader cfg st1 = (Raised (KeyError "post_id"), st1).
Proof.
  intros Hf Hw Hk. split.
  { unfold _load_processed_ids, bind, get_fs. rewrite Hf. reflexivity. }
  rewrite save_data_eq. simpl map at 1. cbv beta iota. rewrite Hw.
  eexists. split; [reflexivity|].
  change (post_record s q p :: map (post_record s q) acc)
    with (map (post_record s q) (p :: acc)).
  rewrite to_csv_lines_posts, Hf. rewrite bool_decide_eq_false_2 by discriminate.
  cbn [default from_option id app fs]. rewrite lookup_insert_eq.
  split; [by rewrite map_map|].
  unfold _load_processed_ids, bind, get_fs. cbn [fs]. rewrite lookup_insert_eq.
  change (map (post_row s q) (p :: acc))
    with (post_row s q p :: map (post_row s q) acc).
  unfold Pandas.read_csv, Pandas.getitem. cbn [Pandas.df_header].
  unfold post_row at 1. rewrite Hk. reflexivity.
Qed.

Lemma empty_file_never_gets_header_witness :
  exists st1,
    _save_data reliable_host (map (post_record "A" "Q1") [post_a])
               "reddit_posts.csv" (mk_state ∅ files_empty_posts [])
    = (Returned tt, st1)
    /\ fs st1 !! "reddit_posts.csv" = Some [post_row "A" "Q1" post_a]
    /\ _load_processed_ids int_or_text_reader CONFIG st1 = (Raised (KeyError "post_id"), st1).
Proof.
  destruct (empty_file_never_gets_header int_or_text_reader reliable_host CONFIG "A" "Q1" post_a []
              (mk_state ∅ files_empty_posts []))
    as (_ & st1 & Hsave & Hfile & Hload).
  - vm_compute. reflexivity.
  - reflexivity.
  - vm_compute. reflexivity.
  - exists st1. split; [exact Hsave|]. split; [exact Hfile | exact Hload].
Defined.

(** ** The harvester: top-level replies come first *)

Lemma list_loop_prefix (fuel : nat) :
  forall queue, (Forest.size queue <= fuel)%nat ->
    exists rest, Forest.list_loop fuel queue = queue ++ rest.
Proof.
  induction fuel as [|fuel IH]; intros queue Hq.
  - destruct queue as [|c queue]; [by exists []|].
    rewrite size_cons, node_size_replies in Hq. lia.
  - destruct queue as [|c queue]; [by exists []|].
    simpl Forest.list_loop.
    destruct (IH (queue ++ Forest.replies_of c)) as [rest Hrest].
    { rewrite size_cons, node_size_replies in Hq. rewrite size_app. lia. }
    rewrite Hrest. exists (Forest.replies_of c ++ rest).
    rewrite <- app_assoc. reflexivity.
Qed.

Lemma comments_of_app (a b : list Forest.node) :
  comments_of (a ++ b) = comments_of a ++ comments_of b.
Proof.
  induction a as [|n a IH]; [reflexivity|].
  destruct n; simpl; rewrite IH; reflexivity.
Qed.

Lemma comments_of_replace_more_0 (f : list Forest.node) :
  comments_of (Forest.replace_more_0 f) = comments_of f.
Proof.
  unfold Forest.replace_more_0. induction f as [|n f IH]; [reflexivity|].
  simpl. rewrite comments_of_app, IH. destruct n; reflexivity.
Qed.

(** X8: the harvested replies start with the top-level comments of the
    thread, in order: when there are at least [comment_limit_per_post]
    loaded top-level comments, the records are exactly the first
    [comment_limit_per_post] of them and no reply to a comment is reached. *)
Theorem fetch_comments_top_level_first (cfg : Config) (post : Submission.t)
    (forest : list Forest.node) (st : State) :
  Submission.comments post = inr forest ->
  (Z.to_nat (comment_limit_per_post cfg) <= length (comments_of forest))%nat ->
  _fetch_comments cfg post st
  = (Returned (map (comment_record post)
                   (take (Z.to_nat (comment_limit_per_post cfg)) (comments_of forest))),
     st).
Proof.
  intros Hc Hn. rewrite fetch_comments_eq. unfold harvest, harvest_events.
  rewrite Hc, app_nil_r. unfold loaded_comments, Forest.flat_list, ceiling.
  destruct (list_loop_prefix (Forest.size (Forest.replace_more_0 forest))
              (Forest.replace_more_0 forest)) as [rest ->]; [lia|].
  rewrite comments_of_app, comments_of_replace_more_0.
  rewrite take_app_le by exact Hn. destruct st; reflexivity.
Qed.

Lemma fetch_comments_top_level_first_witness :
  _fetch_comments
    (mk_config [] [] 1000 2 "reddit_posts.csv" "reddit_comments.csv")
    (thread_with (inr [Forest.CommentNode (reply 0) [Forest.CommentNode (reply 1) []];
                       Forest.CommentNode (reply 2) [];
                       Forest.CommentNode (reply 3) []]))
    state0
  = (Returned
       (map (comment_record
               (thread_with
                  (inr [Forest.CommentNode (reply 0) [Forest.CommentNode (reply 1) []];
                        Forest.CommentNode (reply 2) [];
                        Forest.CommentNode (reply 3) []])))
            [reply 0; reply 2]),
     state0).
Proof.
  apply (fetch_comments_top_level_first
           (mk_config [] [] 1000 2 "reddit_posts.csv" "reddit_comments.csv")
           (thread_with
              (inr [Forest.CommentNode (reply 0) [Forest.CommentNode (reply 1) []];
                    Forest.CommentNode (reply 2) [];
                    Forest.CommentNode (reply 3) []]))
           [Forest.CommentNode (reply 0) [Forest.CommentNode (reply 1) []];
            Forest.CommentNode (reply 2) [];
            Forest.CommentNode (reply 3) []] state0).
  - reflexivity.
  - vm_compute. lia.
Defined.

(** ** The loop over a listing *)

Lemma accepted_sublist (env : Env) (l : list Submission.t) :
  forall ids, sublist (accepted env ids l) l.
Proof.
  induction l as [|x l IH]; intros ids; simpl; [constructor|].
  destruct (bool_decide (Submission.id x ∈ ids)); [by apply sublist_cons|].
  destruct (outside_window env (Submission.created_utc x)); [by apply sublist_cons|].
  by apply sublist_skip.
Qed.

(** X9: what [for post in search_results] lets into the batches: the
    accepted posts are taken from the listing in listing order, each lies
    inside the window and was not registered before, no identifier is
    accepted twice, the comment batch is the replies harvested for exactly
    those posts, every submission of the listing inside the window is
    registered afterwards, and the loop itself writes no file. *)
Theorem posts_loop_accepts (env : Env) (cfg : Config) (subreddit_name query : string)
    (l : list Submission.t) (st : State) :
  exists acc st',
    posts_loop env cfg subreddit_name query l [] [] st
    = (Returned (map (post_record subreddit_name query) acc,
                 concat (map (fetched cfg) acc)),
       st')
    /\ sublist acc l
    /\ Forall (fun p => outside_window env (Submission.created_utc p) = false
                        /\ Submission.id p ∉ processed_post_ids st) acc
    /\ NoDup (map Submission.id acc)
    /\ fs st' = fs st
    /\ (forall i, i ∈ processed_post_ids st'
                  <-> i ∈ processed_post_ids st \/ i ∈ map Submission.id acc)
    /\ (forall p, p ∈ l -> outside_window env (Submission.created_utc p) = false ->
                  Submission.id p ∈ processed_post_ids st').
Proof.
  exists (accepted env (processed_post_ids st) l). eexists.
  rewrite posts_loop_eq. split.
  { cbn [app]. f_equal. f_equal. f_equal. f_equal. apply map_ext. intros p.
    unfold fetched. rewrite fetch_comments_eq. reflexivity. }
  split; [apply accepted_sublist|].
  split.
  { apply Forall_forall. intros p Hp. split.
    - by apply accepted_elem in Hp as [_ ?].
    - by apply accepted_fresh in Hp. }
  split; [apply accepted_nodup|].
  split; [reflexivity|].
  cbn [add_effects register processed_post_ids].
  split.
  - intros i. rewrite elem_of_union, elem_of_list_to_set. tauto.
  - intros p Hp Hin. rewrite elem_of_union, elem_of_list_to_set.
    destruct (accepted_covers env l (processed_post_ids st) p Hp Hin); auto.
Qed.

(** X14: with a reply ceiling of zero or less the harvester keeps no
    reply: the loop breaks at its first item, so every thread gets the
    empty list, without a warning when its replies could be retrieved. *)
Theorem no_replies_below_ceiling_one (cfg : Config) (post : Submission.t)
    (st : State) :
  comment_limit_per_post cfg <= 0 ->
  (_fetch_comments cfg post st).1 = Returned []
  /\ (forall forest, Submission.comments post = inr forest ->
                     _fetch_comments cfg post st = (Returned [], st)).
Proof.
  intros Hlim.
  assert (Hzero : Z.to_nat (comment_limit_per_post cfg) = O) by lia.
  split.
  - rewrite fetch_comments_eq. cbn [fst]. unfold harvest, ceiling.
    destruct (Submission.comments post); [reflexivity|].
    rewrite Hzero. reflexivity.
  - intros forest Hc. rewrite fetch_comments_eq. unfold harvest, harvest_events, ceiling.
    rewrite Hc, Hzero, app_nil_r. destruct st; reflexivity.
Qed.

Lemma no_replies_below_ceiling_one_witness :
  _fetch_comments cfg_no_replies post_a state0 = (Returned [], state0).
Proof.
  apply (proj2 (no_replies_below_ceiling_one cfg_no_replies post_a state0
                  ltac:(vm_compute; discriminate))
               [Forest.CommentNode comment_a []] eq_refl).
Defined.

(** ** Counting what a run does *)







(** ** What a run does to the files *)

Lemma extends_refl (paths : list string) (m : gmap string csv) : extends paths m m.
Proof.
  split; [reflexivity|]. intros f lines H. exists []. by rewrite app_nil_r.
Qed.

Lemma extends_trans (paths : list string) (m1 m2 m3 : gmap string csv) :
  extends paths m1 m2 -> extends paths m2 m3 -> extends paths m1 m3.
Proof.
  intros [H1 H1'] [H2 H2']. split.
  - intros f Hf. rewrite H2, H1; auto.
  - intros f lines Hl. destruct (H1' f lines Hl) as [s1 Hs1].
    destruct (H2' f _ Hs1) as [s2 Hs2]. exists (s1 ++ s2).
    rewrite Hs2, app_assoc. reflexivity.
Qed.

Lemma extends_append (paths : list string) (m : gmap string csv) (f : string)
    (suffix : csv) :
  f ∈ paths -> extends paths m (<[f := default [] (m !! f) ++ suffix]> m).
Proof.
  intros Hf. split.
  - intros g Hg. rewrite lookup_insert_ne; [reflexivity|]. intros ->. contradiction.
  - intros g lines Hl. destruct (decide (f = g)) as [->|Hne].
    + rewrite lookup_insert_eq, Hl. eexists. reflexivity.
    + rewrite lookup_insert_ne by exact Hne. exists []. by rewrite app_nil_r.
Qed.

Lemma save_data_extends (env : Env) (paths : list string) (data : list record)
    (f : string) (st : State) :
  f ∈ paths -> extends paths (fs st) (fs (_save_data env data f st).2).
Proof.
  intros Hf. rewrite save_data_eq. destruct data as [|r data]; [apply extends_refl|].
  destruct (write_error env f); [apply extends_refl|].
  cbn [snd fs]. by apply extends_append.
Qed.

Lemma pair_final_extends (env : Env) (cfg : Config) (s q : string) (st : State) :
  extends [output_posts_file cfg; output_comments_file cfg]
          (fs st) (fs (pair_final env cfg s q st)).
Proof.
  assert (Hp : output_posts_file cfg
               ∈ [output_posts_file cfg; output_comments_file cfg]) by (by left).
  assert (Hc : output_comments_file cfg
               ∈ [output_posts_file cfg; output_comments_file cfg])
    by (right; by left).
  unfold pair_final.
  destruct (failure (listing_of env cfg s q)); [apply extends_refl|].
  match goal with
  | |- context [_save_data env ?d (output_posts_file cfg) ?s1] =>
      pose proof (save_data_extends env _ d (output_posts_file cfg) s1 Hp) as H1;
      destruct (_save_data env d (output_posts_file cfg) s1) as [[[]|e] st2]
  end; cbn [snd fs add_effects register] in H1; [|exact H1].
  match goal with
  | |- context [_save_data env ?d (output_comments_file cfg) ?s2] =>
      pose proof (save_data_extends env _ d (output_comments_file cfg) s2 Hc) as H2;
      destruct (_save_data env d (output_comments_file cfg) s2) as [[[]|e] st3]
  end; cbn [snd] in H2; cbn [add_effects fs];
    eapply extends_trans; eauto.
Qed.

Lemma pairs_final_extends (env : Env) (cfg : Config) (l : list (string * string)) :
  forall st, extends [output_posts_file cfg; output_comments_file cfg]
                     (fs st) (fs (pairs_final env cfg l st)).
Proof.
  induction l as [|sq l IH]; intros st; [apply extends_refl|].
  simpl. eapply extends_trans; [apply pair_final_extends | apply IH].
Qed.

(** X11: a whole run, whatever the remote source and the host do, touches
    only its two output paths, and those only by appending ([scraper.log],
    which the logging set-up empties and every logging call writes to, is
    left aside): every other path of the file system is as it was, and a
    file that existed keeps all its lines, in place, at the front of what
    it holds afterwards. *)
Theorem run_only_appends_to_outputs (reader : Pandas.Reader) (env : Env)
    (cfg : Config) (files : gmap string csv) :
  (forall f, f <> "scraper.log" ->
             f <> output_posts_file cfg -> f <> output_comments_file cfg ->
             fs (main reader env cfg files).2 !! f = files !! f)
  /\ (forall f lines, f <> "scraper.log" -> files !! f = Some lines ->
        exists suffix,
          fs (main reader env cfg files).2 !! f = Some (lines ++ suffix)).
Proof.
  assert (H : extends [output_posts_file cfg; output_comments_file cfg]
                      files (fs (main reader env cfg files).2)).
  { unfold main, init. rewrite load_indep. cbn [fs].
    destruct (_load_processed_ids reader cfg (mk_state ∅ files [])).1 as [ids|e];
      [|apply extends_refl].
    unfold bind. rewrite scrape_data_eq. unfold emit. cbn [snd fs add_effects].
    apply (pairs_final_extends env cfg (pairs cfg)
             (mk_state ids files
                ([] ++ [LogInfo "Starting data collection...";
                        LogInfo ("Filtering posts from "
                                 +:+ PyDatetime.date_iso start_date
                                 +:+ " to " +:+ PyDatetime.date_iso end_date)]))). }
  destruct H as [H1 H2]. split; [|intros f lines _; apply H2].
  intros f _ Hp Hc. apply H1. intros Hin.
  apply elem_of_cons in Hin as [->|Hin]; [by apply Hp|].
  apply elem_of_cons in Hin as [->|Hin]; [by apply Hc|].
  apply elem_of_nil in Hin. exact Hin.
Qed.

Lemma load_loaded_ids (reader : Pandas.Reader) (cfg : Config) (st st' : State)
    (ids : gset string) :
  _load_processed_ids reader cfg st = (Returned ids, st') ->
  ids = list_to_set (loaded_ids reader (fs st !! output_posts_file cfg)) /\ st' = st.
Proof.
  unfold _load_processed_ids, bind, get_fs, loaded_ids.
  destruct (fs st !! output_posts_file cfg) as [lines|].
  - destruct (Pandas.read_csv reader lines) as [df|[]]; cbn [ret raise];
      try (intros H; injection H as <- <-; by split); try discriminate.
    destruct (Pandas.getitem df "post_id") as [col|[]]; cbn [ret raise];
      try (intros H; injection H as <- <-; by split); discriminate.
  - intros H. injection H as <- <-. by split.
Qed.

(** X12: a run that meets nothing new writes nothing: when every
    submission of every listing is outside the window or has its
    identifier in the registry loaded from the posts file, every file other
    than [scraper.log] is after the run what it was before (no file is
    created, no header is written), whatever fails on the way. *)
Theorem nothing_new_nothing_written (reader : Pandas.Reader) (env : Env)
    (cfg : Config) (files : gmap string csv) :
  (forall sq p, sq ∈ pairs cfg ->
                p ∈ items (listing_of env cfg sq.1 sq.2) ->
                outside_window env (Submission.created_utc p) = true
                \/ Submission.id p
                   ∈ loaded_ids reader (files !! output_posts_file cfg)) ->
  forall f, f <> "scraper.log" -> fs (main reader env cfg files).2 !! f = files !! f.
Proof.
  intros Hold f _. f_equal. unfold main, init.
  destruct (_load_processed_ids reader cfg (mk_state ∅ files []))
    as [[ids|e] st0] eqn:Hload.
  2:{ pose proof (load_indep reader cfg (mk_state ∅ files [])) as Hl.
      rewrite Hload in Hl. injection Hl as _ ->. reflexivity. }
  apply load_loaded_ids in Hload as [-> ->]. cbn [fs effects].
  unfold bind. rewrite scrape_data_eq. unfold emit. cbn [snd fs add_effects].
  assert (Hpairs : forall l st,
            (forall sq, sq ∈ l -> sq ∈ pairs cfg) ->
            (forall i, i ∈ loaded_ids reader (files !! output_posts_file cfg) ->
                       i ∈ processed_post_ids st) ->
            fs (pairs_final env cfg l st) = fs st).
  { induction l as [|sq l IH]; intros st Hl Hreg; [reflexivity|].
    simpl.
    assert (Hacc : accepted env (processed_post_ids st)
                            (items (listing_of env cfg sq.1 sq.2)) = []).
    { apply accepted_nil. intros p Hp Hin.
      destruct (Hold sq p) as [Hout|Hid]; [apply Hl; by left|exact Hp| |].
      - congruence.
      - by apply Hreg. }
    rewrite IH.
    - by apply pair_final_nothing_accepted.
    - intros sq' Hsq'. apply Hl. by right.
    - intros i Hi. rewrite pair_final_ids. apply elem_of_union_r, Hreg, Hi. }
  rewrite Hpairs; [reflexivity|auto|].
  intros i Hi. cbn [processed_post_ids]. apply elem_of_list_to_set, Hi.
Qed.

(** Every listing shows a post from before the window and [post_a], which
    the posts file already holds: the run leaves the posts file as it is
    and creates no comments file. *)
Lemma nothing_new_nothing_written_witness :
  fs (main int_or_text_reader old_and_known cfg_2x2 files_with_post_a).2
  !! "reddit_posts.csv"
  = Some [map VStr post_columns; post_row "A" "Q1" post_a]
  /\ fs (main int_or_text_reader old_and_known cfg_2x2 files_with_post_a).2
     !! "reddit_comments.csv" = None.
Proof.
  assert (Hold : forall sq p, sq ∈ pairs cfg_2x2 ->
            p ∈ items (listing_of old_and_known cfg_2x2 sq.1 sq.2) ->
            outside_window old_and_known (Submission.created_utc p) = true
            \/ Submission.id p
               ∈ loaded_ids int_or_text_reader
                   (files_with_post_a !! output_posts_file cfg_2x2)).
  { intros sq p _ Hp. change (p ∈ [post_old; post_a]) in Hp.
    apply elem_of_cons in Hp as [->|Hp].
    - left. vm_compute. reflexivity.
    - apply list_elem_of_singleton in Hp as ->. right.
      change ("t1" ∈ loaded_ids int_or_text_reader
                       (files_with_post_a !! output_posts_file cfg_2x2)).
      assert (Hl : loaded_ids int_or_text_reader
                     (files_with_post_a !! output_posts_file cfg_2x2) = ["t1"])
        by (vm_compute; reflexivity).
      rewrite Hl. apply list_elem_of_here. }
  split.
  - etransitivity;
      [apply (nothing_new_nothing_written int_or_text_reader old_and_known cfg_2x2
                files_with_post_a Hold "reddit_posts.csv"); discriminate|].
    vm_compute. reflexivity.
  - etransitivity;
      [apply (nothing_new_nothing_written int_or_text_reader old_and_known cfg_2x2
                files_with_post_a Hold "reddit_comments.csv"); discriminate|].
    vm_compute. reflexivity.
Defined.

(** ** Comments travel with their posts *)

Lemma harvest_post_ids (cfg : Config) (acc : list Submission.t) :
  Forall (fun r => exists p, p ∈ acc
                             /\ Pandas.cell r "post_id" = VStr (Submission.id p))
         (concat (map (harvest cfg) acc)).
Proof.
  induction acc as [|p acc IH]; [constructor|].
  simpl. apply Forall_app. split.
  - unfold harvest. destruct (Submission.comments p); [constructor|].
    apply Forall_map, Forall_forall. intros c _. exists p. split; [by left | reflexivity].
  - eapply Forall_impl; [exact IH|]. intros r (x & Hx & Hr). exists x.
    split; [by right | exact Hr].
Qed.

(** X13: comment rows never reach the comments file without their posts:
    whenever a pair changes the comments file, the same pair has first
    appended to the posts file the records of the posts it accepted, and
    every comment row it appends names one of those posts in its [post_id]
    cell. *)
Theorem comments_travel_with_posts (env : Env) (cfg : Config)
    (subreddit_name query : string) (st : State) :
  output_posts_file cfg <> output_comments_file cfg ->
  fs (pair_final env cfg subreddit_name query st) !! output_comments_file cfg
  = fs st !! output_comments_file cfg
  \/ exists p acc,
      accepted env (processed_post_ids st)
               (items (listing_of env cfg subreddit_name query)) = p :: acc
      /\ fs (pair_final env cfg subreddit_name query st) !! output_posts_file cfg
         = Some (default [] (fs st !! output_posts_file cfg)
                 ++ Pandas.to_csv_lines
                      (map (post_record subreddit_name query) (p :: acc))
                      (bool_decide (fs st !! output_posts_file cfg = None)))
      /\ fs (pair_final env cfg subreddit_name query st) !! output_comments_file cfg
         = Some (default [] (fs st !! output_comments_file cfg)
                 ++ Pandas.to_csv_lines
                      (concat (map (fetched cfg) (p :: acc)))
                      (bool_decide (fs st !! output_comments_file cfg = None)))
      /\ Forall (fun r => exists x, x ∈ p :: acc
                                    /\ Pandas.cell r "post_id" = VStr (Submission.id x))
                (concat (map (fetched cfg) (p :: acc))).
Proof.
  intros Hne.
  assert (Hfetched : forall l, concat (map (fetched cfg) l) = concat (map (harvest cfg) l)).
  { intros l. f_equal. apply map_ext. intros x. unfold fetched.
    rewrite fetch_comments_eq. reflexivity. }
  unfold pair_final. cbn [processed_post_ids add_effects register].
  destruct (failure (listing_of env cfg subreddit_name query)) as [e|]; [by left|].
  destruct (accepted env (processed_post_ids st)
                     (items (listing_of env cfg subreddit_name query)))
    as [|p acc] eqn:Hacc; [by left|].
  pose proof (harvest_post_ids cfg (p :: acc)) as Hids.
  rewrite <- Hfetched in Hids.
  rewrite <- (Hfetched (p :: acc)).
  set (posts := map (post_record subreddit_name query) (p :: acc)).
  assert (Hposts : exists r b, posts = r :: b) by (eexists _, _; reflexivity).
  destruct Hposts as (r1 & b1 & Hposts).
  destruct (write_error env (output_posts_file cfg)) as [ep|] eqn:Hwp;
    destruct (write_error env (output_comments_file cfg)) as [ec|] eqn:Hwc;
    destruct (concat (map (fetched cfg) (p :: acc))) as [|r2 batch2] eqn:Hcomments;
    rewrite Hposts;
    repeat (rewrite save_data_eq; cbv beta iota; rewrite ?Hwp, ?Hwc);
    cbn [fs add_effects];
    try (left; rewrite ?lookup_insert_ne by congruence; reflexivity).
  right. exists p, acc. split; [reflexivity|].
  rewrite <- Hposts, Hcomments.
  split; [|split; [|exact Hids]].
  - rewrite lookup_insert_ne by congruence. rewrite lookup_insert_eq. reflexivity.
  - rewrite lookup_insert_eq. rewrite lookup_insert_ne by congruence. reflexivity.
Qed.

Lemma comments_travel_with_posts_witness :
  fs (pair_final post_a_everywhere CONFIG "India" "BJP" state0) !! "reddit_posts.csv"
  = Some [map VStr post_columns; post_row "India" "BJP" post_a]
  /\ fs (pair_final post_a_everywhere CONFIG "India" "BJP" state0)
       !! "reddit_comments.csv"
     = Some [[VStr "comment_id"; VStr "post_id"; VStr "body"; VStr "score";
              VStr "author"; VStr "created_utc"];
             [VStr "k1"; VStr "t1"; VStr "first"; VInt 3; VStr "bob";
              VStr "2024-05-29 00:00:00"]].
Proof.
  destruct (comments_travel_with_posts post_a_everywhere CONFIG "India" "BJP" state0)
    as [Hsame | (p & acc & Hacc & Hposts & Hcomments & _)].
  - vm_compute. discriminate.
  - vm_compute in Hsame. discriminate.
  - vm_compute in Hacc. injection Hacc as <- <-.
    split.
    + etransitivity; [exact Hposts|]. vm_compute. reflexivity.
    + etransitivity; [exact Hcomments|]. vm_compute. reflexivity.
Defined.

(** ** Identifiers that are not read back *)

(** X15: the registry holds what [read_csv] gives back, not what the file
    holds.  A thread whose identifier is in the file but is not read back as
    the string written (pandas loads a column of digit-only identifiers as
    integers) is taken for new: the first pair that shows it inside the
    window accepts it, and when that pair persists its post batch the file
    gets one more row with that identifier. *)
Theorem unread_ids_are_written_again (reader : Pandas.Reader) (env : Env)
    (cfg : Config) (files : gmap string csv) (before after : list (string * string))
    (s q : string) (p : Submission.t) :
  output_posts_file cfg <> output_comments_file cfg ->
  posts_wf (files !! output_posts_file cfg) ->
  pairs cfg = before ++ (s, q) :: after ->
  Submission.id p ∉ loaded_ids reader (files !! output_posts_file cfg) ->
  unseen_in env cfg before (Submission.id p) ->
  first_in_window env (items (listing_of env cfg s q)) p ->
  flushes_posts env cfg s q = true ->
  rows_with_id reader (Submission.id p)
    (fs (main reader env cfg files).2 !! output_posts_file cfg)
  = rows_with_id reader (Submission.id p) (files !! output_posts_file cfg)
    ++ [post_row s q p].
Proof.
  intros Hne Hwf Hpairs Hnew Hun Hfirst Hfl.
  rewrite main_eq by exact Hwf. cbn [fst snd add_effects fs]. rewrite Hpairs.
  destruct (first_acceptance_decides reader env cfg before after s q p
              (loop_start reader cfg files) Hne Hwf) as [Hrows _]; auto.
  { cbn [loop_start processed_post_ids]. rewrite elem_of_list_to_set. exact Hnew. }
  rewrite Hrows, Hfl. reflexivity.
Qed.

(** The posts file holds one thread, "1915273".  The column is read back
    as integers, the registry holds no string, and the run appends the
    thread a second time. *)
Lemma unread_ids_are_written_again_witness :
  loaded_ids int_or_text_reader (files_with_post_digits !! "reddit_posts.csv") = []
  /\ file_ids int_or_text_reader (files_with_post_digits !! "reddit_posts.csv")
     = ["1915273"]
  /\ rows_with_id int_or_text_reader "1915273"
       (fs (main int_or_text_reader post_digits_everywhere cfg_2x2
                 files_with_post_digits).2
        !! "reddit_posts.csv")
     = [post_row "A" "Q1" post_digits; post_row "A" "Q1" post_digits].
Proof.
  split; [vm_compute; reflexivity|]. split; [vm_compute; reflexivity|].
  etransitivity;
    [apply (unread_ids_are_written_again int_or_text_reader post_digits_everywhere
              cfg_2x2 files_with_post_digits []
              [("A", "Q2"); ("B", "Q1"); ("B", "Q2")] "A" "Q1" post_digits)
    |vm_compute; reflexivity].
  - vm_compute. discriminate.
  - exists [post_row "A" "Q1" post_digits]. vm_compute. reflexivity.
  - vm_compute. reflexivity.
  - assert (Hl : loaded_ids int_or_text_reader
                   (files_with_post_digits !! output_posts_file cfg_2x2) = [])
      by (vm_compute; reflexivity).
    rewrite Hl. intros Hin. apply elem_of_nil in Hin. exact Hin.
  - intros sq x Hsq. apply elem_of_nil in Hsq. contradiction.
  - exists [], []. split; [vm_compute; reflexivity|].
    split; [vm_compute; reflexivity|].
    intros p' Hp'. apply elem_of_nil in Hp'. contradiction.
  - vm_compute. reflexivity.
Defined.
